(** * CodeAnalytics: the analysis engine, embedded and verified

    A shallow embedding of the analyzers of the repository
    ([analyzers/security_analyzer.py], [analyzers/quality_analyzer.py],
    [analyzers/code_analyzer.py], [analyzers/performance_analyzer.py]) and
    the theorems that settle what the specification says about them.

    Conventions of the embedding:
    - a Python [str] is a [string]: a text of code points below 256
      (Latin-1); white space ([str.isspace], which [str.strip] and the
      [\s] of [re] follow) and word characters (the [\w] and [\b] of [re])
      are those of Python on these code points, NEL and NBSP and the
      letters and numerals above 127 included, and so is [str.lower];
    - a Python [int] is a [Z]; line numbers are 1-based as [enumerate(_, 1)]
      produces them;
    - a [dict] is an association list in insertion order, with Python's
      update-in-place semantics;
    - a raised exception is [None] in the [option] monad;
    - of the standard library, [re] is modelled for the pattern language
      of the rule tables, and the [ast] calls ([ast.parse], [ast.unparse],
      [ast.get_docstring]) are parameters of the Python analyzer, whose
      trees are objects with a class name and fields. *)

From Stdlib Require Import String Ascii List ZArith Lia Bool Arith QArith.
From Stdlib Require Import Numbers.DecimalString Sorting.Permutation.
From Stdlib Require Import Sorting.Sorted.
Import ListNotations.

Open Scope string_scope.
Open Scope list_scope.
Open Scope Z_scope.

(* ================================================================== *)
(** * Part I. Definitions *)
(* ================================================================== *)

(** ** Python strings *)

Module PyStr.

(** The double quote, written by code point as in [chr(34)]. *)
Definition dq : string := String (ascii_of_nat 34) EmptyString.

Definition newline : ascii := ascii_of_nat 10.

Definition in_range (lo hi : nat) (c : ascii) : bool :=
  let n := nat_of_ascii c in (lo <=? n)%nat && (n <=? hi)%nat.

(** [str.isspace] on one character: TAB, LF, VT, FF, CR, the four
    separators FS, GS, RS, US, the space, the next-line control U+0085 and
    the no-break space U+00A0. *)
Definition isspace (c : ascii) : bool :=
  in_range 9 13 c || in_range 28 31 c || in_range 32 32 c
  || in_range 133 133 c || in_range 160 160 c.

(** The letters that [str.lower] changes, and those it changes them to:
    A to Z and a to z, and above 127 the capitals from U+00C0 to U+00DE and
    the small letters from U+00E0 to U+00FE, the signs of multiplication
    and division apart. *)
Definition isupper (c : ascii) : bool :=
  in_range 65 90 c || in_range 192 214 c || in_range 216 222 c.
Definition islower (c : ascii) : bool :=
  in_range 97 122 c || in_range 224 246 c || in_range 248 254 c.
Definition isdigit (c : ascii) : bool := in_range 48 57 c.

(** [str.isalnum] above 127: the ordinal indicators, the superscripts 1
    to 3, the micro sign, the fractions, and the letters from U+00C0 on
    but for the signs of multiplication and division. *)
Definition latin1_alnum (c : ascii) : bool :=
  in_range 170 170 c || in_range 178 179 c || in_range 181 181 c
  || in_range 185 186 c || in_range 188 190 c
  || in_range 192 214 c || in_range 216 246 c || in_range 248 255 c.

(** A word character of the [re] module: alphanumeric or underscore. *)
Definition isword (c : ascii) : bool :=
  isupper c || islower c || isdigit c || in_range 95 95 c || latin1_alnum c.

Definition lower_char (c : ascii) : ascii :=
  if isupper c then ascii_of_nat (nat_of_ascii c + 32) else c.

Definition upper_char (c : ascii) : ascii :=
  if islower c then ascii_of_nat (nat_of_ascii c - 32) else c.

(** [s.lower()] *)
Fixpoint lower (s : string) : string :=
  match s with
  | EmptyString => EmptyString
  | String c t => String (lower_char c) (lower t)
  end.

(** [s.lstrip()] *)
Fixpoint lstrip (s : string) : string :=
  match s with
  | EmptyString => EmptyString
  | String c t => if isspace c then lstrip t else s
  end.

(** [s.rstrip()] *)
Fixpoint rstrip (s : string) : string :=
  match s with
  | EmptyString => EmptyString
  | String c t =>
      match rstrip t with
      | EmptyString => if isspace c then EmptyString else String c EmptyString
      | r => String c r
      end
  end.

(** [s.strip()] *)
Definition strip (s : string) : string := rstrip (lstrip s).

(** [s.startswith(p)] *)
Definition startswith (s p : string) : bool := String.prefix p s.

(** [s.startswith((p1, ..., pn))] *)
Definition startswith_any (s : string) (ps : list string) : bool :=
  existsb (startswith s) ps.

(** [s in l] for a list or a set of strings *)
Definition str_in (s : string) (l : list string) : bool :=
  existsb (String.eqb s) l.

(** [s[:n]] for [n >= 0] *)
Definition take (n : nat) (s : string) : string := String.substring 0 n s.

(** Truthiness of a string: [bool(s)]. *)
Definition nonempty (s : string) : bool :=
  match s with EmptyString => false | String _ _ => true end.

(** [s.split("\n")]: the first line and the lines after it. *)
Fixpoint split_first (s : string) : string * list string :=
  match s with
  | EmptyString => (EmptyString, [])
  | String c t =>
      let '(h, r) := split_first t in
      if Ascii.eqb c newline then (EmptyString, h :: r) else (String c h, r)
  end.

Definition split_lines (s : string) : list string :=
  let '(h, r) := split_first s in h :: r.

(** [enumerate(l, start)] *)
Fixpoint enumerate {A : Type} (start : Z) (l : list A) : list (Z * A) :=
  match l with
  | [] => []
  | x :: t => (start, x) :: enumerate (start + 1) t
  end.

(** [len(l)] and [len(s)] as Python integers. *)
Definition len {A : Type} (l : list A) : Z := Z.of_nat (List.length l).
Definition slen (s : string) : Z := Z.of_nat (String.length s).

(** [str(n)] for an integer. *)
Definition str_of_int (n : Z) : string := NilEmpty.string_of_int (Z.to_int n).

(** *** Letter case *)




(** [sub in s] for two strings *)
Fixpoint contains (sub s : string) : bool :=
  if String.prefix sub s then true
  else match s with
       | EmptyString => false
       | String _ t => contains sub t
       end.

(** [s.count(sub)]: the occurrences of [sub] in [s] that do not overlap,
    read from the left; [skip] characters of the last occurrence are still
    to be passed. *)
Fixpoint count_from (sub : string) (skip : nat) (s : string) : Z :=
  match s with
  | EmptyString => 0
  | String _ t =>
      match skip with
      | S k => count_from sub k t
      | O =>
          if String.prefix sub s
          then 1 + count_from sub (Nat.pred (String.length sub)) t
          else count_from sub O t
      end
  end.

Definition str_count (s sub : string) : Z :=
  match sub with
  | EmptyString => slen s + 1
  | String _ _ => count_from sub O s
  end.

End PyStr.

(** ** Dictionaries in insertion order *)

Module PyDict.

Definition dict (V : Type) : Type := list (string * V).

(** [d.get(k)] *)
Fixpoint get {V : Type} (k : string) (d : dict V) : option V :=
  match d with
  | [] => None
  | (k', v) :: t => if String.eqb k k' then Some v else get k t
  end.

(** [k in d] *)
Definition mem {V : Type} (k : string) (d : dict V) : bool :=
  match get k d with Some _ => true | None => false end.

(** [d[k] = v]: an existing key keeps its place, a new key goes last. *)
Fixpoint set {V : Type} (k : string) (v : V) (d : dict V) : dict V :=
  match d with
  | [] => [(k, v)]
  | (k', v') :: t =>
      if String.eqb k k' then (k', v) :: t else (k', v') :: set k v t
  end.

(** [d.update(e)] *)
Definition update {V : Type} (d e : dict V) : dict V :=
  fold_left (fun acc kv => set (fst kv) (snd kv) acc) e d.

(** [d[k] += n], which raises [KeyError] on a missing key. *)
Definition incr (k : string) (n : Z) (d : dict Z) : option (dict Z) :=
  match get k d with
  | Some v => Some (set k (v + n) d)
  | None => None
  end.

(** [d.keys()] *)
Definition keys {V : Type} (d : dict V) : list string := map fst d.


(** The keys of a dictionary are distinct. *)
Fixpoint distinct (l : list string) : bool :=
  match l with
  | [] => true
  | k :: t => negb (existsb (String.eqb k) t) && distinct t
  end.

End PyDict.

(** ** The [re] module: the pattern language the rule tables use

    Patterns are kept as the strings of the source; [compile] reads them
    into a syntax tree and [rmatch] matches a tree by backtracking, in
    continuation-passing style.  The analyzers only ask [re.search] and
    [re.match] whether some match exists, which is what the matcher
    decides; the language covers the constructs the rule tables use. *)

Module Re.
Import PyStr.

Inductive cset_item : Type :=
| CChar (c : ascii)          (* a literal member *)
| CRange (lo hi : ascii)     (* [lo-hi] *)
| CSpace                     (* \s *)
| CDigit                     (* \d *)
| CWord.                     (* \w *)

Inductive regex : Type :=
| Empty
| Lit (c : ascii)
| Dot
| Cls (neg : bool) (items : list cset_item)
| Bol                        (* ^ *)
| WordBoundary               (* \b *)
| Cat (r1 r2 : regex)
| Alt (r1 r2 : regex)
| Star (r : regex)
| NotAhead (r : regex).      (* (?!r) *)

Definition Plus (r : regex) : regex := Cat r (Star r).
Definition Opt (r : regex) : regex := Alt r Empty.

(** [r{m,n}] unfolds to [m] copies followed by [n-m] nested options. *)
Fixpoint rep_opt (r : regex) (k : nat) : regex :=
  match k with
  | O => Empty
  | S k' => Opt (Cat r (rep_opt r k'))
  end.

Fixpoint rep_range (r : regex) (m k : nat) : regex :=
  match m with
  | O => rep_opt r k
  | S m' => Cat r (rep_range r m' k)
  end.

(** *** Parsing *)

Definition ch (c : ascii) (s : string) : bool :=
  match s with
  | String d EmptyString => Ascii.eqb c d
  | _ => false
  end.

Definition alnum (c : ascii) : bool :=
  in_range 65 90 c || in_range 97 122 c || isdigit c.

Definition drop (n : nat) (s : string) : string :=
  String.substring n (String.length s - n) s.

(** An escape outside brackets. *)
Definition parse_escape (e : ascii) : option regex :=
  if ch e "s" then Some (Cls false [CSpace])
  else if ch e "d" then Some (Cls false [CDigit])
  else if ch e "w" then Some (Cls false [CWord])
  else if ch e "b" then Some WordBoundary
  else if alnum e then None
  else Some (Lit e).

(** An escape inside brackets. *)
Definition parse_class_escape (e : ascii) : option cset_item :=
  if ch e "s" then Some CSpace
  else if ch e "d" then Some CDigit
  else if ch e "w" then Some CWord
  else if alnum e then None
  else Some (CChar e).

(** The members of a bracket expression, up to the closing bracket. *)
Fixpoint parse_items (s : string) : option (list cset_item * string) :=
  match s with
  | EmptyString => None
  | String c t =>
      if ch c "]" then Some ([], t)
      else if ch c "\" then
        match t with
        | String e t' =>
            match parse_class_escape e, parse_items t' with
            | Some it, Some (its, rest) => Some (it :: its, rest)
            | _, _ => None
            end
        | EmptyString => None
        end
      else
        match t with
        | String d (String hi t') =>
            if ch d "-" && negb (ch hi "]") then
              (if ch hi "\" then None
               else match parse_items t' with
                    | Some (its, rest) => Some (CRange c hi :: its, rest)
                    | None => None
                    end)
            else
              match parse_items t with
              | Some (its, rest) => Some (CChar c :: its, rest)
              | None => None
              end
        | _ =>
            match parse_items t with
            | Some (its, rest) => Some (CChar c :: its, rest)
            | None => None
            end
        end
  end.

Definition parse_class (s : string) : option (regex * string) :=
  let '(neg, body) :=
    match s with
    | String c t => if ch c "^" then (true, t) else (false, s)
    | EmptyString => (false, s)
    end in
  match body with
  | String c _ =>
      if ch c "]" then None
      else match parse_items body with
           | Some (its, rest) => Some (Cls neg its, rest)
           | None => None
           end
  | EmptyString => None
  end.

(** A decimal number, as in [{m,n}]. *)
Fixpoint parse_nat (acc : option nat) (s : string) : option nat * string :=
  match s with
  | String c t =>
      if isdigit c then
        let d := (nat_of_ascii c - 48)%nat in
        parse_nat (Some (match acc with Some a => 10 * a + d | None => d end)%nat) t
      else (acc, s)
  | EmptyString => (acc, s)
  end.

Definition is_quantifier (c : ascii) : bool :=
  ch c "*" || ch c "+" || ch c "?".

(** The quantifier after an atom, if any.  Lazy and possessive forms are
    outside the supported language. *)
Definition parse_quant (a : regex) (s : string) : option (regex * string) :=
  let checked (r : regex) (rest : string) :=
    match rest with
    | String c _ => if is_quantifier c then None else Some (r, rest)
    | EmptyString => Some (r, rest)
    end in
  match s with
  | String c t =>
      if ch c "*" then checked (Star a) t
      else if ch c "+" then checked (Plus a) t
      else if ch c "?" then checked (Opt a) t
      else if ch c "{" then
        match parse_nat None t with
        | (Some m, String c1 t1) =>
            if ch c1 "," then
              match parse_nat None t1 with
              | (Some n, String c2 t2) =>
                  if ch c2 "}" && (m <=? n)%nat
                  then checked (rep_range a m (n - m)) t2
                  else None
              | _ => None
              end
            else None
        | _ => None
        end
      else Some (a, s)
  | EmptyString => Some (a, s)
  end.

Definition cat (r1 r2 : regex) : regex :=
  match r2 with
  | Empty => r1
  | _ => Cat r1 r2
  end.

Fixpoint parse_alt (fuel : nat) (s : string) : option (regex * string) :=
  match fuel with
  | O => None
  | S f =>
      match parse_seq f s with
      | Some (r, String c rest) =>
          if ch c "|" then
            match parse_alt f rest with
            | Some (r2, rest2) => Some (Alt r r2, rest2)
            | None => None
            end
          else Some (r, String c rest)
      | other => other
      end
  end
with parse_seq (fuel : nat) (s : string) : option (regex * string) :=
  match fuel with
  | O => None
  | S f =>
      match s with
      | EmptyString => Some (Empty, s)
      | String c _ =>
          if ch c "|" || ch c ")" then Some (Empty, s)
          else
            match parse_atom f s with
            | Some (a, rest) =>
                match parse_quant a rest with
                | Some (q, rest') =>
                    match parse_seq f rest' with
                    | Some (r, rest'') => Some (cat q r, rest'')
                    | None => None
                    end
                | None => None
                end
            | None => None
            end
      end
  end
with parse_atom (fuel : nat) (s : string) : option (regex * string) :=
  match fuel with
  | O => None
  | S f =>
      match s with
      | EmptyString => None
      | String c t =>
          if ch c "(" then
            if String.prefix "?!" t then
              match parse_alt f (drop 2 t) with
              | Some (r, String c' rest) =>
                  if ch c' ")" then Some (NotAhead r, rest) else None
              | _ => None
              end
            else if String.prefix "?" t then None
            else
              match parse_alt f t with
              | Some (r, String c' rest) =>
                  if ch c' ")" then Some (r, rest) else None
              | _ => None
              end
          else if ch c "[" then parse_class t
          else if ch c "\" then
            match t with
            | String e rest =>
                match parse_escape e with
                | Some r => Some (r, rest)
                | None => None
                end
            | EmptyString => None
            end
          else if ch c "." then Some (Dot, t)
          else if ch c "^" then Some (Bol, t)
          else if is_quantifier c || ch c "{" || ch c "$" then None
          else Some (Lit c, t)
      end
  end.

(** A compiled pattern: its tree and whether it ignores case. *)
Record pattern : Type := { ignorecase : bool; tree : regex }.

(** [re.compile(p, flags)]; a leading [(?i)] turns [IGNORECASE] on.
    [None] stands for [re.error] and for syntax outside the supported
    language. *)
Definition compile (flag_i : bool) (p : string) : option pattern :=
  let '(ic, body) :=
    if String.prefix "(?i)" p then (true, drop 4 p) else (flag_i, p) in
  match parse_alt (3 * String.length body + 3) body with
  | Some (r, EmptyString) => Some {| ignorecase := ic; tree := r |}
  | _ => None
  end.

(** *** Matching *)

Definition item_has (it : cset_item) (c : ascii) : bool :=
  match it with
  | CChar d => Ascii.eqb c d
  | CRange lo hi => in_range (nat_of_ascii lo) (nat_of_ascii hi) c
  | CSpace => isspace c
  | CDigit => isdigit c
  | CWord => isword c
  end.

Definition set_has (items : list cset_item) (c : ascii) : bool :=
  existsb (fun it => item_has it c) items.

(** Under [IGNORECASE] a character is tested through its lower-case form
    against the set closed under case. *)
Definition cls_match (ic neg : bool) (items : list cset_item) (c : ascii) : bool :=
  xorb neg
    (if ic
     then set_has items (lower_char c) || set_has items (upper_char (lower_char c))
     else set_has items c).

Definition lit_match (ic : bool) (c x : ascii) : bool :=
  if ic then Ascii.eqb (lower_char x) (lower_char c) else Ascii.eqb x c.

Definition word_at (o : option ascii) : bool :=
  match o with Some c => isword c | None => false end.

Definition peek (s : string) : option ascii :=
  match s with String c _ => Some c | EmptyString => None end.

(** [rmatch ic r prev s k]: some match of [r] at the front of [s], where
    [prev] is the character before [s], can be continued by [k]. *)
Fixpoint rmatch (ic : bool) (r : regex) (prev : option ascii) (s : string)
         (k : option ascii -> string -> bool) {struct r} : bool :=
  match r with
  | Empty => k prev s
  | Lit c =>
      match s with
      | String x t => if lit_match ic c x then k (Some x) t else false
      | EmptyString => false
      end
  | Dot =>
      match s with
      | String x t => if Ascii.eqb x newline then false else k (Some x) t
      | EmptyString => false
      end
  | Cls neg items =>
      match s with
      | String x t => if cls_match ic neg items x then k (Some x) t else false
      | EmptyString => false
      end
  | Bol =>
      match prev with
      | None => k prev s
      | Some _ => false
      end
  | WordBoundary =>
      if xorb (word_at prev) (word_at (peek s)) then k prev s else false
  | Cat r1 r2 => rmatch ic r1 prev s (fun p t => rmatch ic r2 p t k)
  | Alt r1 r2 => if rmatch ic r1 prev s k then true else rmatch ic r2 prev s k
  | Star r1 =>
      (fix loop (n : nat) (p : option ascii) (t : string) {struct n} : bool :=
         if k p t then true
         else
           match n with
           | O => false
           | S n' =>
               rmatch ic r1 p t
                 (fun p' t' =>
                    if (String.length t' <? String.length t)%nat
                    then loop n' p' t' else false)
           end) (String.length s) prev s
  | NotAhead r1 =>
      if rmatch ic r1 prev s (fun _ _ => true) then false else k prev s
  end.

Definition accept : option ascii -> string -> bool := fun _ _ => true.

(** A match starting at some position of [s]. *)
Fixpoint search_from (ic : bool) (r : regex) (prev : option ascii) (s : string) : bool :=
  if rmatch ic r prev s accept then true
  else
    match s with
    | String c t => search_from ic r (Some c) t
    | EmptyString => false
    end.

(** [bool(re.search(p, s, flags))] *)
Definition search (flag_i : bool) (p s : string) : option bool :=
  match compile flag_i p with
  | Some c => Some (search_from (ignorecase c) (tree c) None s)
  | None => None
  end.

(** [bool(re.match(p, s, flags))] *)
Definition match_ (flag_i : bool) (p s : string) : option bool :=
  match compile flag_i p with
  | Some c => Some (rmatch (ignorecase c) (tree c) None s accept)
  | None => None
  end.


End Re.

(** ** Sequential loops that may raise *)

Fixpoint foldM {A S : Type} (f : S -> A -> option S) (l : list A) (s : S) : option S :=
  match l with
  | [] => Some s
  | x :: t =>
      match f s x with
      | Some s' => foldM f t s'
      | None => None
      end
  end.

(** ** [analyzers/security_analyzer.py] *)

Module Security.
Import PyStr.

(** A rule is a [(pattern, message)] pair; a rule set maps category names
    to rules; [SECURITY_PATTERNS] maps a language to its rule set. *)
Definition rule : Type := string * string.
Definition rule_set : Type := PyDict.dict (list rule).

Definition SECURITY_PATTERNS : PyDict.dict rule_set :=
  ([ ("python",
     [ ("sql_injection",
        [ ("execute\s*\(\s*[" ++ dq ++ "\'].*%s", "Possible SQL injection using string formatting");
          ("execute\s*\(\s*f[" ++ dq ++ "\']", "Possible SQL injection using f-string");
          ("execute\s*\(\s*[" ++ dq ++ "\'].*\+", "Possible SQL injection using string concatenation");
          ("cursor\.execute\s*\([^,]+\+", "SQL query built with concatenation") ]);
       ("command_injection",
        [ ("os\.system\s*\(", "Use of os.system() - consider subprocess instead");
          ("subprocess\.call\s*\([^,]+shell\s*=\s*True", "Shell=True with subprocess is dangerous");
          ("subprocess\.Popen\s*\([^,]+shell\s*=\s*True", "Shell=True with subprocess is dangerous");
          ("eval\s*\(", "Use of eval() - potential code injection");
          ("exec\s*\(", "Use of exec() - potential code injection") ]);
       ("hardcoded_secrets",
        [ ("password\s*=\s*[" ++ dq ++ "\'][^" ++ dq ++ "\']+[" ++ dq ++ "\']", "Possible hardcoded password");
          ("api_key\s*=\s*[" ++ dq ++ "\'][^" ++ dq ++ "\']+[" ++ dq ++ "\']", "Possible hardcoded API key");
          ("secret\s*=\s*[" ++ dq ++ "\'][^" ++ dq ++ "\']+[" ++ dq ++ "\']", "Possible hardcoded secret");
          ("token\s*=\s*[" ++ dq ++ "\'][^" ++ dq ++ "\']+[" ++ dq ++ "\']", "Possible hardcoded token");
          ("AWS_ACCESS_KEY", "Possible AWS credentials");
          ("PRIVATE_KEY", "Possible private key") ]);
       ("unsafe_deserialization",
        [ ("pickle\.loads?\s*\(", "Pickle deserialization - untrusted data is dangerous");
          ("yaml\.load\s*\([^,]+\)", "Use yaml.safe_load() instead of yaml.load()");
          ("marshal\.loads?\s*\(", "Marshal deserialization is unsafe") ]);
       ("path_traversal",
        [ ("open\s*\([^)]*\+[^)]*\)", "File open with concatenation - possible path traversal") ]);
       ("weak_crypto",
        [ ("md5\s*\(", "MD5 is cryptographically weak - use SHA-256+");
          ("sha1\s*\(", "SHA1 is cryptographically weak - use SHA-256+");
          ("DES\s*\(", "DES encryption is weak - use AES") ]);
       ("insecure_random",
        [ ("random\.random\s*\(", "random.random() not cryptographically secure - use secrets module");
          ("random\.randint\s*\(", "random.randint() not cryptographically secure - use secrets module") ]);
       ("debug_code",
        [ ("print\s*\(.*password", "Printing password information");
          ("DEBUG\s*=\s*True", "Debug mode enabled");
          ("\.set_trace\s*\(", "Debugger breakpoint in code") ]) ]);
    ("javascript",
     [ ("xss",
        [ ("innerHTML\s*=", "innerHTML assignment - possible XSS");
          ("document\.write\s*\(", "document.write() - possible XSS");
          ("\.html\s*\([^)]+\+", "jQuery .html() with concatenation - possible XSS") ]);
       ("eval",
        [ ("eval\s*\(", "Use of eval() - potential code injection");
          ("new\s+Function\s*\(", "new Function() is similar to eval");
          ("setTimeout\s*\(\s*[" ++ dq ++ "\']", "setTimeout with string - similar to eval");
          ("setInterval\s*\(\s*[" ++ dq ++ "\']", "setInterval with string - similar to eval") ]);
       ("hardcoded_secrets",
        [ ("apiKey\s*[:=]\s*[" ++ dq ++ "\'][^" ++ dq ++ "\']+[" ++ dq ++ "\']", "Possible hardcoded API key");
          ("password\s*[:=]\s*[" ++ dq ++ "\'][^" ++ dq ++ "\']+[" ++ dq ++ "\']", "Possible hardcoded password");
          ("secret\s*[:=]\s*[" ++ dq ++ "\'][^" ++ dq ++ "\']+[" ++ dq ++ "\']", "Possible hardcoded secret") ]);
       ("prototype_pollution",
        [ ("__proto__", "Prototype pollution risk");
          ("constructor\s*\[", "Possible prototype pollution") ]) ]);
    ("general",
     [ ("sensitive_data",
        [ ("(?i)password", "Reference to password");
          ("(?i)api[_-]?key", "Reference to API key");
          ("(?i)secret[_-]?key", "Reference to secret key");
          ("(?i)auth[_-]?token", "Reference to auth token");
          ("(?i)private[_-]?key", "Reference to private key") ]);
       ("ip_addresses",
        [ ("\b\d{1,3}\.\d{1,3}\.\d{1,3}\.\d{1,3}\b", "Hardcoded IP address") ]);
       ("urls",
        [ ("http://(?!localhost)", "HTTP URL (not HTTPS)") ]) ]) ])%string.

(** The analyzer object built by [__init__]. *)
Record analyzer : Type := {
  code : string;
  language : string;
  lines : list string
}.

Definition init (code language : string) : analyzer :=
  {| code := code; language := lower language; lines := split_lines code |}.

Record issue : Type := {
  line : Z;
  category : string;
  message : string;
  severity : string;
  excerpt : string          (* the key "code" of the issue *)
}.

(** [results] while the scan runs (three keys) and as returned (five). *)
Record scan : Type := {
  issues : list issue;
  severity_counts : PyDict.dict Z;
  categories : PyDict.dict Z
}.

Record results : Type := {
  found : scan;
  total_issues : Z;
  risk_score : Z
}.

Definition _determine_severity (category pattern : string) : string :=
  let critical_categories := ["sql_injection"; "command_injection"; "unsafe_deserialization"] in
  let high_categories := ["xss"; "eval"; "prototype_pollution"; "hardcoded_secrets"] in
  let medium_categories := ["weak_crypto"; "path_traversal"] in
  if str_in category critical_categories then "critical"
  else if str_in category high_categories then "high"
  else if str_in category medium_categories then "medium"
  else "low".

Definition _calculate_risk_score (results : scan) : Z :=
  let weights := [("critical", 25); ("high", 15); ("medium", 5); ("low", 2)] in
  let score :=
    fold_left
      (fun score sc =>
         score + snd sc * match PyDict.get (fst sc) weights with
                          | Some w => w
                          | None => 1
                          end)
      (severity_counts results) 0 in
  Z.min score 100.

Definition comment_prefixes : list string := ["#"; "//"; "/*"; "*"].

(** The body of the innermost loop, for line [i]. *)
Definition scan_line (category pattern message : string)
           (acc : scan * list issue) (il : Z * string) : option (scan * list issue) :=
  let '(results, category_issues) := acc in
  let '(i, line) := il in
  let stripped := strip line in
  if startswith_any stripped comment_prefixes then Some acc
  else
    match Re.search true pattern line with
    | None => None
    | Some false => Some acc
    | Some true =>
        let severity := _determine_severity category pattern in
        let issue := {| line := i; category := category; message := message;
                        severity := severity; excerpt := take 80 (strip line) |} in
        match PyDict.incr severity 1 (severity_counts results) with
        | Some counts =>
            Some ({| issues := issues results ++ [issue];
                     severity_counts := counts;
                     categories := categories results |},
                  category_issues ++ [issue])
        | None => None
        end
    end.

(** [for pattern, message in patterns: for i, line in enumerate(lines, 1)] *)
Definition scan_rule (lines : list string) (category : string)
           (acc : scan * list issue) (r : rule) : option (scan * list issue) :=
  foldM (scan_line category (fst r) (snd r)) (enumerate 1 lines) acc.

(** The body of the loop over categories. *)
Definition scan_category (lines : list string) (results : scan)
           (cp : string * list rule) : option scan :=
  let '(category, patterns) := cp in
  match foldM (scan_rule lines category) patterns (results, []) with
  | Some (results, category_issues) =>
      match category_issues with
      | [] => Some results
      | _ :: _ =>
          Some {| issues := issues results;
                  severity_counts := severity_counts results;
                  categories := PyDict.set category (len category_issues) (categories results) |}
      end
  | None => None
  end.

Definition patterns_to_check (language : string) : option rule_set :=
  let specific :=
    match PyDict.get language SECURITY_PATTERNS with
    | Some rs => PyDict.update [] rs
    | None => []
    end in
  match PyDict.get "general" SECURITY_PATTERNS with
  | Some general => Some (PyDict.update specific general)
  | None => None
  end.

Definition initial : scan :=
  {| issues := [];
     severity_counts := [("critical", 0); ("high", 0); ("medium", 0); ("low", 0)];
     categories := [] |}.

Definition analyze (self : analyzer) : option results :=
  match patterns_to_check (language self) with
  | None => None
  | Some to_check =>
      match foldM (scan_category (lines self)) to_check initial with
      | Some results =>
          Some {| found := results;
                  total_issues := len (issues results);
                  risk_score := _calculate_risk_score results |}
      | None => None
      end
  end.

(** *** The scan as a comprehension

    What the three nested loops append, written as lists: the issues of
    one line under one rule, of all lines under one rule, and of all
    rules of all categories in the order the loops visit them. *)

Definition fires (pattern line : string) : bool :=
  if startswith_any (strip line) comment_prefixes then false
  else match Re.search true pattern line with
       | Some b => b
       | None => false
       end.

Definition line_hits (category : string) (r : rule) (il : Z * string) : list issue :=
  if fires (fst r) (snd il)
  then [{| line := fst il; category := category; message := snd r;
           severity := _determine_severity category (fst r);
           excerpt := take 80 (strip (snd il)) |}]
  else [].

Definition rule_hits (start : Z) (lines : list string) (category : string) (r : rule)
  : list issue :=
  flat_map (line_hits category r) (enumerate start lines).

Definition category_hits (start : Z) (lines : list string) (cp : string * list rule)
  : list issue :=
  flat_map (rule_hits start lines (fst cp)) (snd cp).

Definition all_hits (start : Z) (lines : list string) (rs : rule_set) : list issue :=
  flat_map (category_hits start lines) rs.

(** The number of issues of one severity tier. *)
Definition count_severity (sev : string) (l : list issue) : Z :=
  len (filter (fun i => String.eqb (severity i) sev) l).

(** The counters [severity_counts] holds after the issues [l]. *)
Definition tally (l : list issue) : PyDict.dict Z :=
  [ ("critical", count_severity "critical" l);
    ("high", count_severity "high" l);
    ("medium", count_severity "medium" l);
    ("low", count_severity "low" l) ].

(** Every pattern of a rule set is accepted by [re.compile]. *)
Definition compiles (rs : rule_set) : bool :=
  forallb
    (fun cp : string * list rule =>
       forallb (fun r : rule =>
                  match Re.compile true (fst r) with Some _ => true | None => false end)
               (snd cp))
    rs.

(** The state of the scan after the issues [l] are appended. *)
Definition grow (st : scan) (l : list issue) : scan :=
  {| issues := issues st ++ l;
     severity_counts := tally (issues st ++ l);
     categories := categories st |}.

(** The counters agree with the issues found so far. *)
Definition counted (st : scan) : Prop := severity_counts st = tally (issues st).

(** [re.compile] accepts the pattern. *)
Definition compiled (pattern : string) : Prop := Re.compile true pattern <> None.

(** The severity tiers of the data model, and those [analyze] counts. *)
Definition five_severities : list string := ["critical"; "high"; "medium"; "low"; "info"].
Definition four_severities : list string := ["critical"; "high"; "medium"; "low"].

(** The statement of scenario 2 of the specification, and a document of
    two lines that ends with it. *)
Definition os_system_call : string :=
  ("os.system(" ++ dq ++ "rm -rf " ++ dq ++ " + user_input)")%string.

Definition scenario_2 : string := ("import os" ++ String newline os_system_call)%string.



(** The weighted sum of [_calculate_risk_score], on four counters. *)
Definition weighted (c h m l : Z) : Z := 25 * c + 15 * h + 5 * m + 2 * l.


(** *** Per-category counts *)

(** The number of issues of one category. *)
Definition count_category (c : string) (l : list issue) : Z :=
  len (filter (fun i => String.eqb (category i) c) l).

(** What the loop over the categories leaves in [results["categories"]]. *)
Definition categories_step (lines : list string) (cats : PyDict.dict Z)
           (cp : string * list rule) : PyDict.dict Z :=
  match category_hits 1 lines cp with
  | [] => cats
  | _ :: _ => PyDict.set (fst cp) (len (category_hits 1 lines cp)) cats
  end.

Definition categories_after (lines : list string) (rs : rule_set) (cats : PyDict.dict Z)
  : PyDict.dict Z :=
  fold_left (categories_step lines) rs cats.

(** A document of comments only, in two comment styles. *)
Definition only_comments : string :=
  ("# password = 'hunter2'" ++ String newline "// eval(x)")%string.

End Security.

(** ** [analyzers/quality_analyzer.py]: scoring and grading

    The detectors that fill the result record ([_calculate_metrics],
    [_check_naming], [_check_documentation], [_detect_code_smells]) are
    scans of the text; the score is a function of what they return.  The
    ratios are Python floats; they are rationals here.  Each threshold of
    [_calculate_score] that is not a binary fraction (0.1, 0.8) rounds up
    when read as a float, and no float lies strictly between the decimal
    and its rounding, so comparing a float metric against the float
    threshold is comparing it against the rational one. *)

Module Quality.
Import PyStr.

Definition Qltb (x y : Q) : bool := negb (Qle_bool y x).

Record metrics : Type := {
  total_lines : Z;
  code_lines : Z;
  blank_lines : Z;
  comment_lines : Z;
  comment_ratio : Q;
  average_line_length : Q;
  function_count : Z;
  class_count : Z;
  lines_per_function : Q
}.

Record naming_issue : Type := {
  naming_line : Z;
  naming_name : string;
  naming_type : string;
  naming_message : string
}.

Record documentation : Type := {
  has_module_doc : bool;
  functions_documented : Z;
  functions_total : Z;
  classes_documented : Z;
  classes_total : Z;
  coverage : Q
}.

Record smell : Type := {
  smell_line : Z;
  smell_type : string;
  smell_message : string;
  smell_severity : string
}.

(** The result record as [analyze] hands it to [_calculate_score]. *)
Record findings : Type := {
  the_metrics : metrics;
  naming_issues : list naming_issue;
  the_documentation : documentation;
  code_smells : list smell
}.

Record results : Type := {
  detail : findings;
  score : Z;
  grade : string
}.

Definition smell_step (score : Z) (smell : smell) : Z :=
  if String.eqb (smell_severity smell) "high" then score - 8
  else if String.eqb (smell_severity smell) "medium" then score - 5
  else score - 2.

Definition _calculate_score (results : findings) : Z :=
  let score := 100 in
  (* Deduct for metrics issues *)
  let metrics := the_metrics results in
  let score := if Qltb (comment_ratio metrics) (1 # 10) then score - 10 else score in
  let score := if Qltb 80 (average_line_length metrics) then score - 5 else score in
  let score := if Qltb 30 (lines_per_function metrics) then score - 10 else score in
  (* Deduct for naming issues *)
  let score := score - Z.min (len (naming_issues results) * 2) 15 in
  (* Deduct for documentation issues *)
  let doc := the_documentation results in
  let score := if negb (has_module_doc doc) then score - 5 else score in
  let doc_coverage := coverage doc in
  let score :=
    if Qltb doc_coverage (1 # 2) then score - 10
    else if Qltb doc_coverage (8 # 10) then score - 5
    else score in
  (* Deduct for code smells *)
  let score := fold_left smell_step (code_smells results) score in
  Z.max 0 (Z.min 100 score).

Definition _get_grade (score : Z) : string :=
  if score >=? 90 then "A"
  else if score >=? 80 then "B"
  else if score >=? 70 then "C"
  else if score >=? 60 then "D"
  else "F".

(** The tail of [analyze], once the detectors have returned. *)
Definition analyze (found : findings) : results :=
  let score := _calculate_score found in
  {| detail := found; score := score; grade := _get_grade score |}.

(** *** The scoring rule as the specification words it *)

Definition spec_smell_deduction (s : smell) : Z :=
  if String.eqb (smell_severity s) "high" then 8
  else if String.eqb (smell_severity s) "medium" then 5
  else if String.eqb (smell_severity s) "low" then 2
  else 0.

Definition spec_deductions (r : findings) : Z :=
  (if Qltb (comment_ratio (the_metrics r)) (1 # 10) then 10 else 0)
  + (if Qltb 80 (average_line_length (the_metrics r)) then 5 else 0)
  + (if Qltb 30 (lines_per_function (the_metrics r)) then 10 else 0)
  + Z.min (2 * len (naming_issues r)) 15
  + (if has_module_doc (the_documentation r) then 0 else 5)
  + (if Qltb (coverage (the_documentation r)) (1 # 2) then 10
     else if Qltb (coverage (the_documentation r)) (8 # 10) then 5
     else 0)
  + fold_right (fun s acc => spec_smell_deduction s + acc) 0 (code_smells r).

Definition spec_score (r : findings) : Z :=
  Z.max 0 (Z.min 100 (100 - spec_deductions r)).

(** The severities [_detect_code_smells] gives its smells. *)
Definition smell_severities : list string := ["high"; "medium"; "low"].

(** The findings of a module of 40 lines with few comments, one
    single-letter variable, no module docstring, three documented
    functions and one smell of each severity. *)
Definition sample : findings :=
  {| the_metrics :=
       {| total_lines := 40; code_lines := 30; blank_lines := 8;
          comment_lines := 2; comment_ratio := 2 # 30;
          average_line_length := 31 # 1; function_count := 3;
          class_count := 0; lines_per_function := 10 # 1 |};
     naming_issues :=
       [{| naming_line := 3; naming_name := "q"; naming_type := "variable";
           naming_message := "Single-letter variable 'q' - use descriptive name" |}];
     the_documentation :=
       {| has_module_doc := false; functions_documented := 3;
          functions_total := 3; classes_documented := 0; classes_total := 0;
          coverage := 1 # 1 |};
     code_smells :=
       [{| smell_line := 9; smell_type := "deep_nesting";
           smell_message := "Deeply nested code (5 levels)";
           smell_severity := "high" |};
        {| smell_line := 1; smell_type := "long_method";
           smell_message := "Long method 'f' (31 lines)";
           smell_severity := "medium" |};
        {| smell_line := 0; smell_type := "duplicate_code";
           smell_message := "Duplicated line appears 3 times";
           smell_severity := "low" |}] |}.

(** *** Line counts of [_calculate_metrics] *)

Record analyzer : Type := {
  code : string;
  language : string;
  lines : list string
}.

Definition init (code language : string) : analyzer :=
  {| code := code; language := lower language; lines := split_lines code |}.

Definition triple_dq : string := (dq ++ dq ++ dq)%string.

Definition _is_comment (line : string) : bool :=
  let stripped := strip line in
  startswith_any stripped ["#"; "//"; "/*"; "*"; triple_dq; "'''"].

(** [sum(1 for x in l if p(x))] *)
Definition count_if {A : Type} (p : A -> bool) (l : list A) : Z := len (filter p l).

(** [sum(len(line) for line in l)] *)
Definition total_length (l : list string) : Z :=
  fold_right (fun line acc => slen line + acc) 0 l.

Section Metrics.
(** [len(re.findall(pattern, code, re.MULTILINE))] and [round(x, 1)] are
    taken as given. *)
Variable findall_count : string -> string -> Z.
Variable round1 : Q -> Q.

Definition _calculate_metrics (self : analyzer) : metrics :=
  let total_lines := len (lines self) in
  let code_lines :=
    count_if (fun line => nonempty (strip line) && negb (_is_comment line)) (lines self) in
  let blank_lines := count_if (fun line => negb (nonempty (strip line))) (lines self) in
  let comment_lines := count_if _is_comment (lines self) in
  let non_empty_lines := filter (fun line => nonempty (strip line)) (lines self) in
  let avg_line_length :=
    (inject_Z (total_length non_empty_lines) / inject_Z (Z.max (len non_empty_lines) 1))%Q in
  let function_count := findall_count "^\s*(def|function|func)\s+\w+" (code self) in
  let class_count := findall_count "^\s*class\s+\w+" (code self) in
  {| total_lines := total_lines;
     code_lines := code_lines;
     blank_lines := blank_lines;
     comment_lines := comment_lines;
     comment_ratio := (inject_Z comment_lines / inject_Z (Z.max code_lines 1))%Q;
     average_line_length := round1 avg_line_length;
     function_count := function_count;
     class_count := class_count;
     lines_per_function := (inject_Z code_lines / inject_Z (Z.max function_count 1))%Q |}.

End Metrics.

(** *** Changes to a result record *)

Definition add_smell (s : smell) (r : findings) : findings :=
  {| the_metrics := the_metrics r; naming_issues := naming_issues r;
     the_documentation := the_documentation r; code_smells := code_smells r ++ [s] |}.

Definition add_naming_issue (n : naming_issue) (r : findings) : findings :=
  {| the_metrics := the_metrics r; naming_issues := naming_issues r ++ [n];
     the_documentation := the_documentation r; code_smells := code_smells r |}.

(** The five grades, from worst to best. *)
Definition grade_rank (g : string) : Z :=
  if String.eqb g "A" then 4
  else if String.eqb g "B" then 3
  else if String.eqb g "C" then 2
  else if String.eqb g "D" then 1
  else 0.

(** The findings of a two-line module without comments, under stand-ins
    for the regular-expression counts and the rounding. *)
Definition uncommented : string := ("x = 1" ++ String newline "y = 2")%string.

Definition uncommented_findings : findings :=
  {| the_metrics := _calculate_metrics (fun _ _ => 0) (fun q => q) (init uncommented "python");
     naming_issues := [];
     the_documentation :=
       {| has_module_doc := true; functions_documented := 0; functions_total := 0;
          classes_documented := 0; classes_total := 0; coverage := 1 # 1 |};
     code_smells := [] |}.

End Quality.

(** ** [analyzers/code_analyzer.py]: [BasicAnalyzer] *)

Module Basic.
Import PyStr.

Record analyzer : Type := {
  code : string;
  language : string;
  lines : list string
}.

Definition init (code language : string) : analyzer :=
  {| code := code; language := language; lines := split_lines code |}.

Record magic_number : Type := {
  magic_line : Z;
  magic_value : string;
  magic_context : string
}.

Record blank_run : Type := {
  start_line : Z;
  end_line : Z;
  count : Z
}.

Record patterns : Type := {
  magic_numbers : list magic_number;
  hardcoded_strings : list string;
  empty_blocks : list string;
  consecutive_blank_lines : list blank_run
}.

(** The state of the second loop of [find_patterns]. *)
Record blank_state : Type := {
  blank_count : Z;
  blank_start : Z;
  runs : list blank_run
}.

Definition blank_step (st : blank_state) (il : Z * string) : blank_state :=
  let '(i, line) := il in
  if negb (nonempty (strip line)) then
    {| blank_count := blank_count st + 1;
       blank_start := if blank_count st =? 0 then i else blank_start st;
       runs := runs st |}
  else
    {| blank_count := 0;
       blank_start := blank_start st;
       runs := if blank_count st >? 2
               then runs st ++ [{| start_line := blank_start st;
                                   end_line := i - 1;
                                   count := blank_count st |}]
               else runs st |}.

Definition blank_scan (lines : list string) : blank_state :=
  fold_left blank_step (enumerate 1 lines)
    {| blank_count := 0; blank_start := 0; runs := [] |}.

Section FindPatterns.
(** The first loop of [find_patterns] collects numeric literals with
    [re.findall] and [float]; it does not touch the state of the second
    loop and is taken as given. *)
Variable find_magic_numbers : list string -> list magic_number.

Definition find_patterns (self : analyzer) : patterns :=
  {| magic_numbers := find_magic_numbers (lines self);
     hardcoded_strings := [];
     empty_blocks := [];
     consecutive_blank_lines := runs (blank_scan (lines self)) |}.
End FindPatterns.

(** A line [find_patterns] takes for blank. *)
Definition is_blank (line : string) : bool := negb (nonempty (strip line)).

(** A document whose text is followed by four blank lines, and one in
    which four blank lines stand between two statements. *)
Definition trailing_blanks : string :=
  "x = 1" ++ String newline (String newline (String newline (String newline EmptyString))).

Definition inner_blanks : string :=
  "x = 1" ++ String newline (String newline (String newline (String newline
    (String newline "y = 2")))).

(** *** Statistics *)

(** [s.split()]: the maximal runs of characters that are not white space.
    The first component is the word that starts at the head of [s], if
    [s] starts with one. *)
Fixpoint words_from (s : string) : option string * list string :=
  match s with
  | EmptyString => (None, [])
  | String c t =>
      let '(w, ws) := words_from t in
      if isspace c
      then (None, match w with Some x => x :: ws | None => ws end)
      else (Some (String c (match w with Some x => x | None => EmptyString end)), ws)
  end.

Definition words (s : string) : list string :=
  let '(w, ws) := words_from s in
  match w with Some x => x :: ws | None => ws end.

(** [max(xs, default=0)] and [min(xs, default=0)] *)
Definition max_default (xs : list Z) : Z :=
  match xs with
  | [] => 0
  | x :: t => fold_left Z.max t x
  end.

Definition min_default (xs : list Z) : Z :=
  match xs with
  | [] => 0
  | x :: t => fold_left Z.min t x
  end.

Record basic_stats : Type := {
  total_lines : Z;
  total_characters : Z;
  total_words : Z;
  non_empty_lines : Z;
  average_line_length : Q;
  max_line_length : Z;
  min_line_length : Z
}.

Definition sum_lengths (l : list string) : Z :=
  fold_right (fun line acc => slen line + acc) 0 l.

Definition get_basic_stats (self : analyzer) : basic_stats :=
  {| total_lines := len (lines self);
     total_characters := slen (code self);
     total_words := len (words (code self));
     non_empty_lines := len (filter (fun line => nonempty (strip line)) (lines self));
     average_line_length :=
       (inject_Z (sum_lengths (lines self)) / inject_Z (Z.max (len (lines self)) 1))%Q;
     max_line_length := max_default (map slen (lines self));
     min_line_length :=
       min_default (map slen (filter (fun line => nonempty (strip line)) (lines self))) |}.

(** *** Line lengths *)

Definition bucket (n : Z) : string :=
  if n <=? 20 then "0-20"
  else if n <=? 40 then "21-40"
  else if n <=? 60 then "41-60"
  else if n <=? 80 then "61-80"
  else if n <=? 100 then "81-100"
  else "100+".

Definition get_line_length_distribution (self : analyzer) : option (PyDict.dict Z) :=
  let distribution :=
    [("0-20", 0); ("21-40", 0); ("41-60", 0); ("61-80", 0); ("81-100", 0); ("100+", 0)] in
  foldM (fun distribution line => PyDict.incr (bucket (slen line)) 1 distribution)
        (lines self) distribution.

Record long_line : Type := {
  line_number : Z;
  line_length : Z;           (* the key "length" *)
  content : string
}.

(** [line[:100] + "..." if len(line) > 100 else line] *)
Definition shown (line : string) : string :=
  if slen line >? 100 then (take 100 line ++ "...")%string else line.

Definition find_long_lines (self : analyzer) (threshold : Z) : list long_line :=
  fold_left
    (fun long_lines il =>
       if slen (snd il) >? threshold
       then long_lines ++ [{| line_number := fst il; line_length := slen (snd il);
                              content := shown (snd il) |}]
       else long_lines)
    (enumerate 1 (lines self)) [].

(** The sum of the values of a dictionary. *)
Definition sum_values (d : PyDict.dict Z) : Z :=
  fold_right (fun kv acc => snd kv + acc) 0 d.

(** *** [find_duplicates] *)

Record duplicate : Type := {
  dup_content : string;
  occurrences : Z;
  dup_lines : list Z
}.

(** [d[k].append(x)], which raises [KeyError] on a missing key. *)
Definition append_at (k : string) (x : Z) (d : PyDict.dict (list Z))
  : option (PyDict.dict (list Z)) :=
  match PyDict.get k d with
  | Some l => Some (PyDict.set k (l ++ [x]) d)
  | None => None
  end.

(** The body of the first loop of [find_duplicates]. *)
Definition locate (min_length : Z) (line_locations : PyDict.dict (list Z)) (il : Z * string)
  : option (PyDict.dict (list Z)) :=
  let '(i, line) := il in
  let stripped := strip line in
  if slen stripped >=? min_length then
    let line_locations :=
      if negb (PyDict.mem stripped line_locations)
      then PyDict.set stripped [] line_locations
      else line_locations in
    append_at stripped i line_locations
  else Some line_locations.

(** [line[:80] + "..." if len(line) > 80 else line] *)
Definition shown80 (line : string) : string :=
  if slen line >? 80 then (take 80 line ++ "...")%string else line.

Definition duplicate_of (kv : string * list Z) : duplicate :=
  {| dup_content := shown80 (fst kv); occurrences := len (snd kv); dup_lines := snd kv |}.

(** [sorted(l, key=lambda x: x["occurrences"], reverse=True)]: the sort is
    stable, records of equal key keep their order. *)
Fixpoint insert_desc (x : duplicate) (l : list duplicate) : list duplicate :=
  match l with
  | [] => [x]
  | y :: t => if occurrences y <? occurrences x then x :: y :: t else y :: insert_desc x t
  end.

Definition sorted_by_occurrences (l : list duplicate) : list duplicate :=
  fold_left (fun acc x => insert_desc x acc) l [].

Definition find_duplicates (self : analyzer) (min_length : Z) : option (list duplicate) :=
  match foldM (locate min_length) (enumerate 1 (lines self)) [] with
  | None => None
  | Some line_locations =>
      let duplicates :=
        fold_left
          (fun duplicates kv =>
             if len (snd kv) >? 1 then duplicates ++ [duplicate_of kv] else duplicates)
          line_locations [] in
      Some (sorted_by_occurrences duplicates)
  end.

(** The positions of the lines whose stripped text is [text]. *)
Definition positions_of (text : string) (l : list (Z * string)) : list Z :=
  map fst (filter (fun il => String.eqb (strip (snd il)) text) l).

(** *** [get_indentation_analysis] *)

Definition tab : string := String (ascii_of_nat 9) EmptyString.

(** [collections.Counter]: the counts of the elements in the order of
    their first occurrence. *)
Fixpoint count_up (x : Z) (c : list (Z * Z)) : list (Z * Z) :=
  match c with
  | [] => [(x, 1)]
  | (y, n) :: t => if x =? y then (y, n + 1) :: t else (y, n) :: count_up x t
  end.

Definition Counter (xs : list Z) : list (Z * Z) :=
  fold_left (fun c x => count_up x c) xs [].

Fixpoint insert_count (x : Z * Z) (l : list (Z * Z)) : list (Z * Z) :=
  match l with
  | [] => [x]
  | y :: t => if snd y <? snd x then x :: y :: t else y :: insert_count x t
  end.

(** [counter.most_common(n)]: the [n] largest counts, equal counts in the
    order of first occurrence. *)
Definition most_common (n : nat) (c : list (Z * Z)) : list (Z * Z) :=
  firstn n (fold_left (fun acc x => insert_count x acc) c []).

(** The first size of the list that is 2, 4 or 8; [None] when the loop ends
    without [break]. *)
Fixpoint first_size (l : list (Z * Z)) : option Z :=
  match l with
  | [] => None
  | (size, _) :: t =>
      if existsb (Z.eqb size) [2; 4; 8] then Some size else first_size t
  end.

Record indentation : Type := {
  tabs_usage : Z;
  spaces_usage : Z;
  mixed_usage : Z;
  detected_indent_size : Z;
  style : string
}.

Record indent_state : Type := {
  tabs_count : Z;
  spaces_count : Z;
  mixed_count : Z;
  indent_sizes : list Z
}.

Definition leading_whitespace (line : string) : Z := slen line - slen (lstrip line).

Definition indent_step (st : indent_state) (line : string) : indent_state :=
  if negb (nonempty (strip line)) then st
  else
    let leading := leading_whitespace line in
    if leading =? 0 then st
    else
      let has_tabs := contains tab (take (Z.to_nat leading) line) in
      let has_spaces := contains " " (take (Z.to_nat leading) line) in
      if has_tabs && has_spaces then
        {| tabs_count := tabs_count st; spaces_count := spaces_count st;
           mixed_count := mixed_count st + 1; indent_sizes := indent_sizes st |}
      else if has_tabs then
        {| tabs_count := tabs_count st + 1; spaces_count := spaces_count st;
           mixed_count := mixed_count st; indent_sizes := indent_sizes st |}
      else
        {| tabs_count := tabs_count st; spaces_count := spaces_count st + 1;
           mixed_count := mixed_count st; indent_sizes := indent_sizes st ++ [leading] |}.

Definition get_indentation_analysis (self : analyzer) : indentation :=
  let st :=
    fold_left indent_step (lines self)
      {| tabs_count := 0; spaces_count := 0; mixed_count := 0; indent_sizes := [] |} in
  let common_indent := 4 in
  let common_indent :=
    match indent_sizes st with
    | [] => common_indent
    | _ :: _ =>
        let counter := Counter (indent_sizes st) in
        let most := most_common 3 counter in
        match most with
        | [] => common_indent
        | _ :: _ =>
            match first_size most with
            | Some size => size
            | None => common_indent
            end
        end
    end in
  {| tabs_usage := tabs_count st;
     spaces_usage := spaces_count st;
     mixed_usage := mixed_count st;
     detected_indent_size := common_indent;
     style := if tabs_count st >? spaces_count st then "tabs" else "spaces" |}.

(** A line that is not blank and starts with white space. *)
Definition indented (line : string) : bool :=
  nonempty (strip line) && negb (leading_whitespace line =? 0).

(** Six lines, three of them indented by two spaces, one by a tab. *)
Definition indented_sample : string :=
  String.concat (String newline EmptyString)
    ["if a:"; "  b = 1"; "  c = 2"; "else:"; "  d = 3"; tab ++ "e = 4"; ""]%string.

(** The same statement three times among others. *)
Definition repeated_sample : string :=
  String.concat (String newline EmptyString)
    ["total = total + 1"; "  total = total + 1"; "x = 1"; "print(total)";
     "total = total + 1  "; "print(total)"].

(** The positions of the lines of stripped text [k], when [k] is long
    enough to be looked at. *)
Definition located (min_length : Z) (k : string) (l : list (Z * string)) : list Z :=
  map fst (filter (fun il => String.eqb (strip (snd il)) k
                             && (slen (strip (snd il)) >=? min_length)) l).

Definition merged (o : option (list Z)) (ps : list Z) : option (list Z) :=
  match o with
  | Some l0 => Some (l0 ++ ps)
  | None => match ps with [] => None | _ :: _ => Some ps end
  end.

Definition by_occurrences (a b : duplicate) : Prop := occurrences b <= occurrences a.

End Basic.

(** ** The [ast] module: nodes as objects

    A node is an object with a class name and its attributes, in the order
    of the class's [_fields] followed by its position attributes; an
    attribute holds a node, a list, a string, an integer or [None]. *)

Module Ast.
Import PyStr.

#[warnings="-register-all"]
Inductive pyval : Type :=
| Obj (cls : string) (fields : list (string * pyval))
| Lst (items : list pyval)
| Str (s : string)
| Int (n : Z)
| NoneV.

Definition is_node (v : pyval) : bool :=
  match v with Obj _ _ => true | _ => false end.

(** [isinstance(v, ast.<c>)] *)
Definition isinstance (v : pyval) (c : string) : bool :=
  match v with Obj c' _ => String.eqb c' c | _ => false end.

Definition isinstance_any (v : pyval) (cs : list string) : bool :=
  existsb (isinstance v) cs.

Fixpoint lookup (k : string) (fs : list (string * pyval)) : pyval :=
  match fs with
  | [] => NoneV
  | (k', v) :: t => if String.eqb k k' then v else lookup k t
  end.

(** [v.k]; the parser sets every field of a node it builds, so the
    default is not reached on a parsed tree. *)
Definition attr (v : pyval) (k : string) : pyval :=
  match v with Obj _ fs => lookup k fs | _ => NoneV end.

Definition elems (v : pyval) : list pyval :=
  match v with Lst l => l | _ => [] end.

Definition str_of (v : pyval) : string :=
  match v with Str s => s | _ => EmptyString end.

Definition truthy (v : pyval) : bool :=
  match v with
  | NoneV => false
  | Str s => nonempty s
  | Int n => negb (n =? 0)
  | Lst l => match l with [] => false | _ => true end
  | Obj _ _ => true
  end.

(** [ast.iter_child_nodes] *)
Definition field_children (v : pyval) : list pyval :=
  match v with
  | Obj _ _ => [v]
  | Lst l => filter is_node l
  | _ => []
  end.

Definition iter_child_nodes (v : pyval) : list pyval :=
  match v with
  | Obj _ fs => flat_map (fun kv => field_children (snd kv)) fs
  | _ => []
  end.

(** The number of nodes of a tree, which bounds the steps of a walk. *)
Fixpoint node_count (v : pyval) : nat :=
  match v with
  | Obj _ fs =>
      S ((fix in_fields (l : list (string * pyval)) : nat :=
            match l with
            | [] => O
            | (_, x) :: t =>
                (match x with
                 | Lst its =>
                     (fix in_items (l' : list pyval) : nat :=
                        match l' with
                        | [] => O
                        | y :: t' => node_count y + in_items t'
                        end) its
                 | _ => node_count x
                 end + in_fields t)%nat
            end) fs)
  | _ => O
  end.

(** The number of nodes under the nodes of a queue. *)
Definition total_count (q : list pyval) : nat := list_sum (map node_count q).

(** [ast.walk]: breadth first, from a queue. *)
Fixpoint walk_queue (fuel : nat) (todo : list pyval) : list pyval :=
  match fuel with
  | O => []
  | S f =>
      match todo with
      | [] => []
      | node :: rest => node :: walk_queue f (rest ++ iter_child_nodes node)
      end
  end.

Definition walk (node : pyval) : list pyval :=
  walk_queue (S (node_count node)) [node].

(** The nodes of the subtree of a node, the node first: what the
    specification calls "anywhere inside", by recursion on the tree. *)
Fixpoint subtree (v : pyval) : list pyval :=
  match v with
  | Obj _ fs =>
      v :: (fix in_fields (l : list (string * pyval)) : list pyval :=
              match l with
              | [] => []
              | (_, x) :: t =>
                  match x with
                  | Lst its =>
                      (fix in_items (l' : list pyval) : list pyval :=
                         match l' with
                         | [] => []
                         | y :: t' => subtree y ++ in_items t'
                         end) its
                  | _ => subtree x
                  end ++ in_fields t
              end) fs
  | _ => []
  end.

End Ast.

(** ** [analyzers/code_analyzer.py]: [PythonAnalyzer] *)

Module Python.
Import PyStr Ast.

(** The attributes of a [SyntaxError] that the analyzer reads. *)
Record SyntaxError : Type := {
  msg : string;
  lineno : option Z;
  offset : option Z;
  text : option string
}.

(** What a call of [ast.parse] does: return a tree, raise [SyntaxError],
    or raise something else. *)
Inductive parse_outcome : Type :=
| Parsed (tree : pyval)
| RaisesSyntaxError (e : SyntaxError)
| RaisesOther.

Record analyzer : Type := {
  base : Basic.analyzer;
  ast_tree : option pyval;
  syntax_error : option SyntaxError      (* [None]: the attribute is not set *)
}.

Record syntax_error_record : Type := {
  err_message : string;
  err_line : option Z;
  err_offset : option Z;
  err_text : option string
}.

Inductive import_category : Type := standard | third_party | local.

Record import_record : Type := {
  imp_module : pyval;
  imp_name : option pyval;         (* the key "name", set for [from] imports only *)
  imp_alias : pyval;
  imp_line : pyval
}.

(** The dictionary [imports]: its three keys, each with a list. *)
Record imports : Type := {
  in_standard : list import_record;
  in_third_party : list import_record;
  in_local : list import_record
}.

Definition no_imports : imports :=
  {| in_standard := []; in_third_party := []; in_local := [] |}.

(** [imports[category].append(r)] *)
Definition add_import (category : import_category) (r : import_record)
           (i : imports) : imports :=
  match category with
  | standard =>
      {| in_standard := in_standard i ++ [r];
         in_third_party := in_third_party i; in_local := in_local i |}
  | third_party =>
      {| in_standard := in_standard i;
         in_third_party := in_third_party i ++ [r]; in_local := in_local i |}
  | local =>
      {| in_standard := in_standard i;
         in_third_party := in_third_party i; in_local := in_local i ++ [r] |}
  end.

Definition standard_libs : list string :=
  [ "os"; "sys"; "json"; "re"; "math"; "datetime"; "time"; "random";
    "collections"; "itertools"; "functools"; "typing"; "pathlib";
    "subprocess"; "threading"; "multiprocessing"; "asyncio"; "socket";
    "http"; "urllib"; "email"; "html"; "xml"; "logging"; "unittest";
    "argparse"; "configparser"; "csv"; "sqlite3"; "pickle"; "copy"; "io";
    "tempfile"; "shutil"; "glob"; "hashlib"; "hmac"; "secrets"; "base64";
    "binascii"; "struct"; "codecs"; "string"; "textwrap"; "difflib";
    "pprint"; "enum"; "abc"; "contextlib"; "dataclasses"; "inspect";
    "traceback"; "warnings"; "weakref"; "types"; "operator" ].

(** [s.split(".")[0]] *)
Fixpoint before_dot (s : string) : string :=
  match s with
  | EmptyString => EmptyString
  | String c t => if Re.ch c "." then EmptyString else String c (before_dot t)
  end.

Record argument : Type := {
  arg_name : pyval;
  arg_annotation : option string
}.

Record function_record : Type := {
  fn_name : pyval;
  fn_line : pyval;
  fn_end_line : pyval;
  fn_is_async : bool;
  fn_decorators : list string;
  fn_arguments : list argument;
  fn_returns : option string;
  fn_docstring : option string;
  fn_has_docstring : bool;
  fn_complexity : Z
}.

Record method_record : Type := {
  m_name : pyval;
  m_line : pyval;
  m_is_async : bool
}.

Record class_record : Type := {
  cl_name : pyval;
  cl_line : pyval;
  cl_end_line : pyval;
  cl_bases : list string;
  cl_decorators : list string;
  cl_methods : list method_record;
  cl_method_count : Z;
  cl_docstring : option string;
  cl_has_docstring : bool
}.

Record variable_record : Type := {
  var_name : pyval;
  var_line : pyval;
  var_type_hint : option string
}.

Definition branch_classes : list string := ["If"; "While"; "For"; "ExceptHandler"].

(** The body of the loop of [_calculate_function_complexity]. *)
Definition complexity_step (complexity : Z) (child : pyval) : Z :=
  if isinstance_any child branch_classes then complexity + 1
  else if isinstance child "BoolOp" then complexity + (len (elems (attr child "values")) - 1)
  else if isinstance child "comprehension" then complexity + 1
  else complexity.

Definition _calculate_function_complexity (node : pyval) : Z :=
  fold_left complexity_step (walk node) 1.

(** [d[:100] + "..." if d and len(d) > 100 else d] *)
Definition shorten (docstring : option string) : option string :=
  match docstring with
  | Some d =>
      if nonempty d && (slen d >? 100) then Some (take 100 d ++ "...")%string
      else Some d
  | None => None
  end.

Definition is_some {A : Type} (o : option A) : bool :=
  match o with Some _ => true | None => false end.

(** The dictionary [get_complexity_metrics] returns; [F] is the type of
    Python's floats. *)
Record complexity_metrics (F : Type) : Type := {
  cm_total_functions : Z;
  cm_total_classes : Z;
  cm_total_methods : Z;
  cm_average_complexity : F;
  cm_max_complexity : Z;
  cm_high_complexity_functions : list pyval;
  cm_functions_without_docstring : Z;
  cm_classes_without_docstring : Z
}.

Arguments cm_total_functions {F} _.
Arguments cm_total_classes {F} _.
Arguments cm_total_methods {F} _.
Arguments cm_average_complexity {F} _.
Arguments cm_max_complexity {F} _.
Arguments cm_high_complexity_functions {F} _.
Arguments cm_functions_without_docstring {F} _.
Arguments cm_classes_without_docstring {F} _.

(** [sum(xs)] *)
Definition sum_list (xs : list Z) : Z := fold_left Z.add xs 0.

Section Analyzer.
(** The library calls of the analyzer: [ast.parse], [ast.unparse],
    [ast.get_docstring] and [str] on a node. *)
Variable ast_parse : string -> parse_outcome.
Variable ast_unparse : pyval -> string.
Variable ast_get_docstring : pyval -> option string.
Variable node_str : pyval -> string.

(** [_parse_ast], and [__init__] around it; [None] is an exception
    other than [SyntaxError] leaving the constructor. *)
Definition _parse_ast (code : string) : option (option pyval * option SyntaxError) :=
  match ast_parse code with
  | Parsed tree => Some (Some tree, None)
  | RaisesSyntaxError e => Some (None, Some e)
  | RaisesOther => None
  end.

Definition init (code : string) : option analyzer :=
  match _parse_ast code with
  | Some (tree, err) =>
      Some {| base := Basic.init code "Python"; ast_tree := tree; syntax_error := err |}
  | None => None
  end.

Definition get_syntax_errors (self : analyzer) : option syntax_error_record :=
  match ast_tree self, syntax_error self with
  | None, Some e =>
      Some {| err_message := msg e; err_line := lineno e;
              err_offset := offset e; err_text := text e |}
  | _, _ => None
  end.

Definition import_step (acc : imports) (node : pyval) : imports :=
  if isinstance node "Import" then
    fold_left
      (fun acc alias =>
         let module := before_dot (str_of (attr alias "name")) in
         let category :=
           if str_in module standard_libs then standard else third_party in
         add_import category
           {| imp_module := attr alias "name"; imp_name := None;
              imp_alias := attr alias "asname"; imp_line := attr node "lineno" |} acc)
      (elems (attr node "names")) acc
  else if isinstance node "ImportFrom" then
    if truthy (attr node "module") then
      let module := before_dot (str_of (attr node "module")) in
      let category :=
        if match attr node "level" with Int n => n >? 0 | _ => false end then local
        else if str_in module standard_libs then standard
        else third_party in
      fold_left
        (fun acc alias =>
           add_import category
             {| imp_module := attr node "module"; imp_name := Some (attr alias "name");
                imp_alias := attr alias "asname"; imp_line := attr node "lineno" |} acc)
        (elems (attr node "names")) acc
    else acc
  else acc.

Definition get_imports (self : analyzer) : imports :=
  let imports := no_imports in
  match ast_tree self with
  | None => imports
  | Some tree => fold_left import_step (walk tree) imports
  end.

Fixpoint decorator_name (fuel : nat) (decorator : pyval) : string :=
  match fuel with
  | O => node_str decorator
  | S f =>
      if isinstance decorator "Name" then str_of (attr decorator "id")
      else if isinstance decorator "Attribute" then
        (decorator_name f (attr decorator "value") ++ "." ++ str_of (attr decorator "attr"))%string
      else if isinstance decorator "Call" then decorator_name f (attr decorator "func")
      else node_str decorator
  end.

(** The recursion of [_get_decorator_name] goes down one node a call. *)
Definition _get_decorator_name (decorator : pyval) : string :=
  decorator_name (S (node_count decorator)) decorator.

Definition annotation_of (v : pyval) : option string :=
  if truthy v then Some (ast_unparse v) else None.

Definition function_of (node : pyval) : function_record :=
  let decorators := map _get_decorator_name (elems (attr node "decorator_list")) in
  let args :=
    map (fun arg => {| arg_name := attr arg "arg";
                       arg_annotation := annotation_of (attr arg "annotation") |})
        (elems (attr (attr node "args") "args")) in
  let returns := annotation_of (attr node "returns") in
  let docstring := ast_get_docstring node in
  let complexity := _calculate_function_complexity node in
  {| fn_name := attr node "name";
     fn_line := attr node "lineno";
     fn_end_line := attr node "end_lineno";
     fn_is_async := isinstance node "AsyncFunctionDef";
     fn_decorators := decorators;
     fn_arguments := args;
     fn_returns := returns;
     fn_docstring := shorten docstring;
     fn_has_docstring := is_some docstring;
     fn_complexity := complexity |}.

Definition is_function (node : pyval) : bool :=
  isinstance node "FunctionDef" || isinstance node "AsyncFunctionDef".

Definition get_functions (self : analyzer) : list function_record :=
  let functions := [] in
  match ast_tree self with
  | None => functions
  | Some tree =>
      fold_left
        (fun functions node =>
           if is_function node then functions ++ [function_of node] else functions)
        (walk tree) functions
  end.

Definition class_of (node : pyval) : class_record :=
  let bases := map ast_unparse (elems (attr node "bases")) in
  let decorators := map _get_decorator_name (elems (attr node "decorator_list")) in
  let methods :=
    fold_left
      (fun methods item =>
         if isinstance_any item ["FunctionDef"; "AsyncFunctionDef"] then
           methods ++ [{| m_name := attr item "name"; m_line := attr item "lineno";
                          m_is_async := isinstance item "AsyncFunctionDef" |}]
         else methods)
      (elems (attr node "body")) [] in
  let docstring := ast_get_docstring node in
  {| cl_name := attr node "name";
     cl_line := attr node "lineno";
     cl_end_line := attr node "end_lineno";
     cl_bases := bases;
     cl_decorators := decorators;
     cl_methods := methods;
     cl_method_count := len methods;
     cl_docstring := shorten docstring;
     cl_has_docstring := is_some docstring |}.

Definition get_classes (self : analyzer) : list class_record :=
  let classes := [] in
  match ast_tree self with
  | None => classes
  | Some tree =>
      fold_left
        (fun classes node =>
           if isinstance node "ClassDef" then classes ++ [class_of node] else classes)
        (walk tree) classes
  end.

Definition variable_step (variables : list variable_record) (node : pyval)
  : list variable_record :=
  if isinstance node "Assign" then
    fold_left
      (fun variables target =>
         if isinstance target "Name" then
           variables ++ [{| var_name := attr target "id"; var_line := attr node "lineno";
                            var_type_hint := None |}]
         else variables)
      (elems (attr node "targets")) variables
  else if isinstance node "AnnAssign" then
    if isinstance (attr node "target") "Name" then
      variables ++ [{| var_name := attr (attr node "target") "id";
                       var_line := attr node "lineno";
                       var_type_hint := annotation_of (attr node "annotation") |}]
    else variables
  else variables.

Definition get_variables (self : analyzer) : list variable_record :=
  let variables := [] in
  match ast_tree self with
  | None => variables
  | Some tree => fold_left variable_step (elems (attr tree "body")) variables
  end.

(** The floats of Python and the division [a / b] of two integers, which
    gives a float and raises [ZeroDivisionError] when [b] is 0
    ([truediv] is then not asked). *)
Variable float : Type.
Variable truediv : Z -> Z -> float.

Definition get_complexity_metrics (self : analyzer) : complexity_metrics float :=
  let functions := get_functions self in
  let classes := get_classes self in
  let complexities := map fn_complexity functions in
  {| cm_total_functions := len functions;
     cm_total_classes := len classes;
     cm_total_methods := sum_list (map cl_method_count classes);
     cm_average_complexity :=
       truediv (sum_list complexities) (Z.max (len complexities) 1);
     cm_max_complexity :=
       match complexities with [] => 0 | _ :: _ => Basic.max_default complexities end;
     cm_high_complexity_functions :=
       map fn_name (filter (fun f => fn_complexity f >? 10) functions);
     cm_functions_without_docstring :=
       sum_list (map (fun _ => 1) (filter (fun f => negb (fn_has_docstring f)) functions));
     cm_classes_without_docstring :=
       sum_list (map (fun _ => 1) (filter (fun c => negb (cl_has_docstring c)) classes)) |}.

End Analyzer.

(** *** The complexity rule as the specification words it *)

Definition count_of (p : pyval -> bool) (nodes : list pyval) : Z :=
  len (filter p nodes).

(** The operands of a boolean expression. *)
Definition operands (b : pyval) : Z := len (elems (attr b "values")).

Definition boolop_extra (nodes : list pyval) : Z :=
  fold_right (fun b acc => (operands b - 1) + acc) 0
    (filter (fun n => isinstance n "BoolOp") nodes).

Definition spec_complexity (node : pyval) : Z :=
  1 + count_of (fun n => isinstance_any n branch_classes) (subtree node)
    + boolop_extra (subtree node)
    + count_of (fun n => isinstance n "comprehension") (subtree node).

(** What one node adds to the complexity. *)
Definition weight (n : pyval) : Z := complexity_step 0 n.

Definition total_weight (nodes : list pyval) : Z :=
  fold_right (fun n acc => weight n + acc) 0 nodes.

(** Every boolean expression of the subtree has at least two operands, as
    the grammar of Python has it. *)
Definition boolops_binary (node : pyval) : bool :=
  forallb (fun n => negb (isinstance n "BoolOp") || (2 <=? operands n)) (subtree node).

(** The subtree holds no branch, no boolean expression, no comprehension. *)
Definition plain (v : pyval) : bool :=
  forallb (fun n => negb (isinstance_any n branch_classes)
                    && negb (isinstance n "BoolOp")
                    && negb (isinstance n "comprehension"))
          (subtree v).

(** An [if] statement without [else], and a function of given body. *)
Definition if_stmt (test : pyval) (body : list pyval) : pyval :=
  Obj "If" [("test", test); ("body", Lst body); ("orelse", Lst [])].

Definition function_def (name : string) (args : pyval) (body : list pyval) : pyval :=
  Obj "FunctionDef"
      [("name", Str name); ("args", args); ("body", Lst body);
       ("decorator_list", Lst []); ("returns", NoneV); ("type_comment", NoneV)].

(** [def check(x):] with four [if x > k: return k] in a row. *)
Definition name_x : pyval := Obj "Name" [("id", Str "x"); ("ctx", Obj "Load" [])].

Definition guard (k : Z) : pyval :=
  if_stmt (Obj "Compare" [("left", name_x); ("ops", Lst [Obj "Gt" []]);
                          ("comparators", Lst [Obj "Constant" [("value", Int k)]])])
          [Obj "Return" [("value", Obj "Constant" [("value", Int k)])]].

Definition four_ifs : pyval :=
  function_def "check"
    (Obj "arguments"
         [("posonlyargs", Lst []);
          ("args", Lst [Obj "arg" [("arg", Str "x"); ("annotation", NoneV)]]);
          ("vararg", NoneV); ("kwonlyargs", Lst []); ("kw_defaults", Lst []);
          ("kwarg", NoneV); ("defaults", Lst [])])
    [guard 30; guard 20; guard 10; guard 0].

(** A parser for the examples, which answers as [ast.parse] does on the
    texts it tells apart: it rejects the text ["def f(:"] with the
    [SyntaxError] whose text is the line with its line feed, raises
    [ValueError] on a text that holds a null byte, and reads any other
    text as the module holding [four_ifs]. *)
Definition sample_error : SyntaxError :=
  {| msg := "invalid syntax"; lineno := Some 1; offset := Some 7;
     text := Some ("def f(:" ++ String newline EmptyString)%string |}.

Definition null_byte : string := String (ascii_of_nat 0) EmptyString.

Definition sample_parse (code : string) : parse_outcome :=
  if String.eqb code "def f(:" then RaisesSyntaxError sample_error
  else if contains null_byte code then RaisesOther
  else Parsed (Obj "Module" [("body", Lst [four_ifs]); ("type_ignores", Lst [])]).

(** An assignment followed by a null byte. *)
Definition null_byte_text : string := ("x = 1" ++ null_byte)%string.

(** *** [check_pep8_issues] *)

Record pep8_issue : Type := {
  pep_line : Z;
  pep_code : string;
  pep_message : string
}.

Definition line_too_long (i : Z) (text : string) : pep8_issue :=
  {| pep_line := i; pep_code := "E501";
     pep_message := ("Line too long (" ++ str_of_int (slen text) ++ " > 79 characters)")%string |}.

Definition trailing_whitespace (i : Z) : pep8_issue :=
  {| pep_line := i; pep_code := "W291"; pep_message := "Trailing whitespace" |}.

Definition missing_whitespace (i : Z) : pep8_issue :=
  {| pep_line := i; pep_code := "E225"; pep_message := "Missing whitespace around operator" |}.

(** The body of the loop of [check_pep8_issues]. *)
Definition pep8_step (issues : list pep8_issue) (il : Z * string) : option (list pep8_issue) :=
  let '(i, line) := il in
  let issues := if slen line >? 79 then issues ++ [line_too_long i line] else issues in
  let issues :=
    if negb (String.eqb (rstrip line) line) then issues ++ [trailing_whitespace i]
    else issues in
  match Re.search false "[a-zA-Z0-9]=[a-zA-Z0-9]" line with
  | None => None
  | Some found =>
      if found && negb (contains "==" line) && negb (contains "!=" line)
      then Some (issues ++ [missing_whitespace i])
      else Some issues
  end.

Definition check_pep8_issues (self : analyzer) : option (list pep8_issue) :=
  foldM pep8_step (enumerate 1 (Basic.lines (base self))) [].

(** The last character of a text is white space. *)
Fixpoint ends_with_space (s : string) : bool :=
  match s with
  | EmptyString => false
  | String c EmptyString => isspace c
  | String _ t => ends_with_space t
  end.

(** An assignment sign between two letters or digits. *)
Definition tight_assignment (text : string) : bool :=
  match Re.search false "[a-zA-Z0-9]=[a-zA-Z0-9]" text with
  | Some b => b
  | None => false
  end.

(** What the loop appends for one line. *)
Definition pep8_hits (il : Z * string) : list pep8_issue :=
  (if slen (snd il) >? 79 then [line_too_long (fst il) (snd il)] else [])
  ++ (if ends_with_space (snd il) then [trailing_whitespace (fst il)] else [])
  ++ (if tight_assignment (snd il) && negb (contains "==" (snd il))
         && negb (contains "!=" (snd il))
      then [missing_whitespace (fst il)] else []).

(** *** Trees of decorators *)






(** A module with one class of two methods and a function outside it. *)
Definition simple_function (name : string) : pyval :=
  function_def name (Obj "arguments" [("args", Lst [])]) [Obj "Pass" []].

Definition sample_module : pyval :=
  Obj "Module"
      [("body",
        Lst [Obj "ClassDef"
                 [("name", Str "Stack"); ("bases", Lst []); ("keywords", Lst []);
                  ("body", Lst [simple_function "push"; simple_function "pop"]);
                  ("decorator_list", Lst [])];
             four_ifs]);
       ("type_ignores", Lst [])].

(** The methods [get_classes] lists for the class nodes of a list: the
    functions in the body of each. *)
Definition methods_of (node : pyval) : Z :=
  if isinstance node "ClassDef" then count_of is_function (elems (attr node "body")) else 0.

Definition methods_in (nodes : list pyval) : Z :=
  fold_right (fun n acc => methods_of n + acc) 0 nodes.

(** An analyzer whose text was parsed to the sample module. *)
Definition sample_analyzer : analyzer :=
  {| base := Basic.init "class Stack: ..." "Python";
     ast_tree := Some sample_module;
     syntax_error := None |}.

(** The first component of the dotted module name of a record. *)
Definition first_component (r : import_record) : string :=
  before_dot (str_of (imp_module r)).

(** A record sits under the key its module and kind call for. *)
Definition fits (category : import_category) (r : import_record) : Prop :=
  match category with
  | standard => str_in (first_component r) standard_libs = true
  | third_party => str_in (first_component r) standard_libs = false
  | local => imp_name r <> None
  end.

Definition well_classified (i : imports) : Prop :=
  Forall (fits standard) (in_standard i) /\
  Forall (fits third_party) (in_third_party i) /\
  Forall (fits local) (in_local i).

End Python.

(** ** [analyzers/performance_analyzer.py]: the language-independent checks *)

Module Performance.
Import PyStr.

Record analyzer : Type := {
  code : string;
  language : string;
  lines : list string
}.

Definition init (code language : string) : analyzer :=
  {| code := code; language := lower language; lines := split_lines code |}.

Record issue : Type := {
  line : Z;
  message : string;
  severity : string;
  excerpt : string          (* the key "code" of the issue *)
}.

(** [len(s) - len(s.lstrip())] *)
Definition indent_of (s : string) : Z := slen s - slen (lstrip s).

(** *** Deeply nested loops *)

Record nesting_state : Type := {
  nesting_level : Z;
  max_nesting : Z;
  nested_line : Z
}.

Definition nesting_step (lines : list string) (st : nesting_state) (il : Z * string)
  : option nesting_state :=
  let '(i, line) := il in
  let stripped := strip line in
  match Re.match_ false "^(for|while)\s+" stripped with
  | None => None
  | Some is_loop =>
      let st :=
        if is_loop then
          let nesting_level := nesting_level st + 1 in
          if nesting_level >? max_nesting st
          then {| nesting_level := nesting_level; max_nesting := nesting_level; nested_line := i |}
          else {| nesting_level := nesting_level; max_nesting := max_nesting st;
                  nested_line := nested_line st |}
        else if startswith_any stripped ["def "; "function "; "class "]
        then {| nesting_level := 0; max_nesting := max_nesting st; nested_line := nested_line st |}
        else st in
      (* Simple check for loop end (indentation-based) *)
      if (nesting_level st >? 0) && negb (nonempty stripped) && (i >? 1) then
        let previous := nth (Z.to_nat (i - 2)) lines EmptyString in
        let prev_indent := indent_of previous in
        let curr_indent := if nonempty line then indent_of line else 0 in
        if curr_indent <? prev_indent
        then Some {| nesting_level := Z.max 0 (nesting_level st - 1);
                     max_nesting := max_nesting st; nested_line := nested_line st |}
        else Some st
      else Some st
  end.

Definition nesting_issues (st : nesting_state) : list issue :=
  if max_nesting st >=? 3 then
    [{| line := nested_line st;
        message := ("Deeply nested loops (" ++ str_of_int (max_nesting st)
                    ++ " levels) - O(n^" ++ str_of_int (max_nesting st) ++ ") complexity")%string;
        severity := if max_nesting st >=? 4 then "high" else "medium";
        excerpt := "Nested loop structure" |}]
  else [].

(** *** Very long functions *)

Record function_state : Type := {
  function_lines : Z;
  function_start : Z;
  in_function : bool;
  issues : list issue
}.

Definition opener : string := "^(def|function|async\s+function)\s+".

Definition long_function_issue (start lines : Z) : issue :=
  {| line := start;
     message := ("Long function (" ++ str_of_int lines ++ " lines) - consider breaking it up")%string;
     severity := if lines <? 100 then "medium" else "high";
     excerpt := "Function definition" |}.

Definition function_step (st : function_state) (il : Z * string) : option function_state :=
  let '(i, line) := il in
  let stripped := strip line in
  match Re.match_ false opener stripped with
  | None => None
  | Some true =>
      Some {| function_lines := 0;
              function_start := i;
              in_function := true;
              issues :=
                if in_function st && (function_lines st >? 50)
                then issues st ++ [long_function_issue (function_start st) (function_lines st)]
                else issues st |}
  | Some false =>
      if in_function st then
        Some {| function_lines := function_lines st + 1;
                function_start := function_start st;
                in_function := in_function st;
                issues := issues st |}
      else Some st
  end.

Definition _check_general_performance (self : analyzer) : option (list issue) :=
  let issues0 : list issue := [] in
  match foldM (nesting_step (lines self)) (enumerate 1 (lines self))
          {| nesting_level := 0; max_nesting := 0; nested_line := 0 |} with
  | None => None
  | Some nest =>
      let issues1 := issues0 ++ nesting_issues nest in
      match foldM function_step (enumerate 1 (lines self))
              {| function_lines := 0; function_start := 0; in_function := false;
                 issues := issues1 |} with
      | None => None
      | Some st => Some (issues st)
      end
  end.

(** A function of 51 lines followed by a second function. *)
Definition long_sample_body : list string := repeat "    total = total + 1" 51.

Definition long_sample : string :=
  String.concat (String newline EmptyString)
    ("def first():" :: long_sample_body ++ ["def second():"; "    return 0"]).

(** A line that opens a function: its stripped text starts with [def],
    [function] or [async function] and white space. *)
Definition is_opener (line : string) : bool :=
  match Re.match_ false opener (strip line) with
  | Some b => b
  | None => false
  end.

(** A line that opens a loop: its stripped text starts with [for] or
    [while] and white space. *)
Definition is_loop (line : string) : bool :=
  match Re.match_ false "^(for|while)\s+" (strip line) with
  | Some b => b
  | None => false
  end.

(** A line that resets the loop counter. *)
Definition is_reset (line : string) : bool :=
  startswith_any (strip line) ["def "; "function "; "class "].

(** The two kinds of issue of [_check_general_performance], told apart by
    the key "code". *)
Definition is_nesting_issue (i : issue) : bool :=
  String.eqb (excerpt i) "Nested loop structure".

Definition is_long_function_issue (i : issue) : bool :=
  String.eqb (excerpt i) "Function definition".

(** Three loops one after the other, none inside another. *)
Definition three_loops : string :=
  String.concat (String newline EmptyString)
    ["for a in xs:"; "    print(a)"; "for b in ys:"; "    print(b)";
     "for c in zs:"; "    print(c)"].

(** *** The checks of one language, the readability warnings, [analyze] *)

(** The rows of the table of [_check_python_performance]: a pattern, and
    its message and severity; [None] is the row that holds [None] for
    both. *)
Definition python_patterns : list (string * option (string * string)) :=
  [ ("for\s+\w+\s+in\s+range\s*\(\s*len\s*\(",
     Some ("Use enumerate() instead of range(len())", "medium"));
    ("for.*:\s*$", None);
    ("\+\s*\[\s*\w+\s*\]",
     Some ("List concatenation in loop may be inefficient, use .append()", "medium"));
    ("global\s+\w+", Some ("Global variable access is slower than local", "low"));
    ("\[\s*\w+\s+for\s+\w+\s+in\s+.*\s+if\s+.*\s+if\s+",
     Some ("Multiple if conditions in comprehension - consider generator", "low"));
    ("[" ++ dq ++ "\'].*[" ++ dq ++ "\']\s*\+\s*[" ++ dq ++ "\']",
     Some ("String concatenation - consider f-strings or join()", "low"));
    ("return\s+\[.*for.*in.*\]",
     Some ("Consider using generator (yield) for large datasets", "low"));
    ("list\s*\(\s*\[", Some ("Redundant list() call on list literal", "low"));
    ("dict\s*\(\s*\{", Some ("Redundant dict() call on dict literal", "low"));
    ("^import\s+numpy", Some ("NumPy import at module level - may slow startup", "info"));
    ("^import\s+pandas", Some ("Pandas import at module level - may slow startup", "info"));
    ("\.keys\s*\(\s*\)\s*\)",
     Some (".keys() often unnecessary - iterate dict directly", "low"));
    ("if\s+\w+\s+in\s+\w+\.keys\s*\(\s*\)",
     Some ("Use " ++ dq ++ "in dict" ++ dq ++ " instead of " ++ dq ++ "in dict.keys()" ++ dq,
           "low"));
    ("type\s*\(\s*\w+\s*\)\s*==",
     Some ("Use isinstance() instead of type() for type checking", "medium"));
    ("except\s*:",
     Some ("Bare except catches all exceptions including KeyboardInterrupt", "medium"));
    ("\.read\s*\(\s*\)",
     Some ("Reading entire file into memory - consider iterating lines", "info"));
    ("def\s+(\w+)\s*\([^)]*\):[^}]*\1\s*\(",
     Some ("Recursive function - ensure base case and consider iteration", "info")) ]%string.

Definition js_patterns : list (string * (string * string)) :=
  [ ("document\.getElementById\s*\([^)]+\)",
     ("Cache DOM elements instead of repeated lookups", "medium"));
    ("\.innerHTML\s*\+?=",
     ("Multiple innerHTML changes - batch updates or use DocumentFragment", "medium"));
    ("for\s*\(\s*var\s+\w+\s*=\s*0.*\.length", ("Cache array length outside loop", "low"));
    ("\.forEach\s*\(\s*async",
     ("forEach with async - use Promise.all with map instead", "high"));
    ("addEventListener\s*\(", ("Ensure event listeners are removed when not needed", "info"));
    ("setInterval\s*\(", ("Ensure intervals are cleared to prevent memory leaks", "info"));
    ("JSON\.parse\s*\(", ("Large JSON parsing can block - consider streaming", "info"));
    ("new\s+Array\s*\(\s*\d+\s*\)", ("Use array literal [] instead of new Array()", "low"));
    ("new\s+Object\s*\(\s*\)", ("Use object literal {} instead of new Object()", "low")) ].

(** The issue both language checks append for line [i]. *)
Definition pattern_issue (i : Z) (text message severity : string) : issue :=
  {| line := i; message := message; severity := severity; excerpt := take 60 (strip text) |}.

Definition js_row (il : Z * string) (found : list issue) (row : string * (string * string))
  : option (list issue) :=
  let '(pattern, (message, severity)) := row in
  match Re.search false pattern (snd il) with
  | None => None
  | Some true => Some (found ++ [pattern_issue (fst il) (snd il) message severity])
  | Some false => Some found
  end.

Definition _check_js_performance (self : analyzer) : option (list issue) :=
  foldM (fun found il => foldM (js_row il) js_patterns found) (enumerate 1 (lines self)) [].

Record warning : Type := {
  warn_line : Z;
  warn_message : string;
  warn_type : string
}.

Definition long_line_warning (i : Z) (text : string) : warning :=
  {| warn_line := i;
     warn_message := ("Very long line (" ++ str_of_int (slen text) ++ " chars) - hard to read")%string;
     warn_type := "readability" |}.

(** [and_count + or_count] of a line *)
Definition operators (text : string) : Z :=
  let and_count := str_count (lower text) " and " in
  let or_count := str_count (lower text) " or " in
  and_count + or_count.

Definition condition_warning (i : Z) (text : string) : warning :=
  {| warn_line := i;
     warn_message := ("Complex condition (" ++ str_of_int (operators text)
                      ++ " operators) - consider simplifying")%string;
     warn_type := "complexity" |}.

Definition _check_complexity (self : analyzer) : list warning :=
  let warnings := [] in
  let warnings :=
    fold_left
      (fun warnings il =>
         if slen (snd il) >? 120
         then warnings ++ [long_line_warning (fst il) (snd il)] else warnings)
      (enumerate 1 (lines self)) warnings in
  fold_left
    (fun warnings il =>
       if operators (snd il) >=? 3
       then warnings ++ [condition_warning (fst il) (snd il)] else warnings)
    (enumerate 1 (lines self)) warnings.

Definition append_if (c : bool) (s : string) (l : list string) : list string :=
  if c then l ++ [s] else l.

Definition _get_python_suggestions (self : analyzer) : list string :=
  let code := code self in
  let suggestions := [] in
  let suggestions :=
    append_if (contains "for " code && contains "append(" code)
      "Consider using list comprehensions instead of for-loop with append()" suggestions in
  let suggestions :=
    append_if (contains "open(" code && negb (contains "with " code))
      "Use 'with' statement for file operations to ensure proper cleanup" suggestions in
  let suggestions :=
    append_if (contains "class " code && negb (contains "__slots__" code))
      "Consider using __slots__ in classes to reduce memory usage" suggestions in
  let suggestions :=
    append_if (contains "def " code && negb (contains "@lru_cache" code)
               && negb (contains "@cache" code))
      "Consider using @lru_cache for functions with repeated calls" suggestions in
  let suggestions :=
    append_if (contains "def " code && contains ":" code && negb (contains "->" code))
      "Consider adding type hints for better code quality and IDE support" suggestions in
  suggestions.

(** The dictionary [results] of [analyze]. *)
Record results : Type := {
  res_issues : list issue;
  res_suggestions : list string;
  res_complexity_warnings : list warning;
  res_memory_warnings : list warning
}.

Section Analyze.
(** [re.search(pattern, line)] finds a match, for the rows of the Python
    table; its last pattern refers back to a group. *)
Variable re_search : string -> string -> bool.

Definition python_row (il : Z * string) (found : list issue)
           (row : string * option (string * string)) : list issue :=
  match snd row with
  | Some (message, severity) =>
      if nonempty message && re_search (fst row) (snd il)
      then found ++ [pattern_issue (fst il) (snd il) message severity]
      else found
  | None => found
  end.

Definition _check_python_performance (self : analyzer) : list issue :=
  fold_left (fun found il => fold_left (python_row il) python_patterns found)
            (enumerate 1 (lines self)) [].

Definition analyze (self : analyzer) : option results :=
  let results :=
    {| res_issues := []; res_suggestions := [];
       res_complexity_warnings := []; res_memory_warnings := [] |} in
  let by_language :=
    if String.eqb (language self) "python" then
      Some {| res_issues := res_issues results ++ _check_python_performance self;
              res_suggestions := res_suggestions results ++ _get_python_suggestions self;
              res_complexity_warnings := res_complexity_warnings results;
              res_memory_warnings := res_memory_warnings results |}
    else if str_in (language self) ["javascript"; "typescript"] then
      match _check_js_performance self with
      | Some found =>
          Some {| res_issues := res_issues results ++ found;
                  res_suggestions := res_suggestions results;
                  res_complexity_warnings := res_complexity_warnings results;
                  res_memory_warnings := res_memory_warnings results |}
      | None => None
      end
    else Some results in
  match by_language with
  | None => None
  | Some results =>
      match _check_general_performance self with
      | None => None
      | Some general =>
          Some {| res_issues := res_issues results ++ general;
                  res_suggestions := res_suggestions results;
                  res_complexity_warnings := _check_complexity self;
                  res_memory_warnings := res_memory_warnings results |}
      end
  end.

End Analyze.

(** A search that finds every pattern in every line. *)
Definition always (pattern text : string) : bool := true.

(** The issues one row of the JavaScript table gives for a line. *)
Definition js_hit (il : Z * string) (row : string * (string * string)) : list issue :=
  match Re.search false (fst row) (snd il) with
  | Some true => [pattern_issue (fst il) (snd il) (fst (snd row)) (snd (snd row))]
  | _ => []
  end.

Definition python_hit (re_search : string -> string -> bool) (il : Z * string)
           (row : string * option (string * string)) : list issue :=
  match snd row with
  | Some (message, severity) =>
      if nonempty message && re_search (fst row) (snd il)
      then [pattern_issue (fst il) (snd il) message severity]
      else []
  | None => []
  end.

(** The order of the issues by their lines. *)
Definition by_line (a b : issue) : Prop := line a <= line b.

(** A function of 60 lines with nothing after it, and a coroutine of 60
    lines followed by a function. *)
Definition sixty_lines : list string := repeat "    total = total + 1" 60.

Definition lone_long_function : string :=
  String.concat (String newline EmptyString) ("def only():" :: sixty_lines).

Definition long_coroutine : string :=
  String.concat (String newline EmptyString)
    ("async def fetch():" :: sixty_lines ++ ["def second():"; "    return 0"]).

End Performance.

(* ================================================================== *)
(** * Part II. Properties *)
(* ================================================================== *)

(** ** Characters and strings *)

Section Characters.
Import PyStr.

Ltac by_cases_on c :=
  destruct c as [b0 b1 b2 b3 b4 b5 b6 b7];
  destruct b0, b1, b2, b3, b4, b5, b6, b7; reflexivity.

Lemma lower_char_idem (c : ascii) : lower_char (lower_char c) = lower_char c.
Proof. by_cases_on c. Qed.






End Characters.

Section Strings.
Import PyStr.


Lemma lower_idem (s : string) : lower (lower s) = lower s.
Proof. induction s as [| c t IH]; simpl; [| rewrite lower_char_idem, IH]; reflexivity. Qed.

Lemma lower_append (s t : string) : lower (s ++ t) = (lower s ++ lower t)%string.
Proof. induction s as [| c s IH]; simpl; [| rewrite IH]; reflexivity. Qed.









(** White space in front of a text is stripped with the text's own. *)
Lemma lstrip_indent (indent s : string) :
  lstrip indent = EmptyString -> lstrip (indent ++ s) = lstrip s.
Proof.
  induction indent as [| c t IH]; simpl; [reflexivity |].
  destruct (isspace c); [exact IH | discriminate].
Qed.

Lemma strip_indent (indent s : string) :
  lstrip indent = EmptyString -> strip (indent ++ s) = strip s.
Proof. intros H. unfold strip. now rewrite lstrip_indent. Qed.

(** Splitting a text in which a line feed joins two parts. *)
Lemma split_first_append (s t : string) :
  split_first (s ++ String newline t)
  = (fst (split_first s), snd (split_first s) ++ split_lines t).
Proof.
  induction s as [| c s IH]; simpl.
  - unfold split_lines. destruct (split_first t). reflexivity.
  - rewrite IH. destruct (split_first s) as [h r]. simpl.
    destruct (Ascii.eqb c newline); reflexivity.
Qed.

Lemma split_lines_append (s t : string) :
  split_lines (s ++ String newline t) = split_lines s ++ split_lines t.
Proof.
  unfold split_lines at 1 2. rewrite split_first_append.
  destruct (split_first s). reflexivity.
Qed.

End Strings.

(** ** The matcher does not see letter case under [IGNORECASE] *)

Section MatcherCase.
Import PyStr Re.









End MatcherCase.

(** ** The security scan *)

Section SecurityScan.
Import PyStr Security.

Lemma determine_severity_cases (category pattern : string) :
  In (_determine_severity category pattern) ["critical"; "high"; "medium"; "low"].
Proof.
  unfold _determine_severity.
  repeat match goal with |- context [if ?b then _ else _] => destruct b end;
    simpl; auto.
Qed.

Lemma len_app {A : Type} (l l' : list A) : len (l ++ l') = len l + len l'.
Proof. unfold len. rewrite length_app. lia. Qed.

Lemma len_nonneg {A : Type} (l : list A) : 0 <= len l.
Proof. unfold len. lia. Qed.

Lemma count_severity_app sev l l' :
  count_severity sev (l ++ l') = count_severity sev l + count_severity sev l'.
Proof. unfold count_severity. now rewrite filter_app, len_app. Qed.

Lemma count_severity_nonneg sev l : 0 <= count_severity sev l.
Proof. apply len_nonneg. Qed.

Lemma count_severity_flat_map {A : Type} sev (f : A -> list issue) (l : list A) :
  count_severity sev (flat_map f l)
  = fold_right (fun x acc => count_severity sev (f x) + acc) 0 l.
Proof.
  induction l as [| x t IH]; simpl; [reflexivity |].
  now rewrite count_severity_app, IH.
Qed.

Lemma count_severity_single sev (i : issue) :
  count_severity sev [i] = if String.eqb (severity i) sev then 1 else 0.
Proof. unfold count_severity. simpl. now destruct (String.eqb (severity i) sev). Qed.

Lemma incr_tally (l : list issue) (i : issue) :
  In (severity i) ["critical"; "high"; "medium"; "low"] ->
  PyDict.incr (severity i) 1 (tally l) = Some (tally (l ++ [i])).
Proof.
  intros H. unfold tally. rewrite !count_severity_app, !count_severity_single.
  simpl in H. destruct H as [H | [H | [H | [H | []]]]]; rewrite <- H;
    unfold PyDict.incr; simpl; rewrite ?Z.add_0_r; reflexivity.
Qed.

Lemma grow_nil st : counted st -> grow st [] = st.
Proof.
  unfold counted, grow. destruct st as [i c k]; simpl. intros ->.
  now rewrite app_nil_r.
Qed.

Lemma grow_grow st a b : grow (grow st a) b = grow st (a ++ b).
Proof. unfold grow; simpl. now rewrite app_assoc. Qed.

Lemma grow_counted st l : counted (grow st l).
Proof. reflexivity. Qed.

Lemma scan_line_hits category (r : rule) st ci il :
  compiled (fst r) -> counted st ->
  scan_line category (fst r) (snd r) (st, ci) il
  = Some (grow st (line_hits category r il), ci ++ line_hits category r il).
Proof.
  intros Hc Hst. destruct il as [i line]. unfold scan_line, line_hits, fires.
  cbn [fst snd].
  destruct (startswith_any (strip line) comment_prefixes); cbv iota.
  - now rewrite grow_nil, app_nil_r.
  - unfold Re.search. unfold compiled in Hc.
    destruct (Re.compile true (fst r)) as [c |]; [| contradiction].
    destruct (Re.search_from (Re.ignorecase c) (Re.tree c) None line); cbv iota.
    + rewrite Hst.
      match goal with
      | |- context [issues st ++ [?x]] =>
          pose proof (incr_tally (issues st) x (determine_severity_cases _ _)) as E
      end.
      cbn [severity] in E. rewrite E. reflexivity.
    + now rewrite grow_nil, app_nil_r.
Qed.

Lemma scan_lines_hits category (r : rule) (l : list (Z * string)) :
  compiled (fst r) ->
  forall st ci, counted st ->
    foldM (scan_line category (fst r) (snd r)) l (st, ci)
    = Some (grow st (flat_map (line_hits category r) l),
            ci ++ flat_map (line_hits category r) l).
Proof.
  intros Hc. induction l as [| il t IH]; intros st ci Hst; cbn [foldM flat_map].
  - now rewrite grow_nil, app_nil_r.
  - rewrite scan_line_hits by assumption.
    rewrite IH by apply grow_counted.
    now rewrite grow_grow, <- app_assoc.
Qed.

Lemma scan_rules_hits lines category (rules : list rule) :
  Forall (fun r => compiled (fst r)) rules ->
  forall st ci, counted st ->
    foldM (scan_rule lines category) rules (st, ci)
    = Some (grow st (flat_map (rule_hits 1 lines category) rules),
            ci ++ flat_map (rule_hits 1 lines category) rules).
Proof.
  induction 1 as [| r t Hr Ht IH]; intros st ci Hst; cbn [foldM flat_map].
  - now rewrite grow_nil, app_nil_r.
  - unfold scan_rule at 1. rewrite scan_lines_hits by assumption.
    rewrite IH by apply grow_counted.
    now rewrite grow_grow, <- app_assoc.
Qed.

Lemma scan_category_hits lines (cp : string * list rule) st :
  Forall (fun r => compiled (fst r)) (snd cp) -> counted st ->
  exists cats,
    scan_category lines st cp
    = Some {| issues := issues st ++ category_hits 1 lines cp;
              severity_counts := tally (issues st ++ category_hits 1 lines cp);
              categories := cats |}.
Proof.
  intros Hc Hst. destruct cp as [category rules]. unfold scan_category.
  rewrite scan_rules_hits by assumption.
  unfold category_hits. cbn [fst snd app grow issues severity_counts categories].
  destruct (flat_map (rule_hits 1 lines category) rules); eexists; reflexivity.
Qed.

Lemma compiles_Forall (rs : rule_set) :
  compiles rs = true ->
  Forall (fun cp => Forall (fun r : rule => compiled (fst r)) (snd cp)) rs.
Proof.
  unfold compiles. rewrite forallb_forall. intros H.
  apply Forall_forall. intros cp Hcp. specialize (H cp Hcp).
  rewrite forallb_forall in H. apply Forall_forall. intros r Hr.
  specialize (H r Hr). unfold compiled.
  destruct (Re.compile true (fst r)); [discriminate | discriminate H].
Qed.

Lemma scan_all_hits lines (rs : rule_set) :
  compiles rs = true ->
  forall st, counted st ->
    exists cats,
      foldM (scan_category lines) rs st
      = Some {| issues := issues st ++ all_hits 1 lines rs;
                severity_counts := tally (issues st ++ all_hits 1 lines rs);
                categories := cats |}.
Proof.
  intros Hc. apply compiles_Forall in Hc.
  induction Hc as [| cp t Hcp Ht IH]; intros st Hst; cbn [foldM].
  - exists (categories st). unfold all_hits. cbn [flat_map]. rewrite app_nil_r.
    destruct st; simpl. unfold counted in Hst; simpl in Hst. now rewrite Hst.
  - destruct (scan_category_hits lines cp st Hcp Hst) as [cats ->].
    edestruct IH as [cats' ->]; [reflexivity |]. cbn [issues].
    exists cats'. unfold all_hits. cbn [flat_map]. now rewrite <- !app_assoc.
Qed.

(** Whatever the language tag, the rule set in force is that of the
    language, if it has one, followed by the general one, and all its
    patterns compile. *)
Lemma patterns_to_check_compiles (language : string) :
  exists rs, patterns_to_check language = Some rs /\ compiles rs = true.
Proof.
  unfold patterns_to_check, SECURITY_PATTERNS. cbn [PyDict.get].
  destruct (String.eqb language "python");
    [| destruct (String.eqb language "javascript");
       [| destruct (String.eqb language "general")]];
    eexists; (split; [reflexivity | vm_compute; reflexivity]).
Qed.

Lemma risk_score_tally (l : list issue) (cats : PyDict.dict Z) :
  _calculate_risk_score {| issues := l; severity_counts := tally l; categories := cats |}
  = Z.min 100 (weighted (count_severity "critical" l) (count_severity "high" l)
                        (count_severity "medium" l) (count_severity "low" l)).
Proof.
  unfold _calculate_risk_score, tally.
  cbn [severity_counts fold_left PyDict.get fst snd String.eqb Ascii.eqb Bool.eqb].
  unfold weighted. lia.
Qed.

(** The report of [analyze], in closed form. *)
Lemma analyze_closed_form (code language : string) :
  exists rs cats,
    patterns_to_check (lower language) = Some rs /\
    compiles rs = true /\
    analyze (init code language)
    = Some {| found := {| issues := all_hits 1 (split_lines code) rs;
                          severity_counts := tally (all_hits 1 (split_lines code) rs);
                          categories := cats |};
              total_issues := len (all_hits 1 (split_lines code) rs);
              risk_score :=
                Z.min 100
                  (weighted (count_severity "critical" (all_hits 1 (split_lines code) rs))
                            (count_severity "high" (all_hits 1 (split_lines code) rs))
                            (count_severity "medium" (all_hits 1 (split_lines code) rs))
                            (count_severity "low" (all_hits 1 (split_lines code) rs))) |}.
Proof.
  destruct (patterns_to_check_compiles (lower language)) as (rs & Hrs & Hc).
  destruct (scan_all_hits (split_lines code) rs Hc initial) as [cats Hscan];
    [reflexivity |].
  exists rs, cats. repeat split; auto.
  unfold analyze, init. cbn [Security.language Security.lines].
  rewrite Hrs, Hscan, risk_score_tally. reflexivity.
Qed.

End SecurityScan.

(** ** Findings of a longer and of a re-cased document *)

Section SecurityRelations.
Import PyStr Security.

Lemma enumerate_app {A : Type} (l1 l2 : list A) (s : Z) :
  enumerate s (l1 ++ l2) = enumerate s l1 ++ enumerate (s + len l1) l2.
Proof.
  revert s. induction l1 as [| x t IH]; intros s; simpl.
  - unfold len. simpl. now rewrite Z.add_0_r.
  - rewrite IH.
    replace (s + len (x :: t)) with (s + 1 + len t)
      by (unfold len; simpl length; lia).
    reflexivity.
Qed.

Lemma rule_hits_app s l1 l2 category r :
  rule_hits s (l1 ++ l2) category r
  = rule_hits s l1 category r ++ rule_hits (s + len l1) l2 category r.
Proof. unfold rule_hits. now rewrite enumerate_app, flat_map_app. Qed.

Lemma count_category_hits_app sev s l1 l2 cp :
  count_severity sev (category_hits s (l1 ++ l2) cp)
  = count_severity sev (category_hits s l1 cp)
    + count_severity sev (category_hits (s + len l1) l2 cp).
Proof.
  unfold category_hits. induction (snd cp) as [| r t IH]; simpl; [reflexivity |].
  rewrite !count_severity_app, IH, rule_hits_app, count_severity_app. lia.
Qed.

(** The issues of a document extended by more lines: those of the
    document, and those of the added lines. *)
Lemma count_all_hits_app sev s l1 l2 rs :
  count_severity sev (all_hits s (l1 ++ l2) rs)
  = count_severity sev (all_hits s l1 rs)
    + count_severity sev (all_hits (s + len l1) l2 rs).
Proof.
  unfold all_hits. induction rs as [| cp t IH]; simpl; [reflexivity |].
  rewrite !count_severity_app, IH, count_category_hits_app. lia.
Qed.










(** *** Membership in the scan *)

Lemma enumerate_nth_error {A : Type} (l : list A) :
  forall n s x, nth_error l n = Some x -> In (s + Z.of_nat n, x) (enumerate s l).
Proof.
  induction l as [| y t IH]; intros [| n] s x H; simpl in H; try discriminate.
  - injection H as ->. left. f_equal. lia.
  - right. replace (s + Z.of_nat (S n)) with ((s + 1) + Z.of_nat n) by lia.
    now apply IH.
Qed.

Lemma all_hits_In s lines (rs : rule_set) category rules (r : rule) n line :
  In (category, rules) rs -> In r rules ->
  nth_error lines n = Some line -> fires (fst r) line = true ->
  In {| line := s + Z.of_nat n; category := category; message := snd r;
        severity := _determine_severity category (fst r);
        excerpt := take 80 (strip line) |}
     (all_hits s lines rs).
Proof.
  intros Hcat Hr Hn Hf. unfold all_hits. apply in_flat_map.
  exists (category, rules). split; [exact Hcat |].
  unfold category_hits. apply in_flat_map. exists r. split; [exact Hr |].
  unfold rule_hits. apply in_flat_map. exists (s + Z.of_nat n, line).
  split; [now apply enumerate_nth_error |].
  unfold line_hits. cbn [fst snd]. rewrite Hf. left. reflexivity.
Qed.

Lemma all_hits_severity s lines rs :
  Forall (fun i => forall p, severity i = _determine_severity (category i) p)
         (all_hits s lines rs).
Proof.
  apply Forall_forall. intros i Hi. unfold all_hits in Hi.
  apply in_flat_map in Hi as (cp & _ & Hi). unfold category_hits in Hi.
  apply in_flat_map in Hi as (r & _ & Hi). unfold rule_hits in Hi.
  apply in_flat_map in Hi as (il & _ & Hi). unfold line_hits in Hi.
  destruct (fires (fst r) (snd il)); [| contradiction].
  destruct Hi as [<- | []]. intros p. reflexivity.
Qed.

(** The rule set of Python holds the [os.system] rule under
    [command_injection]. *)
Lemma python_command_injection :
  exists rs rules,
    patterns_to_check "python" = Some rs /\
    In ("command_injection", rules) rs /\
    In ("os\.system\s*\(", "Use of os.system() - consider subprocess instead") rules.
Proof.
  eexists. eexists. split; [vm_compute; reflexivity |].
  split; [right; left; reflexivity | left; reflexivity].
Qed.

(** The [os.system] pattern is found in any line that has the call of
    scenario 2 somewhere in it. *)
Lemma os_system_found (pre post : string) :
  Re.search true "os\.system\s*\(" (pre ++ os_system_call ++ post)%string = Some true.
Proof.
  unfold Re.search.
  destruct (Re.compile true "os\.system\s*\(") as [c |] eqn:E;
    vm_compute in E; [| discriminate].
  injection E as <-. cbn [Re.ignorecase Re.tree]. f_equal.
  generalize (@None ascii) as p.
  induction pre as [| x t IH]; intros p.
  - reflexivity.
  - cbn [String.append Re.search_from]. rewrite IH.
    now destruct (Re.rmatch _ _ _ _ _).
Qed.

(** No rule of any rule set in force fires on the empty line. *)
Lemma empty_line_is_silent (language : string) (s : Z) :
  exists rs, patterns_to_check language = Some rs /\ all_hits s [EmptyString] rs = [].
Proof.
  unfold patterns_to_check, SECURITY_PATTERNS. cbn [PyDict.get].
  destruct (String.eqb language "python");
    [| destruct (String.eqb language "javascript");
       [| destruct (String.eqb language "general")]];
    eexists; (split; [reflexivity | vm_compute; reflexivity]).
Qed.

End SecurityRelations.

(** ** What the specification says of [SecurityAnalyzer] *)

Section SecurityClaims.
Import PyStr Security.

(** C1, as stated, fails: on the empty Python document the key set of
    [severity_counts] is not the five severities, since ["info"] is not a
    key. *)
Lemma C1_info_is_not_a_key :
  ~ (exists r,
        analyze (init "" "python") = Some r /\
        forall k, In k (PyDict.keys (severity_counts (found r))) <-> In k five_severities).
Proof.
  intros (r & Hr & Hk). vm_compute in Hr. injection Hr as <-.
  assert (H : In "info" five_severities) by (simpl; tauto).
  apply Hk in H. simpl in H. intuition discriminate.
Qed.

(** C1 (amended): for every text and language, [analyze] returns, and the
    keys of [severity_counts] are exactly the four severities critical,
    high, medium and low, in that order, each holding the number of
    findings of its tier, which is 0 when there is none. *)
Theorem C1_severity_counts_four_keys (code language : string) :
  exists r,
    analyze (init code language) = Some r /\
    PyDict.keys (severity_counts (found r)) = four_severities /\
    PyDict.get "critical" (severity_counts (found r))
      = Some (count_severity "critical" (issues (found r))) /\
    PyDict.get "high" (severity_counts (found r))
      = Some (count_severity "high" (issues (found r))) /\
    PyDict.get "medium" (severity_counts (found r))
      = Some (count_severity "medium" (issues (found r))) /\
    PyDict.get "low" (severity_counts (found r))
      = Some (count_severity "low" (issues (found r))) /\
    PyDict.get "info" (severity_counts (found r)) = None.
Proof.
  destruct (analyze_closed_form code language) as (rs & cats & _ & _ & ->).
  eexists. split; [reflexivity |]. cbn [found severity_counts issues].
  repeat split.
Qed.

(** C3: for every result of [analyze], [risk_score] is the smaller of 100
    and 25 x critical + 15 x high + 5 x medium + 2 x low, the counts read
    from [severity_counts]; so it lies between 0 and 100. *)
Theorem C3_risk_score_formula (code language : string) :
  exists r c h m l,
    analyze (init code language) = Some r /\
    PyDict.get "critical" (severity_counts (found r)) = Some c /\
    PyDict.get "high" (severity_counts (found r)) = Some h /\
    PyDict.get "medium" (severity_counts (found r)) = Some m /\
    PyDict.get "low" (severity_counts (found r)) = Some l /\
    risk_score r = Z.min 100 (25 * c + 15 * h + 5 * m + 2 * l) /\
    0 <= risk_score r <= 100.
Proof.
  destruct (analyze_closed_form code language) as (rs & cats & _ & _ & ->).
  do 5 eexists. split; [reflexivity |]. cbn [found severity_counts risk_score].
  do 5 (split; [reflexivity |]).
  unfold weighted.
  set (L := all_hits 1 (split_lines code) rs).
  pose proof (count_severity_nonneg "critical" L).
  pose proof (count_severity_nonneg "high" L).
  pose proof (count_severity_nonneg "medium" L).
  pose proof (count_severity_nonneg "low" L).
  lia.
Qed.

(** C5, as stated, fails: a Python document that holds the call
    [os.system("rm -rf " + user_input)] in a line need not get a finding:
    when the line is a comment, the scanner skips it, and the document of
    the one line [# os.system("rm -rf " + user_input)] has no finding at
    all. *)
Lemma C5_commented_call_is_skipped :
  ~ (forall code n pre post,
        nth_error (split_lines code) n = Some (pre ++ os_system_call ++ post)%string ->
        exists r i,
          analyze (init code "python") = Some r /\
          In i (issues (found r)) /\
          category i = "command_injection" /\
          severity i = "critical").
Proof.
  intros H.
  destruct (H ("# " ++ os_system_call)%string 0%nat "# " EmptyString eq_refl)
    as (r & i & Hr & Hi & _).
  vm_compute in Hr. injection Hr as <-. exact Hi.
Qed.

(** C5 (amended): the severity of a finding is a fixed total function of
    its category: sql_injection, command_injection and
    unsafe_deserialization give critical; xss, eval, prototype_pollution
    and hardcoded_secrets give high; weak_crypto and path_traversal give
    medium; any other category gives low; every finding of [analyze]
    carries the severity of its category; and a Python document with the
    line [os.system("rm -rf " + user_input)], indented or not, or with any
    line that holds the call and is not a comment (its stripped text does
    not start with [#], [//], [/*] or [*]), gets a finding of category
    command_injection and severity critical at that line. *)
Theorem C5_severity_of_category :
  (forall p,
      _determine_severity "sql_injection" p = "critical" /\
      _determine_severity "command_injection" p = "critical" /\
      _determine_severity "unsafe_deserialization" p = "critical" /\
      _determine_severity "xss" p = "high" /\
      _determine_severity "eval" p = "high" /\
      _determine_severity "prototype_pollution" p = "high" /\
      _determine_severity "hardcoded_secrets" p = "high" /\
      _determine_severity "weak_crypto" p = "medium" /\
      _determine_severity "path_traversal" p = "medium") /\
  (forall category p,
      In category ["sql_injection"; "command_injection"; "unsafe_deserialization";
                   "xss"; "eval"; "prototype_pollution"; "hardcoded_secrets";
                   "weak_crypto"; "path_traversal"]
      \/ _determine_severity category p = "low") /\
  (forall code language,
      exists r,
        analyze (init code language) = Some r /\
        Forall (fun i => forall p, severity i = _determine_severity (category i) p)
               (issues (found r))) /\
  (forall code language n indent,
      lower language = "python" ->
      lstrip indent = EmptyString ->
      nth_error (split_lines code) n = Some (indent ++ os_system_call)%string ->
      exists r i,
        analyze (init code language) = Some r /\
        In i (issues (found r)) /\
        line i = 1 + Z.of_nat n /\
        category i = "command_injection" /\
        severity i = "critical") /\
  (forall code language n pre post,
      lower language = "python" ->
      nth_error (split_lines code) n = Some (pre ++ os_system_call ++ post)%string ->
      startswith_any (strip (pre ++ os_system_call ++ post)) comment_prefixes = false ->
      exists r i,
        analyze (init code language) = Some r /\
        In i (issues (found r)) /\
        line i = 1 + Z.of_nat n /\
        category i = "command_injection" /\
        severity i = "critical").
Proof.
  split; [intros p; repeat split |].
  split.
  { intros category p. unfold _determine_severity, str_in. cbn [existsb].
    repeat match goal with
           | |- context [String.eqb category ?k] =>
               destruct (String.eqb_spec category k) as [-> | _];
               [left; simpl; tauto |]
           end.
    right. reflexivity. }
  split.
  { intros code language.
    destruct (analyze_closed_form code language) as (rs & cats & _ & _ & ->).
    eexists. split; [reflexivity |]. apply all_hits_severity. }
  assert (G : forall code language n pre post,
      lower language = "python" ->
      nth_error (split_lines code) n = Some (pre ++ os_system_call ++ post)%string ->
      startswith_any (strip (pre ++ os_system_call ++ post)) comment_prefixes = false ->
      exists r i,
        analyze (init code language) = Some r /\
        In i (issues (found r)) /\
        line i = 1 + Z.of_nat n /\
        category i = "command_injection" /\
        severity i = "critical").
  { intros code language n pre post Hlang Hn Hcomment.
    destruct (analyze_closed_form code language) as (rs & cats & Hrs & _ & ->).
    destruct python_command_injection as (rs' & rules & Hrs' & Hcat & Hrule).
    rewrite Hlang, Hrs' in Hrs. injection Hrs as <-.
    eexists. eexists. split; [reflexivity |]. cbn [found issues].
    split.
    - apply (all_hits_In 1 _ _ _ _ _ n _ Hcat Hrule Hn).
      unfold fires. cbn [fst]. now rewrite Hcomment, os_system_found.
    - repeat split. }
  split; [| exact G].
  intros code language n indent Hlang Hindent Hn.
  apply (G code language n indent EmptyString Hlang).
  - rewrite Hn. reflexivity.
  - change (os_system_call ++ EmptyString)%string with os_system_call.
    rewrite strip_indent by exact Hindent. reflexivity.
Qed.

(** The scenario of C5 on the two-line Python document whose second line
    is the call. *)
Lemma C5_severity_of_category_witness :
  lower "Python" = "python" /\
  nth_error (split_lines scenario_2) 1 = Some (EmptyString ++ os_system_call ++ EmptyString)%string /\
  startswith_any (strip (EmptyString ++ os_system_call ++ EmptyString)) comment_prefixes = false /\
  exists r i,
    analyze (init scenario_2 "Python") = Some r /\
    In i (issues (found r)) /\
    line i = 2 /\
    category i = "command_injection" /\
    severity i = "critical".
Proof.
  repeat (split; [reflexivity |]).
  apply (proj2 (proj2 (proj2 (proj2 C5_severity_of_category)))
           scenario_2 "Python" 1%nat EmptyString EmptyString);
    reflexivity.
Defined.

(** C7: appending a line to a document never lowers the risk score,
    whether the line is joined to the text by a line feed or follows the
    line feed that ends the text, and the risk score of every document lies
    between 0 and 100. *)
Theorem C7_risk_score_monotone (code l language : string) :
  exists r r' r0,
    analyze (init code language) = Some r /\
    analyze (init (code ++ String newline l) language) = Some r' /\
    analyze (init (code ++ String newline EmptyString) language) = Some r0 /\
    risk_score r <= risk_score r' /\
    risk_score r0 <= risk_score r' /\
    0 <= risk_score r <= 100 /\
    0 <= risk_score r' <= 100.
Proof.
  destruct (analyze_closed_form code language) as (rs & cats & Hrs & _ & ->).
  destruct (analyze_closed_form (code ++ String newline l) language)
    as (rs' & cats' & Hrs' & _ & ->).
  destruct (analyze_closed_form (code ++ String newline EmptyString) language)
    as (rs0 & cats0 & Hrs0 & _ & ->).
  rewrite Hrs in Hrs', Hrs0. injection Hrs' as <-. injection Hrs0 as <-.
  destruct (empty_line_is_silent (lower language) (1 + len (split_lines code)))
    as (rs1 & Hrs1 & Hsilent).
  rewrite Hrs in Hrs1. injection Hrs1 as <-.
  do 3 eexists. do 3 (split; [reflexivity |]).
  cbn [risk_score]. rewrite !split_lines_append.
  unfold weighted. rewrite !count_all_hits_app.
  change (split_lines EmptyString) with [EmptyString]. rewrite Hsilent.
  change (count_severity _ []) with 0.
  set (L := all_hits 1 (split_lines code) rs).
  set (M := all_hits (1 + len (split_lines code)) (split_lines l) rs).
  pose proof (count_severity_nonneg "critical" L).
  pose proof (count_severity_nonneg "high" L).
  pose proof (count_severity_nonneg "medium" L).
  pose proof (count_severity_nonneg "low" L).
  pose proof (count_severity_nonneg "critical" M).
  pose proof (count_severity_nonneg "high" M).
  pose proof (count_severity_nonneg "medium" M).
  pose proof (count_severity_nonneg "low" M).
  lia.
Qed.




End SecurityClaims.

(** ** What the specification says of [QualityAnalyzer] *)

Section QualityClaims.
Import PyStr Quality.

Lemma smell_step_deducts (z : Z) (s : smell) :
  In (smell_severity s) smell_severities ->
  smell_step z s = z - spec_smell_deduction s.
Proof.
  unfold smell_step, spec_smell_deduction, smell_severities.
  intros [<- | [<- | [<- | []]]]; reflexivity.
Qed.

Lemma smells_deduct (l : list smell) :
  Forall (fun s => In (smell_severity s) smell_severities) l ->
  forall z,
    fold_left smell_step l z
    = z - fold_right (fun s acc => spec_smell_deduction s + acc) 0 l.
Proof.
  induction 1 as [| s t Hs Ht IH]; intros z; simpl; [lia |].
  rewrite IH, smell_step_deducts by assumption. lia.
Qed.

Lemma grade_bands (score : Z) :
  (_get_grade score = "A" <-> 90 <= score) /\
  (_get_grade score = "B" <-> 80 <= score < 90) /\
  (_get_grade score = "C" <-> 70 <= score < 80) /\
  (_get_grade score = "D" <-> 60 <= score < 70) /\
  (_get_grade score = "F" <-> score < 60).
Proof.
  unfold _get_grade.
  destruct (Z.geb_spec score 90); [repeat split; intros; try discriminate; lia |].
  destruct (Z.geb_spec score 80); [repeat split; intros; try discriminate; lia |].
  destruct (Z.geb_spec score 70); [repeat split; intros; try discriminate; lia |].
  destruct (Z.geb_spec score 60); repeat split; intros; try discriminate; lia.
Qed.

(** C2: the score is 100 less the deductions the specification lists (10
    for a comment ratio below 0.10, 5 for an average line length above 80,
    10 for more than 30 lines per function, 2 per naming issue up to 15, 5
    without a module docstring, 10 for a coverage below 0.50 or else 5
    below 0.80, and 8, 5 or 2 per smell of high, medium or low severity),
    clamped to the range 0 to 100; and the grade is A from 90, B from 80,
    C from 70, D from 60 and F below, so 90 is A, 89 is B, 70 is C, 69 is D
    and 59 is F. *)
Theorem C2_score_and_grade (r : findings)
        (H : Forall (fun s => In (smell_severity s) smell_severities) (code_smells r)) :
  score (analyze r) = spec_score r /\
  0 <= score (analyze r) <= 100 /\
  grade (analyze r) = _get_grade (score (analyze r)) /\
  (forall s : Z,
      (_get_grade s = "A" <-> 90 <= s) /\
      (_get_grade s = "B" <-> 80 <= s < 90) /\
      (_get_grade s = "C" <-> 70 <= s < 80) /\
      (_get_grade s = "D" <-> 60 <= s < 70) /\
      (_get_grade s = "F" <-> s < 60)) /\
  _get_grade 90 = "A" /\ _get_grade 89 = "B" /\ _get_grade 70 = "C" /\
  _get_grade 69 = "D" /\ _get_grade 59 = "F".
Proof.
  assert (E : _calculate_score r = spec_score r).
  { unfold _calculate_score, spec_score, spec_deductions.
    rewrite (smells_deduct _ H).
    destruct (Qltb (comment_ratio (the_metrics r)) (1 # 10));
      destruct (Qltb 80 (average_line_length (the_metrics r)));
      destruct (Qltb 30 (lines_per_function (the_metrics r)));
      destruct (has_module_doc (the_documentation r));
      destruct (Qltb (coverage (the_documentation r)) (1 # 2));
      destruct (Qltb (coverage (the_documentation r)) (8 # 10));
      cbn [negb]; lia. }
  cbn [analyze score grade]. rewrite E.
  split; [reflexivity |]. split; [unfold spec_score; lia |].
  split; [reflexivity |]. split; [apply grade_bands |].
  repeat split.
Qed.

(** C2 on [sample]: a low comment ratio, one naming issue, no module
    docstring, full coverage and one smell of each severity give
    100 - 10 - 2 - 5 - 8 - 5 - 2 = 68 and the grade D. *)
Lemma C2_score_and_grade_witness :
  Forall (fun s => In (smell_severity s) smell_severities) (code_smells sample) /\
  score (analyze sample) = spec_score sample /\
  spec_score sample = 68 /\
  grade (analyze sample) = "D".
Proof.
  assert (H : Forall (fun s => In (smell_severity s) smell_severities) (code_smells sample))
    by (repeat constructor; simpl; tauto).
  split; [exact H |].
  split; [exact (proj1 (C2_score_and_grade sample H)) |].
  split; reflexivity.
Defined.

End QualityClaims.

(** ** Walking a syntax tree *)

Section TreeWalk.
Import PyStr Ast.

Lemma subtree_not_node v : is_node v = false -> subtree v = [].
Proof. destruct v; simpl; intros H; [discriminate | | | |]; reflexivity. Qed.

Lemma node_count_not_node v : is_node v = false -> node_count v = O.
Proof. destruct v; simpl; intros H; [discriminate | | | |]; reflexivity. Qed.

Lemma iter_child_nodes_are_nodes v : Forall (fun n => is_node n = true) (iter_child_nodes v).
Proof.
  destruct v as [c fs | | | |]; simpl; try constructor.
  apply Forall_flat_map. apply Forall_forall. intros [k x] _. simpl.
  destruct x; simpl; try constructor; try constructor.
  apply Forall_forall. intros y Hy. now apply filter_In in Hy.
Qed.

(** A subtree is its root followed by the subtrees of the children. *)
Lemma subtree_children c fs :
  subtree (Obj c fs) = Obj c fs :: flat_map subtree (iter_child_nodes (Obj c fs)).
Proof.
  cbn [subtree iter_child_nodes]. f_equal.
  induction fs as [| [k x] t IH]; [reflexivity |].
  cbn [flat_map snd]. rewrite flat_map_app, <- IH. f_equal.
  destruct x as [c' fs' | its | | |]; cbn [field_children flat_map];
    rewrite ?app_nil_r; try reflexivity.
  induction its as [| y r IHr]; [reflexivity |].
  cbn [filter]. destruct (is_node y) eqn:E; cbn [flat_map]; rewrite IHr.
  - reflexivity.
  - now rewrite (subtree_not_node y E).
Qed.

Lemma node_count_children c fs :
  node_count (Obj c fs) = S (total_count (iter_child_nodes (Obj c fs))).
Proof.
  unfold total_count. cbn [node_count iter_child_nodes]. f_equal.
  induction fs as [| [k x] t IH]; [reflexivity |].
  cbn [flat_map snd]. rewrite map_app, list_sum_app, <- IH. f_equal.
  destruct x as [c' fs' | its | | |]; cbn [field_children map list_sum fold_right];
    rewrite ?Nat.add_0_r; try reflexivity.
  induction its as [| y r IHr]; [reflexivity |].
  cbn [filter]. destruct (is_node y) eqn:E; cbn [map list_sum fold_right]; rewrite IHr.
  - reflexivity.
  - now rewrite (node_count_not_node y E).
Qed.

Lemma total_count_cons n q : total_count (n :: q) = (node_count n + total_count q)%nat.
Proof. reflexivity. Qed.

Lemma total_count_app q q' : total_count (q ++ q') = (total_count q + total_count q')%nat.
Proof. unfold total_count. now rewrite map_app, list_sum_app. Qed.

(** With fuel for every node of the queue, the walk visits the subtrees of
    the queue, each node once. *)
Lemma walk_queue_subtrees (fuel : nat) :
  forall q,
    Forall (fun n => is_node n = true) q -> (total_count q <= fuel)%nat ->
    Permutation (walk_queue fuel q) (flat_map subtree q).
Proof.
  induction fuel as [| f IH]; intros q Hq Hf.
  - destruct q as [| n rest]; [constructor |].
    inversion Hq as [| ? ? Hn _]; subst. destruct n; try discriminate.
    rewrite total_count_cons, node_count_children in Hf. lia.
  - destruct q as [| n rest]; [constructor |].
    inversion Hq as [| ? ? Hn Hrest]; subst.
    destruct n as [c fs | | | |]; try discriminate.
    cbn [walk_queue flat_map]. rewrite subtree_children.
    cbn [app]. constructor.
    rewrite IH.
    + rewrite flat_map_app. apply Permutation_app_comm.
    + apply Forall_app. split; [exact Hrest | apply iter_child_nodes_are_nodes].
    + rewrite total_count_cons, node_count_children in Hf.
      rewrite total_count_app. lia.
Qed.

(** [ast.walk] yields the nodes of the subtree, each once. *)
Lemma walk_subtree c fs : Permutation (walk (Obj c fs)) (subtree (Obj c fs)).
Proof.
  unfold walk. rewrite walk_queue_subtrees.
  - cbn [flat_map]. now rewrite app_nil_r.
  - repeat constructor.
  - rewrite total_count_cons. change (total_count []) with O. lia.
Qed.

Lemma in_list_sum (x : nat) (l : list nat) : In x l -> (x <= list_sum l)%nat.
Proof.
  induction l as [| y t IH]; intros H; [contradiction |].
  change (list_sum (y :: t)) with (y + list_sum t)%nat.
  destruct H as [-> | H]; [lia | specialize (IH H); lia].
Qed.

Lemma child_smaller c fs ch :
  In ch (iter_child_nodes (Obj c fs)) ->
  (node_count ch < node_count (Obj c fs))%nat.
Proof.
  intros H. rewrite node_count_children. unfold total_count.
  pose proof (in_list_sum (node_count ch) _ (in_map node_count _ _ H)). lia.
Qed.

(** A node of the subtree of a node of a tree is a node of the tree. *)
Lemma subtree_trans_bounded (k : nat) :
  forall t, (node_count t <= k)%nat ->
            forall n m, In n (subtree t) -> In m (subtree n) -> In m (subtree t).
Proof.
  induction k as [| k IH]; intros t Hk n m Hn Hm.
  - destruct t as [c fs | | | |]; try contradiction.
    rewrite node_count_children in Hk. lia.
  - destruct t as [c fs | | | |]; try contradiction.
    rewrite subtree_children in Hn |- *.
    destruct Hn as [<- | Hn]; [now rewrite subtree_children in Hm |].
    right. apply in_flat_map in Hn as (ch & Hch & Hn).
    apply in_flat_map. exists ch. split; [exact Hch |].
    apply (IH ch) with (n := n); auto.
    pose proof (child_smaller c fs ch Hch). lia.
Qed.

Lemma subtree_trans (t n m : pyval) :
  In n (subtree t) -> In m (subtree n) -> In m (subtree t).
Proof. apply (subtree_trans_bounded (node_count t)). lia. Qed.

End TreeWalk.

(** ** Complexity *)

Section Complexity.
Import PyStr Ast Python.

Lemma complexity_step_weight (z : Z) (n : pyval) : complexity_step z n = z + weight n.
Proof.
  unfold weight, complexity_step.
  destruct (isinstance_any n branch_classes); [lia |].
  destruct (isinstance n "BoolOp"); [lia |].
  destruct (isinstance n "comprehension"); lia.
Qed.

Lemma fold_complexity (l : list pyval) :
  forall z, fold_left complexity_step l z = z + total_weight l.
Proof.
  induction l as [| n t IH]; intros z; simpl; [lia |].
  rewrite IH, complexity_step_weight. lia.
Qed.

Lemma total_weight_perm (l l' : list pyval) :
  Permutation l l' -> total_weight l = total_weight l'.
Proof. induction 1; simpl; lia. Qed.

Lemma total_weight_app (l l' : list pyval) :
  total_weight (l ++ l') = total_weight l + total_weight l'.
Proof. induction l as [| n t IH]; simpl; lia. Qed.

(** The classes the rule counts exclude one another. *)
Lemma weight_by_class (n : pyval) :
  weight n
  = (if isinstance_any n branch_classes then 1 else 0)
    + (if isinstance n "BoolOp" then operands n - 1 else 0)
    + (if isinstance n "comprehension" then 1 else 0).
Proof.
  unfold weight, complexity_step, operands, isinstance_any, branch_classes.
  destruct n as [c fs | | | |]; try reflexivity.
  cbn [existsb isinstance].
  destruct (String.eqb_spec c "If") as [-> | _]; [reflexivity |].
  destruct (String.eqb_spec c "While") as [-> | _]; [reflexivity |].
  destruct (String.eqb_spec c "For") as [-> | _]; [reflexivity |].
  destruct (String.eqb_spec c "ExceptHandler") as [-> | _]; [reflexivity |].
  cbn [orb].
  destruct (String.eqb_spec c "BoolOp") as [-> | _]; [cbn; lia |].
  destruct (String.eqb c "comprehension"); lia.
Qed.

Lemma total_weight_counts (l : list pyval) :
  total_weight l
  = count_of (fun n => isinstance_any n branch_classes) l
    + boolop_extra l
    + count_of (fun n => isinstance n "comprehension") l.
Proof.
  unfold count_of, boolop_extra, len.
  induction l as [| n t IH]; [reflexivity |].
  cbn [total_weight fold_right filter]. fold (total_weight t).
  rewrite IH, weight_by_class.
  destruct (isinstance_any n branch_classes), (isinstance n "BoolOp"),
    (isinstance n "comprehension"); cbn [fold_right length]; lia.
Qed.

Lemma complexity_total_weight (node : pyval) :
  _calculate_function_complexity node = 1 + total_weight (subtree node).
Proof.
  unfold _calculate_function_complexity. rewrite fold_complexity.
  destruct node as [c fs | its | s | n |];
    try (cbn; lia).
  now rewrite (total_weight_perm _ _ (walk_subtree c fs)).
Qed.

Lemma complexity_is_spec (node : pyval) :
  _calculate_function_complexity node = spec_complexity node.
Proof.
  rewrite complexity_total_weight, total_weight_counts. unfold spec_complexity. lia.
Qed.

Lemma total_weight_nonneg (l : list pyval) :
  forallb (fun n => negb (isinstance n "BoolOp") || (2 <=? operands n)) l = true ->
  0 <= total_weight l.
Proof.
  induction l as [| n t IH]; cbn [forallb total_weight fold_right]; [lia |].
  fold (total_weight t). intros H. apply andb_true_iff in H as [Hn Ht].
  specialize (IH Ht). rewrite weight_by_class.
  destruct (isinstance_any n branch_classes), (isinstance n "comprehension"),
    (isinstance n "BoolOp"); cbn [negb orb] in Hn; try lia;
    apply Z.leb_le in Hn; lia.
Qed.

Lemma total_weight_plain (v : pyval) : plain v = true -> total_weight (subtree v) = 0.
Proof.
  unfold plain. induction (subtree v) as [| n t IH];
    cbn [forallb total_weight fold_right]; [reflexivity |].
  fold (total_weight t). intros H. apply andb_true_iff in H as [Hn Ht].
  rewrite (IH Ht), weight_by_class.
  destruct (isinstance_any n branch_classes), (isinstance n "BoolOp"),
    (isinstance n "comprehension"); try discriminate; reflexivity.
Qed.

Lemma total_weight_plain_list (l : list pyval) :
  forallb plain l = true -> total_weight (flat_map subtree l) = 0.
Proof.
  induction l as [| v t IH]; cbn [forallb flat_map]; [reflexivity |].
  intros H. apply andb_true_iff in H as [Hv Ht].
  now rewrite total_weight_app, (total_weight_plain v Hv), (IH Ht).
Qed.

Lemma subtree_items (l : list pyval) :
  flat_map subtree (filter is_node l) = flat_map subtree l.
Proof.
  induction l as [| y r IH]; [reflexivity |].
  cbn [filter flat_map]. destruct (is_node y) eqn:E; cbn [flat_map]; rewrite IH.
  - reflexivity.
  - now rewrite (subtree_not_node y E).
Qed.

Lemma total_weight_if (test : pyval) (body : list pyval) :
  is_node test = true -> plain test = true -> forallb plain body = true ->
  total_weight (subtree (if_stmt test body)) = 1.
Proof.
  intros Hn Ht Hb. unfold if_stmt. rewrite subtree_children.
  destruct test as [c fs | | | |]; try discriminate.
  cbn [iter_child_nodes flat_map snd field_children filter app].
  rewrite !app_nil_r, subtree_items.
  change (total_weight (?n :: ?l)) with (weight n + total_weight l).
  rewrite total_weight_app, (total_weight_plain _ Ht), (total_weight_plain_list body Hb).
  reflexivity.
Qed.

(** A function whose body is four [if] statements in a row, with nothing
    that branches in the tests, the bodies or the parameters. *)
Lemma four_ifs_weight name args t1 b1 t2 b2 t3 b3 t4 b4 :
  is_node args = true -> plain args = true ->
  is_node t1 = true -> plain t1 = true -> forallb plain b1 = true ->
  is_node t2 = true -> plain t2 = true -> forallb plain b2 = true ->
  is_node t3 = true -> plain t3 = true -> forallb plain b3 = true ->
  is_node t4 = true -> plain t4 = true -> forallb plain b4 = true ->
  total_weight
    (subtree (function_def name args
                [if_stmt t1 b1; if_stmt t2 b2; if_stmt t3 b3; if_stmt t4 b4])) = 4.
Proof.
  intros Ha Hpa H1 Hp1 Hb1 H2 Hp2 Hb2 H3 Hp3 Hb3 H4 Hp4 Hb4.
  unfold function_def. rewrite subtree_children.
  destruct args as [c fs | | | |]; try discriminate.
  cbn [iter_child_nodes flat_map snd field_children].
  rewrite !flat_map_app, !subtree_items.
  cbn [flat_map app].
  change (total_weight (?n :: ?l)) with (weight n + total_weight l).
  rewrite !app_nil_r, !total_weight_app, (total_weight_plain _ Hpa).
  rewrite !total_weight_if by assumption.
  reflexivity.
Qed.

End Complexity.

(** ** What the specification says of [PythonAnalyzer] *)

Section PythonClaims.
Import PyStr Ast Python.

Lemma fold_append_if {A B : Type} (p : A -> bool) (f : A -> B) (l : list A) :
  forall acc,
    fold_left (fun acc x => if p x then acc ++ [f x] else acc) l acc
    = acc ++ map f (filter p l).
Proof.
  induction l as [| x t IH]; intros acc; simpl; [now rewrite app_nil_r |].
  rewrite IH. destruct (p x); simpl; [now rewrite <- app_assoc | reflexivity].
Qed.

Lemma walk_within_subtree (tree node : pyval) :
  In node (walk tree) -> is_node node = true -> In node (subtree tree).
Proof.
  destruct tree as [c fs | | | |];
    try (intros [<- | []]; discriminate).
  intros H _. exact (Permutation_in _ (walk_subtree c fs) H).
Qed.

(** C4: the complexity of a function is 1, plus the number of [If],
    [While], [For] and [ExceptHandler] nodes of its subtree (nested
    functions included), plus N - 1 for each [BoolOp] of N operands, plus
    the number of [comprehension] clauses; every record of [get_functions]
    carries that number for a function node of the tree; it is at least 1
    on a tree in which boolean expressions have two operands or more, so
    for every function extracted from such a tree; it is 1 for a function
    without any of these constructs; and a function whose body is four
    [if] statements in a row, with no other branching construct, has
    complexity 5. *)
Theorem C4_complexity_rule :
  (forall node, _calculate_function_complexity node = spec_complexity node) /\
  (forall ast_unparse ast_get_docstring node_str self,
      Forall (fun f =>
                exists tree node,
                  ast_tree self = Some tree /\
                  In node (subtree tree) /\
                  is_function node = true /\
                  fn_name f = attr node "name" /\
                  fn_complexity f = spec_complexity node)
             (get_functions ast_unparse ast_get_docstring node_str self)) /\
  (forall node,
      boolops_binary node = true -> 1 <= _calculate_function_complexity node) /\
  (forall ast_unparse ast_get_docstring node_str self tree,
      ast_tree self = Some tree -> boolops_binary tree = true ->
      Forall (fun f => 1 <= fn_complexity f)
             (get_functions ast_unparse ast_get_docstring node_str self)) /\
  (forall node, plain node = true -> _calculate_function_complexity node = 1) /\
  (forall name args t1 b1 t2 b2 t3 b3 t4 b4,
      is_node args = true -> plain args = true ->
      is_node t1 = true -> plain t1 = true -> forallb plain b1 = true ->
      is_node t2 = true -> plain t2 = true -> forallb plain b2 = true ->
      is_node t3 = true -> plain t3 = true -> forallb plain b3 = true ->
      is_node t4 = true -> plain t4 = true -> forallb plain b4 = true ->
      _calculate_function_complexity
        (function_def name args
           [if_stmt t1 b1; if_stmt t2 b2; if_stmt t3 b3; if_stmt t4 b4]) = 5).
Proof.
  split; [exact complexity_is_spec |].
  split.
  { intros ast_unparse ast_get_docstring node_str self.
    unfold get_functions. destruct (ast_tree self) as [tree |]; [| constructor].
    rewrite fold_append_if. cbn [app]. apply Forall_forall.
    intros f Hf. apply in_map_iff in Hf as (node & <- & Hnode).
    apply filter_In in Hnode as [Hin Hfn].
    exists tree, node. split; [reflexivity |]. split.
    - apply walk_within_subtree; [exact Hin |].
      destruct node; try discriminate. reflexivity.
    - split; [exact Hfn |]. split; [reflexivity |]. apply complexity_is_spec. }
  split.
  { intros node H. rewrite complexity_total_weight.
    pose proof (total_weight_nonneg (subtree node) H). lia. }
  split.
  { intros ast_unparse ast_get_docstring node_str self tree Htree Hbin.
    unfold get_functions. rewrite Htree, fold_append_if. cbn [app].
    apply Forall_forall. intros f Hf. apply in_map_iff in Hf as (node & <- & Hnode).
    apply filter_In in Hnode as [Hin Hfn]. unfold function_of. cbn [fn_complexity].
    assert (Hsub : In node (subtree tree)).
    { apply walk_within_subtree; [exact Hin |]. destruct node; try discriminate. reflexivity. }
    rewrite complexity_total_weight.
    assert (0 <= total_weight (subtree node)); [| lia].
    apply total_weight_nonneg. apply forallb_forall. intros m Hm.
    unfold boolops_binary in Hbin. rewrite forallb_forall in Hbin.
    apply Hbin. exact (subtree_trans _ _ _ Hsub Hm). }
  split.
  { intros node H. now rewrite complexity_total_weight, total_weight_plain. }
  intros. rewrite complexity_total_weight, four_ifs_weight by assumption. reflexivity.
Qed.

(** C4 on [def check(x)] with four guards in a row. *)
Lemma C4_complexity_rule_witness :
  boolops_binary four_ifs = true /\
  1 <= _calculate_function_complexity four_ifs /\
  _calculate_function_complexity four_ifs = 5.
Proof.
  split; [reflexivity |]. split.
  - apply (proj1 (proj2 (proj2 C4_complexity_rule)) four_ifs). reflexivity.
  - unfold four_ifs.
    apply (proj2 (proj2 (proj2 (proj2 (proj2 C4_complexity_rule))))); reflexivity.
Defined.

(** C6, as stated, fails: a parse can fail otherwise than by
    [SyntaxError], which is all that [_parse_ast] catches; the exception
    then leaves the constructor and no analyzer is built.  So it is with
    the [ValueError] that [ast.parse] raises on a text with a null byte:
    the parse of that text fails and the analyzer raises. *)
Lemma C6_other_parse_failure_escapes :
  ~ (forall code,
        (forall tree, sample_parse code <> Parsed tree) ->
        exists self, init sample_parse code = Some self).
Proof.
  intros H. destruct (H null_byte_text) as (self & Hself).
  - intros tree E. vm_compute in E. discriminate.
  - vm_compute in Hself. discriminate.
Qed.

(** C6 (amended): when [ast.parse] raises [SyntaxError], the analyzer is
    built all the same; [get_syntax_errors] returns the record of the
    error (message, line, offset, text), and [get_imports],
    [get_functions], [get_classes] and [get_variables] return their empty
    shapes. *)
Theorem C6_syntax_error_is_absorbed
        (ast_parse : string -> parse_outcome)
        (ast_unparse : pyval -> string)
        (ast_get_docstring : pyval -> option string)
        (node_str : pyval -> string)
        (code : string) (e : SyntaxError)
        (H : ast_parse code = RaisesSyntaxError e) :
  exists self,
    init ast_parse code = Some self /\
    get_syntax_errors self
    = Some {| err_message := msg e; err_line := lineno e;
              err_offset := offset e; err_text := text e |} /\
    get_imports self
    = {| in_standard := []; in_third_party := []; in_local := [] |} /\
    get_functions ast_unparse ast_get_docstring node_str self = [] /\
    get_classes ast_unparse ast_get_docstring node_str self = [] /\
    get_variables ast_unparse self = [].
Proof.
  unfold init, _parse_ast. rewrite H. eexists. split; [reflexivity |].
  repeat split.
Qed.

(** C6 on the text [def f(:], which the sample parser rejects. *)
Lemma C6_syntax_error_is_absorbed_witness :
  sample_parse "def f(:" = RaisesSyntaxError sample_error /\
  exists self,
    init sample_parse "def f(:" = Some self /\
    get_syntax_errors self
    = Some {| err_message := "invalid syntax"; err_line := Some 1;
              err_offset := Some 7;
              err_text := Some ("def f(:" ++ String newline EmptyString)%string |} /\
    get_imports self
    = {| in_standard := []; in_third_party := []; in_local := [] |} /\
    get_functions (fun _ => EmptyString) (fun _ => None) (fun _ => EmptyString) self = [] /\
    get_classes (fun _ => EmptyString) (fun _ => None) (fun _ => EmptyString) self = [] /\
    get_variables (fun _ => EmptyString) self = [].
Proof.
  split; [reflexivity |].
  apply (C6_syntax_error_is_absorbed sample_parse (fun _ => EmptyString) (fun _ => None)
           (fun _ => EmptyString) "def f(:" sample_error).
  reflexivity.
Defined.

End PythonClaims.

(** ** Runs of blank lines *)

Section BlankRuns.
Import PyStr Basic.

Lemma blank_scan_app (l1 l2 : list string) (s : Z) (st : blank_state) :
  fold_left blank_step (enumerate s (l1 ++ l2)) st
  = fold_left blank_step (enumerate (s + len l1) l2)
      (fold_left blank_step (enumerate s l1) st).
Proof. now rewrite enumerate_app, fold_left_app. Qed.

Lemma blank_runs_kept (l : list (Z * string)) :
  forall st r, In r (runs st) -> In r (runs (fold_left blank_step l st)).
Proof.
  induction l as [| [i line] t IH]; intros st r H; [exact H |].
  cbn [fold_left]. apply IH. unfold blank_step.
  destruct (negb (nonempty (strip line))); cbn [runs]; [exact H |].
  destruct (blank_count st >? 2); [apply in_or_app; now left | exact H].
Qed.

Lemma len_cons {A : Type} (x : A) (l : list A) : len (x :: l) = 1 + len l.
Proof. unfold len. simpl length. lia. Qed.

(** Over blank lines the counter grows by their number, the start of the
    run is kept, and nothing is reported. *)
Lemma blank_scan_blanks_from (l : list string) :
  Forall (fun line => is_blank line = true) l ->
  forall s st,
    0 <= blank_count st ->
    blank_count (fold_left blank_step (enumerate s l) st) = blank_count st + len l /\
    (0 < blank_count st ->
     blank_start (fold_left blank_step (enumerate s l) st) = blank_start st) /\
    (blank_count st = 0 -> l <> [] ->
     blank_start (fold_left blank_step (enumerate s l) st) = s) /\
    runs (fold_left blank_step (enumerate s l) st) = runs st.
Proof.
  induction 1 as [| line t Hline Ht IH]; intros s st Hst.
  - cbn [enumerate fold_left]. change (len (@nil string)) with 0.
    repeat split; try lia. congruence.
  - cbn [enumerate fold_left].
    set (st1 := blank_step st (s, line)).
    assert (E : st1 = {| blank_count := blank_count st + 1;
                         blank_start := if blank_count st =? 0 then s else blank_start st;
                         runs := runs st |}).
    { unfold st1, blank_step. unfold is_blank in Hline. now rewrite Hline. }
    assert (E1 : blank_count st1 = blank_count st + 1) by now rewrite E.
    assert (E2 : blank_start st1 = if blank_count st =? 0 then s else blank_start st)
      by now rewrite E.
    assert (E3 : runs st1 = runs st) by now rewrite E.
    clearbody st1. clear E.
    destruct (IH (s + 1) st1) as (A & B & _ & D); [lia |].
    rewrite A, D, len_cons, E1, E3.
    split; [lia |]. split; [| split; [| reflexivity]].
    + intros Hpos. rewrite B, E2 by lia.
      destruct (Z.eqb_spec (blank_count st) 0); [lia | reflexivity].
    + intros Hz _. rewrite B, E2 by lia. now rewrite Hz.
Qed.

Lemma blank_scan_blanks (l : list string) :
  Forall (fun line => is_blank line = true) l ->
  forall s st,
    blank_count st = 0 ->
    blank_count (fold_left blank_step (enumerate s l) st) = len l /\
    (l <> [] -> blank_start (fold_left blank_step (enumerate s l) st) = s) /\
    runs (fold_left blank_step (enumerate s l) st) = runs st.
Proof.
  intros Hl s st Hst.
  destruct (blank_scan_blanks_from l Hl s st ltac:(lia)) as (A & _ & C & D).
  rewrite A, Hst. repeat split; auto.
Qed.

(** A run of more than two blank lines that ends at a line of text is
    reported with its first line, its last line and its length. *)
Lemma blank_run_before_text_reported (pre blanks post : list string) (x : string) :
  blank_count (blank_scan pre) = 0 ->
  Forall (fun line => is_blank line = true) blanks ->
  is_blank x = false ->
  2 < len blanks ->
  In {| start_line := 1 + len pre; end_line := len pre + len blanks; count := len blanks |}
     (runs (blank_scan (pre ++ blanks ++ x :: post))).
Proof.
  intros Hpre Hb Hx Hn. unfold blank_scan in *.
  rewrite !blank_scan_app. cbn [enumerate fold_left].
  apply blank_runs_kept.
  destruct (blank_scan_blanks blanks Hb (1 + len pre) _ Hpre) as (A & B & C).
  set (st := fold_left blank_step (enumerate (1 + len pre) blanks) _) in *.
  unfold blank_step. unfold is_blank in Hx. rewrite Hx. cbn [runs].
  rewrite A. destruct (Z.gtb_spec (len blanks) 2); [| lia].
  apply in_or_app. right. left.
  rewrite B by (intros ->; unfold len in Hn; simpl in Hn; lia).
  f_equal. lia.
Qed.

(** C8: a run of four blank lines that ends the document is not reported,
    where the claim has every run of more than two reported: after the
    text [x = 1] and four blank lines [find_patterns] returns no
    [consecutive_blank_lines] record, while the same run followed by a
    statement gives the one record of lines 2 to 5 with count 4. *)
Theorem C8_trailing_run_is_dropped (find_magic_numbers : list string -> list magic_number) :
  lines (init trailing_blanks "python") = ["x = 1"; ""; ""; ""; ""]%string /\
  consecutive_blank_lines (find_patterns find_magic_numbers (init trailing_blanks "python"))
  = [] /\
  consecutive_blank_lines (find_patterns find_magic_numbers (init inner_blanks "python"))
  = [{| start_line := 2; end_line := 5; count := 4 |}].
Proof. repeat split. Qed.

End BlankRuns.

(** ** Long functions *)

Section LongFunctions.
Import PyStr Performance.

Lemma foldM_app {A S : Type} (f : S -> A -> option S) (l1 l2 : list A) (s : S) :
  foldM f (l1 ++ l2) s
  = match foldM f l1 s with
    | Some s' => foldM f l2 s'
    | None => None
    end.
Proof.
  revert s. induction l1 as [| x t IH]; intros s; simpl; [reflexivity |].
  destruct (f s x); [apply IH | reflexivity].
Qed.

Lemma opener_match (line : string) :
  Re.match_ false opener (strip line) = Some (is_opener line).
Proof.
  unfold is_opener, Re.match_.
  destruct (Re.compile false opener) eqn:E; [reflexivity |].
  vm_compute in E. discriminate.
Qed.

Lemma loop_match (s : string) : exists b, Re.match_ false "^(for|while)\s+" s = Some b.
Proof.
  unfold Re.match_.
  destruct (Re.compile false "^(for|while)\s+") eqn:E; [eexists; reflexivity |].
  vm_compute in E. discriminate.
Qed.

Lemma function_step_opener st i line :
  is_opener line = true ->
  function_step st (i, line)
  = Some {| function_lines := 0;
            function_start := i;
            in_function := true;
            issues :=
              if in_function st && (function_lines st >? 50)
              then issues st ++ [long_function_issue (function_start st) (function_lines st)]
              else issues st |}.
Proof. intros H. unfold function_step. now rewrite opener_match, H. Qed.

Lemma function_step_inside st i line :
  is_opener line = false -> in_function st = true ->
  function_step st (i, line)
  = Some {| function_lines := function_lines st + 1;
            function_start := function_start st;
            in_function := true;
            issues := issues st |}.
Proof. intros H Hin. unfold function_step. now rewrite opener_match, H, Hin. Qed.

(** The scan never raises and never withdraws an issue. *)
Lemma function_scan_total (l : list (Z * string)) :
  forall st,
    exists st',
      foldM function_step l st = Some st' /\
      forall i, In i (issues st) -> In i (issues st').
Proof.
  induction l as [| [i line] t IH]; intros st; cbn [foldM]; [eauto |].
  unfold function_step at 1. rewrite opener_match.
  destruct (is_opener line); [| destruct (in_function st)];
    match goal with |- context [foldM _ _ ?x] => destruct (IH x) as (st' & -> & K) end;
    exists st'; (split; [reflexivity |]); intros j Hj; apply K; cbn [issues]; auto.
  destruct (in_function st && (function_lines st >? 50)); [| exact Hj].
  apply in_or_app. now left.
Qed.

(** Between two openers every line adds one to the counter. *)
Lemma function_scan_body (mid : list string) :
  Forall (fun line => is_opener line = false) mid ->
  forall s st,
    in_function st = true ->
    foldM function_step (enumerate s mid) st
    = Some {| function_lines := function_lines st + len mid;
              function_start := function_start st;
              in_function := true;
              issues := issues st |}.
Proof.
  induction 1 as [| line t Hline Ht IH]; intros s st Hin; cbn [enumerate foldM].
  - change (len (@nil string)) with 0. rewrite Z.add_0_r, <- Hin.
    now destruct st.
  - rewrite function_step_inside, IH by auto.
    cbn [function_lines function_start issues]. rewrite len_cons, Z.add_assoc.
    reflexivity.
Qed.

Lemma nesting_scan_total (lines : list string) (l : list (Z * string)) :
  forall st, exists st', foldM (nesting_step lines) l st = Some st'.
Proof.
  induction l as [| [i line] t IH]; intros st; cbn [foldM]; [eauto |].
  unfold nesting_step at 1. destruct (loop_match (strip line)) as [b ->].
  repeat match goal with
         | |- context [if ?c then _ else _] => destruct c
         end; apply IH.
Qed.

(** A function opener followed by more than 50 lines before the next
    opener is reported at the line of the opener, with the number of lines
    between the two openers, and with severity medium when that number is
    below 100 and high when it is 100 or more. *)
Lemma long_function_before_opener_reported
        (code language : string) (pre mid post : list string) (first next : string)
        (Hlines : split_lines code = pre ++ first :: mid ++ next :: post)
        (Hfirst : is_opener first = true)
        (Hmid : Forall (fun line => is_opener line = false) mid)
        (Hnext : is_opener next = true)
        (Hlong : 50 < len mid) :
  exists found i,
    _check_general_performance (init code language) = Some found /\
    In i found /\
    line i = 1 + len pre /\
    message i = ("Long function (" ++ str_of_int (len mid)
                 ++ " lines) - consider breaking it up")%string /\
    severity i = (if len mid <? 100 then "medium" else "high") /\
    excerpt i = "Function definition".
Proof.
  unfold _check_general_performance, init. cbn [lines].
  destruct (nesting_scan_total (split_lines code) (enumerate 1 (split_lines code))
              {| nesting_level := 0; max_nesting := 0; nested_line := 0 |}) as [nest ->].
  rewrite Hlines, enumerate_app, foldM_app.
  match goal with
  | |- context [foldM function_step (enumerate 1 pre) ?st0] =>
      destruct (function_scan_total (enumerate 1 pre) st0) as (st1 & -> & _)
  end.
  cbn [enumerate foldM]. rewrite function_step_opener by exact Hfirst.
  rewrite enumerate_app, foldM_app, function_scan_body by auto.
  cbn [function_lines function_start issues enumerate foldM].
  rewrite function_step_opener by exact Hnext.
  cbn [function_lines function_start in_function issues andb].
  rewrite Z.add_0_l. destruct (Z.gtb_spec (len mid) 50) as [_ | Hle]; [| lia].
  match goal with
  | |- context [foldM function_step ?l ?st2] =>
      destruct (function_scan_total l st2) as (st3 & -> & K)
  end.
  exists (issues st3), (long_function_issue (1 + len pre) (len mid)).
  split; [reflexivity |]. split; [| repeat split].
  apply K. cbn [issues]. apply in_or_app. right. left. reflexivity.
Qed.

(** A function of 51 lines that a second function follows. *)
Lemma long_sample_reported :
  exists found i,
    _check_general_performance (init long_sample "python") = Some found /\
    In i found /\
    line i = 1 /\
    message i = "Long function (51 lines) - consider breaking it up" /\
    severity i = "medium" /\
    excerpt i = "Function definition".
Proof.
  apply (long_function_before_opener_reported long_sample "python" [] long_sample_body
           ["    return 0"] "def first():" "def second():").
  - reflexivity.
  - reflexivity.
  - unfold long_sample_body. apply Forall_forall. intros x Hx.
    apply repeat_spec in Hx. subst x. reflexivity.
  - reflexivity.
  - reflexivity.
Qed.

End LongFunctions.


(** ** More on the security scan: totals, categories, positions *)

Section SecurityTotals.
Import PyStr Security.

Lemma distinct_NoDup (l : list string) : PyDict.distinct l = true -> NoDup l.
Proof.
  induction l as [| k t IH]; simpl; intros H; constructor.
  - apply andb_true_iff in H as [H _]. intros Hin.
    apply negb_true_iff in H.
    assert (existsb (String.eqb k) t = true); [| congruence].
    apply existsb_exists. exists k. split; [exact Hin | apply String.eqb_refl].
  - apply andb_true_iff in H as [_ H]. auto.
Qed.

Lemma get_set_same {V : Type} (k : string) (v : V) (d : PyDict.dict V) :
  PyDict.get k (PyDict.set k v d) = Some v.
Proof.
  induction d as [| [k' v'] t IH]; simpl.
  - now rewrite String.eqb_refl.
  - destruct (String.eqb k k') eqn:E; simpl; rewrite E; [reflexivity | exact IH].
Qed.

Lemma get_set_other {V : Type} (k k' : string) (v : V) (d : PyDict.dict V) :
  k <> k' -> PyDict.get k (PyDict.set k' v d) = PyDict.get k d.
Proof.
  intros Hk. induction d as [| [k0 v0] t IH]; simpl.
  - destruct (String.eqb_spec k k'); [contradiction | reflexivity].
  - destruct (String.eqb_spec k' k0) as [-> | N]; simpl.
    + destruct (String.eqb_spec k k0); [contradiction | reflexivity].
    + destruct (String.eqb k k0); [reflexivity | exact IH].
Qed.

Lemma get_not_key {V : Type} (k : string) (d : PyDict.dict V) :
  ~ In k (PyDict.keys d) -> PyDict.get k d = None.
Proof.
  induction d as [| [k' v'] t IH]; simpl; intros H; [reflexivity |].
  destruct (String.eqb_spec k k') as [-> | N]; [exfalso; auto | apply IH; auto].
Qed.

(** The scan of one category, with the entry it leaves in [categories]. *)
Lemma scan_category_exact lines (cp : string * list rule) st :
  Forall (fun r => compiled (fst r)) (snd cp) -> counted st ->
  scan_category lines st cp
  = Some {| issues := issues st ++ category_hits 1 lines cp;
            severity_counts := tally (issues st ++ category_hits 1 lines cp);
            categories := categories_step lines (categories st) cp |}.
Proof.
  intros Hc Hst. destruct cp as [category rules]. unfold scan_category.
  rewrite scan_rules_hits by assumption.
  unfold categories_step, category_hits. cbn [fst snd app grow issues severity_counts categories].
  destruct (flat_map (rule_hits 1 lines category) rules); reflexivity.
Qed.

Lemma scan_all_exact lines (rs : rule_set) :
  compiles rs = true ->
  forall st, counted st ->
    foldM (scan_category lines) rs st
    = Some {| issues := issues st ++ all_hits 1 lines rs;
              severity_counts := tally (issues st ++ all_hits 1 lines rs);
              categories := categories_after lines rs (categories st) |}.
Proof.
  intros Hc. apply compiles_Forall in Hc.
  induction Hc as [| cp t Hcp Ht IH]; intros st Hst; cbn [foldM].
  - unfold all_hits, categories_after. cbn [flat_map fold_left]. rewrite app_nil_r.
    destruct st; simpl. unfold counted in Hst; simpl in Hst. now rewrite Hst.
  - rewrite (scan_category_exact lines cp st Hcp Hst).
    rewrite IH by reflexivity. cbn [issues categories].
    unfold all_hits, categories_after. cbn [flat_map fold_left].
    now rewrite <- !app_assoc.
Qed.

(** The rule set in force has distinct category names. *)
Lemma patterns_to_check_distinct (language : string) :
  exists rs,
    patterns_to_check language = Some rs /\ compiles rs = true /\
    PyDict.distinct (PyDict.keys rs) = true.
Proof.
  unfold patterns_to_check, SECURITY_PATTERNS. cbn [PyDict.get].
  destruct (String.eqb language "python");
    [| destruct (String.eqb language "javascript");
       [| destruct (String.eqb language "general")]];
    eexists; (split; [reflexivity | split; vm_compute; reflexivity]).
Qed.

(** The report of [analyze], with its [categories]. *)
Lemma analyze_with_categories (code language : string) :
  exists rs r,
    patterns_to_check (lower language) = Some rs /\
    NoDup (PyDict.keys rs) /\
    analyze (init code language) = Some r /\
    issues (found r) = all_hits 1 (split_lines code) rs /\
    categories (found r) = categories_after (split_lines code) rs [] /\
    total_issues r = len (issues (found r)).
Proof.
  destruct (patterns_to_check_distinct (lower language)) as (rs & Hrs & Hc & Hd).
  exists rs. eexists. split; [exact Hrs |]. split; [now apply distinct_NoDup |].
  unfold analyze, init. cbn [Security.language Security.lines].
  rewrite Hrs, (scan_all_exact (split_lines code) rs Hc initial) by reflexivity.
  split; [reflexivity |]. repeat split.
Qed.

Lemma category_of_hits s lines (cp : string * list rule) i :
  In i (category_hits s lines cp) -> category i = fst cp.
Proof.
  unfold category_hits. intros Hi.
  apply in_flat_map in Hi as (r & _ & Hi). unfold rule_hits in Hi.
  apply in_flat_map in Hi as (il & _ & Hi). unfold line_hits in Hi.
  destruct (fires (fst r) (snd il)); [| contradiction].
  destruct Hi as [<- | []]. reflexivity.
Qed.

Lemma count_category_app c l l' :
  count_category c (l ++ l') = count_category c l + count_category c l'.
Proof. unfold count_category. now rewrite filter_app, len_app. Qed.

Lemma count_category_uniform c k (l : list issue) :
  (forall i, In i l -> category i = k) ->
  count_category c l = if String.eqb k c then len l else 0.
Proof.
  unfold count_category. induction l as [| i t IH]; intros H.
  - now destruct (String.eqb k c).
  - cbn [filter]. rewrite (H i) by (left; reflexivity).
    assert (Ht : forall j, In j t -> category j = k) by (intros j Hj; apply H; now right).
    specialize (IH Ht). destruct (String.eqb k c); rewrite ?len_cons, IH; reflexivity.
Qed.

(** In a rule set of distinct names the issues of a category are those of
    its own rules. *)
Lemma count_category_all_hits c s lines (rs : rule_set) :
  NoDup (PyDict.keys rs) ->
  count_category c (all_hits s lines rs)
  = match PyDict.get c rs with
    | Some rules => len (category_hits s lines (c, rules))
    | None => 0
    end.
Proof.
  unfold all_hits. induction rs as [| [k rules] t IH]; intros Hnd; [reflexivity |].
  cbn [flat_map PyDict.get]. rewrite count_category_app.
  inversion Hnd as [| ? ? Hk Ht]; subst.
  rewrite (count_category_uniform c k) by (intros i Hi; exact (category_of_hits _ _ _ _ Hi)).
  rewrite (IH Ht). rewrite (String.eqb_sym c k).
  destruct (String.eqb_spec k c) as [-> | N]; [| reflexivity].
  rewrite (get_not_key c t Hk). lia.
Qed.

Lemma get_categories_after c lines (rs : rule_set) :
  NoDup (PyDict.keys rs) ->
  forall cats,
    PyDict.get c (categories_after lines rs cats)
    = match PyDict.get c rs with
      | Some rules =>
          match category_hits 1 lines (c, rules) with
          | [] => PyDict.get c cats
          | _ :: _ => Some (len (category_hits 1 lines (c, rules)))
          end
      | None => PyDict.get c cats
      end.
Proof.
  unfold categories_after. induction rs as [| [k rules] t IH]; intros Hnd cats;
    [reflexivity |].
  inversion Hnd as [| ? ? Hk Ht]; subst.
  cbn [fold_left PyDict.get]. rewrite (IH Ht).
  destruct (String.eqb_spec c k) as [-> | N].
  - rewrite (get_not_key k t Hk). unfold categories_step. cbn [fst].
    destruct (category_hits 1 lines (k, rules)); [reflexivity | apply get_set_same].
  - assert (E : PyDict.get c (categories_step lines cats (k, rules)) = PyDict.get c cats).
    { unfold categories_step. cbn [fst].
      destruct (category_hits 1 lines (k, rules)); [reflexivity |].
      now apply get_set_other. }
    rewrite E. reflexivity.
Qed.

Lemma len_zero_nil {A : Type} (l : list A) : len l = 0 -> l = [].
Proof. destruct l; [reflexivity |]. rewrite len_cons. pose proof (len_nonneg l). lia. Qed.

Lemma severities_partition (l : list issue) :
  Forall (fun i => In (severity i) four_severities) l ->
  len l = count_severity "critical" l + count_severity "high" l
          + count_severity "medium" l + count_severity "low" l.
Proof.
  induction 1 as [| i t Hi Ht IH]; [reflexivity |].
  change (i :: t) with ([i] ++ t). rewrite !count_severity_app, !count_severity_single.
  rewrite len_app. change (len [i]) with 1. rewrite IH.
  destruct Hi as [H | [H | [H | [H | []]]]]; rewrite <- H;
    cbn [String.eqb Ascii.eqb Bool.eqb]; lia.
Qed.

(** X1: the total of [analyze] is the number of issues and the sum of the
    four severity counters. *)
Theorem X1_totals_agree (code language : string) :
  exists r c h m l,
    analyze (init code language) = Some r /\
    PyDict.get "critical" (severity_counts (found r)) = Some c /\
    PyDict.get "high" (severity_counts (found r)) = Some h /\
    PyDict.get "medium" (severity_counts (found r)) = Some m /\
    PyDict.get "low" (severity_counts (found r)) = Some l /\
    total_issues r = len (issues (found r)) /\
    total_issues r = c + h + m + l.
Proof.
  destruct (analyze_closed_form code language) as (rs & cats & _ & _ & ->).
  do 5 eexists. split; [reflexivity |]. cbn [found severity_counts issues total_issues].
  do 5 (split; [reflexivity |]).
  apply severities_partition.
  eapply Forall_impl; [| apply all_hits_severity].
  intros i Hi. rewrite (Hi EmptyString). apply determine_severity_cases.
Qed.

(** X2: [categories] has an entry for a category exactly when some issue
    has that category, and the entry is the number of those issues. *)
Theorem X2_categories_count_issues (code language c : string) :
  exists r,
    analyze (init code language) = Some r /\
    PyDict.get c (categories (found r))
    = (if count_category c (issues (found r)) =? 0 then None
       else Some (count_category c (issues (found r)))).
Proof.
  destruct (analyze_with_categories code language) as (rs & r & _ & Hnd & Hr & Hi & Hc & _).
  exists r. split; [exact Hr |].
  rewrite Hc, Hi, (get_categories_after c _ rs Hnd), (count_category_all_hits c _ _ rs Hnd).
  destruct (PyDict.get c rs) as [rules |]; [| reflexivity].
  destruct (category_hits 1 (split_lines code) (c, rules)) as [| i t] eqn:E;
    [reflexivity |].
  rewrite len_cons. pose proof (len_nonneg t).
  destruct (Z.eqb_spec (1 + len t) 0); [lia | reflexivity].
Qed.

End SecurityTotals.


Section SecurityPositions.
Import PyStr Security.

Lemma enumerate_In {A : Type} (l : list A) :
  forall s i x,
    In (i, x) (enumerate s l) ->
    s <= i < s + len l /\ nth_error l (Z.to_nat (i - s)) = Some x.
Proof.
  induction l as [| y t IH]; intros s i x H; [contradiction |].
  rewrite len_cons. pose proof (len_nonneg t). destruct H as [H | H].
  - injection H as <- <-. split; [lia |]. now rewrite Z.sub_diag.
  - apply IH in H as [Hr Hn]. split; [lia |].
    replace (Z.to_nat (i - s)) with (S (Z.to_nat (i - (s + 1)))) by lia. exact Hn.
Qed.

Lemma substring_length_le (n : nat) (s : string) :
  (String.length (String.substring 0 n s) <= n)%nat.
Proof.
  revert s. induction n as [| n IH]; intros [| c t]; simpl; try lia.
  specialize (IH t). lia.
Qed.

Lemma all_hits_origin s lines rs i :
  In i (all_hits s lines rs) ->
  exists cp r text,
    In cp rs /\ In r (snd cp) /\ In (line i, text) (enumerate s lines) /\
    fires (fst r) text = true /\
    category i = fst cp /\ message i = snd r /\
    excerpt i = take 80 (strip text).
Proof.
  unfold all_hits. intros Hi.
  apply in_flat_map in Hi as (cp & Hcp & Hi). unfold category_hits in Hi.
  apply in_flat_map in Hi as (r & Hr & Hi). unfold rule_hits in Hi.
  apply in_flat_map in Hi as ([n text] & Hil & Hi). unfold line_hits in Hi.
  cbn [fst snd] in Hi. destruct (fires (fst r) text) eqn:Hf; [| contradiction].
  destruct Hi as [<- | []]. exists cp, r, text. repeat split; auto.
Qed.

(** X3: every issue points at a line of the document that is not a
    comment, and its excerpt is that line stripped and cut to 80
    characters. *)
Theorem X3_issue_positions (code language : string) :
  exists r,
    analyze (init code language) = Some r /\
    Forall (fun i =>
              1 <= line i <= len (split_lines code) /\
              exists text,
                nth_error (split_lines code) (Z.to_nat (line i - 1)) = Some text /\
                startswith_any (strip text) comment_prefixes = false /\
                excerpt i = take 80 (strip text) /\
                (String.length (excerpt i) <= 80)%nat)
           (issues (found r)).
Proof.
  destruct (analyze_closed_form code language) as (rs & cats & _ & _ & ->).
  eexists. split; [reflexivity |]. cbn [found issues].
  apply Forall_forall. intros i Hi.
  apply all_hits_origin in Hi as (cp & r & text & _ & _ & Hil & Hf & _ & _ & He).
  apply enumerate_In in Hil as [Hr Hn]. split; [lia |].
  exists text. split; [exact Hn |]. split.
  - unfold fires in Hf.
    destruct (startswith_any (strip text) comment_prefixes); [discriminate | reflexivity].
  - split; [exact He |]. rewrite He. apply substring_length_le.
Qed.

(** A language without rules of its own is checked against the general
    rules only. *)
Lemma patterns_to_check_general (language : string) :
  language <> "python" -> language <> "javascript" ->
  patterns_to_check language = PyDict.get "general" SECURITY_PATTERNS.
Proof.
  intros Hp Hj. unfold patterns_to_check, SECURITY_PATTERNS. cbn [PyDict.get].
  destruct (String.eqb_spec language "python"); [contradiction |].
  destruct (String.eqb_spec language "javascript"); [contradiction |].
  destruct (String.eqb language "general"); vm_compute; reflexivity.
Qed.

Lemma count_severity_none sev (l : list issue) :
  Forall (fun i => severity i <> sev) l -> count_severity sev l = 0.
Proof.
  unfold count_severity. induction 1 as [| i t Hi Ht IH]; [reflexivity |].
  cbn [filter]. destruct (String.eqb_spec (severity i) sev); [contradiction | exact IH].
Qed.

Lemma count_severity_all sev (l : list issue) :
  Forall (fun i => severity i = sev) l -> count_severity sev l = len l.
Proof.
  unfold count_severity. induction 1 as [| i t Hi Ht IH]; [reflexivity |].
  cbn [filter]. rewrite Hi, String.eqb_refl, !len_cons, IH. reflexivity.
Qed.

(** X4: for a language other than Python and JavaScript only the general
    rules run, every finding is of low severity, and the risk score is
    twice the number of findings, at most 100. *)
Theorem X4_other_languages_are_low (code language : string)
        (Hp : lower language <> "python") (Hj : lower language <> "javascript") :
  exists r,
    analyze (init code language) = Some r /\
    Forall (fun i => severity i = "low" /\
                     In (category i) ["sensitive_data"; "ip_addresses"; "urls"])
           (issues (found r)) /\
    risk_score r = Z.min 100 (2 * total_issues r).
Proof.
  destruct (analyze_closed_form code language) as (rs & cats & Hrs & _ & ->).
  rewrite (patterns_to_check_general _ Hp Hj) in Hrs.
  eexists. split; [reflexivity |]. cbn [found issues risk_score total_issues].
  set (L := all_hits 1 (split_lines code) rs).
  assert (HL : Forall (fun i => severity i = "low" /\
                                In (category i) ["sensitive_data"; "ip_addresses"; "urls"]) L).
  { apply Forall_forall. intros i Hi.
    pose proof (proj1 (Forall_forall _ _) (all_hits_severity 1 (split_lines code) rs) i Hi
                  EmptyString) as Hs.
    apply all_hits_origin in Hi as (cp & _ & _ & Hcp & _ & _ & _ & Hc & _ & _).
    vm_compute in Hrs. injection Hrs as <-.
    rewrite Hs, Hc.
    destruct Hcp as [<- | [<- | [<- | []]]]; (split; [reflexivity | simpl; tauto]). }
  split; [exact HL |].
  assert (Hlow : Forall (fun i => severity i = "low") L)
    by (eapply Forall_impl; [| exact HL]; intros i [H _]; exact H).
  unfold weighted.
  rewrite (count_severity_all "low" L Hlow).
  rewrite !count_severity_none;
    try (eapply Forall_impl; [| exact Hlow]; intros i ->; discriminate).
  f_equal.
Qed.

Lemma X4_other_languages_are_low_witness :
  lower "Rust" <> "python" /\ lower "Rust" <> "javascript" /\
  exists r,
    analyze (init "let password = api_key;" "Rust") = Some r /\
    Forall (fun i => severity i = "low" /\
                     In (category i) ["sensitive_data"; "ip_addresses"; "urls"])
           (issues (found r)) /\
    risk_score r = Z.min 100 (2 * total_issues r).
Proof.
  split; [discriminate |]. split; [discriminate |].
  apply (X4_other_languages_are_low "let password = api_key;" "Rust"); discriminate.
Defined.

Lemma all_hits_silent s lines rs :
  Forall (fun text => startswith_any (strip text) comment_prefixes = true) lines ->
  all_hits s lines rs = [].
Proof.
  intros H. destruct (all_hits s lines rs) as [| i t] eqn:E; [reflexivity |].
  assert (Hi : In i (all_hits s lines rs)) by (rewrite E; now left).
  apply all_hits_origin in Hi as (_ & r & text & _ & _ & Hil & Hf & _).
  apply enumerate_In in Hil as [_ Hn]. apply nth_error_In in Hn.
  rewrite Forall_forall in H. specialize (H text Hn).
  unfold fires in Hf. rewrite H in Hf. discriminate.
Qed.

(** X5: a document whose every line is a comment has no finding, whatever
    the comments hold: the counters are 0 and the risk score is 0. *)
Theorem X5_comments_are_skipped (code language : string)
        (H : Forall (fun text => startswith_any (strip text) comment_prefixes = true)
                    (split_lines code)) :
  exists r,
    analyze (init code language) = Some r /\
    issues (found r) = [] /\
    severity_counts (found r) = [("critical", 0); ("high", 0); ("medium", 0); ("low", 0)] /\
    total_issues r = 0 /\
    risk_score r = 0.
Proof.
  destruct (analyze_closed_form code language) as (rs & cats & _ & _ & ->).
  eexists. split; [reflexivity |]. cbn [found issues severity_counts total_issues risk_score].
  rewrite (all_hits_silent 1 _ rs H). repeat split.
Qed.

Lemma X5_comments_are_skipped_witness :
  Forall (fun text => startswith_any (strip text) comment_prefixes = true)
         (split_lines only_comments) /\
  exists r,
    analyze (init only_comments "python") = Some r /\
    issues (found r) = [] /\
    severity_counts (found r) = [("critical", 0); ("high", 0); ("medium", 0); ("low", 0)] /\
    total_issues r = 0 /\
    risk_score r = 0.
Proof.
  assert (H : Forall (fun text => startswith_any (strip text) comment_prefixes = true)
                     (split_lines only_comments))
    by (repeat constructor).
  split; [exact H |]. exact (X5_comments_are_skipped only_comments "python" H).
Defined.

End SecurityPositions.

(** ** More on the quality score *)

Section QualityMore.
Import PyStr Quality.

Lemma smell_step_bounds (z : Z) (s : smell) : z - 8 <= smell_step z s <= z - 2.
Proof.
  unfold smell_step.
  destruct (String.eqb (smell_severity s) "high"); [lia |].
  destruct (String.eqb (smell_severity s) "medium"); lia.
Qed.

Lemma smells_bounds (l : list smell) :
  forall z, z - 8 * len l <= fold_left smell_step l z <= z - 2 * len l.
Proof.
  induction l as [| s t IH]; intros z.
  - change (len (@nil smell)) with 0. simpl. lia.
  - cbn [fold_left]. rewrite len_cons.
    pose proof (smell_step_bounds z s). specialize (IH (smell_step z s)). lia.
Qed.

Lemma smells_monotone (l : list smell) :
  forall z z', z <= z' -> fold_left smell_step l z <= fold_left smell_step l z'.
Proof.
  induction l as [| s t IH]; intros z z' H; [exact H |].
  cbn [fold_left]. apply IH. unfold smell_step.
  destruct (String.eqb (smell_severity s) "high"); [lia |].
  destruct (String.eqb (smell_severity s) "medium"); lia.
Qed.

(** X6: one more code smell or one more naming issue never raises the
    score. *)
Theorem X6_findings_never_raise_score (r : findings) (s : smell) (n : naming_issue) :
  _calculate_score (add_smell s r) <= _calculate_score r /\
  _calculate_score (add_naming_issue n r) <= _calculate_score r.
Proof.
  split.
  - unfold _calculate_score, add_smell.
    cbn [the_metrics naming_issues the_documentation code_smells].
    rewrite fold_left_app. cbn [fold_left].
    match goal with
    | |- context [smell_step ?z s] => pose proof (smell_step_bounds z s)
    end.
    lia.
  - unfold _calculate_score, add_naming_issue.
    cbn [the_metrics naming_issues the_documentation code_smells].
    rewrite len_app. change (len [n]) with 1. pose proof (len_nonneg (naming_issues r)).
    match goal with
    | |- Z.max 0 (Z.min 100 (fold_left smell_step ?l ?a))
         <= Z.max 0 (Z.min 100 (fold_left smell_step ?l ?b)) =>
        assert (a <= b);
        [| pose proof (smells_monotone l a b ltac:(assumption)); lia]
    end.
    repeat match goal with
           | |- context [if ?c then _ else _] => destruct c
           end; lia.
Qed.

(** X7: whatever the metrics, names and documentation, the deductions other
    than for code smells come to 55 at most, and each smell costs between
    2 and 8: the score lies between 45 - 8 n and 100 - 2 n for n smells,
    within 0 to 100; so a module without code smells scores 45 or more. *)
Theorem X7_score_bounds (r : findings) :
  Z.max 0 (Z.min 100 (45 - 8 * len (code_smells r))) <= _calculate_score r /\
  _calculate_score r <= Z.max 0 (100 - 2 * len (code_smells r)) /\
  0 <= _calculate_score r <= 100.
Proof.
  unfold _calculate_score.
  pose proof (len_nonneg (naming_issues r)).
  match goal with
  | |- context [fold_left smell_step ?l ?z] => pose proof (smells_bounds l z) as B
  end.
  pose proof (len_nonneg (code_smells r)).
  repeat match goal with
         | H : context [if ?c then _ else _] |- _ => destruct c
         end; lia.
Qed.

Lemma grade_rank_of_score (s : Z) :
  grade_rank (_get_grade s)
  = if s >=? 90 then 4 else if s >=? 80 then 3 else if s >=? 70 then 2
    else if s >=? 60 then 1 else 0.
Proof.
  unfold _get_grade.
  repeat match goal with
         | |- context [if ?c then _ else _] => destruct c
         end; reflexivity.
Qed.

(** X8: the grade follows the score: a score that is not lower never gives
    a worse grade. *)
Theorem X8_grade_is_monotone (s s' : Z) (H : s <= s') :
  grade_rank (_get_grade s) <= grade_rank (_get_grade s').
Proof.
  rewrite !grade_rank_of_score.
  repeat match goal with
         | |- context [?a >=? ?b] => destruct (Z.geb_spec a b)
         end; lia.
Qed.

Lemma X8_grade_is_monotone_witness :
  69 <= 70 /\ grade_rank (_get_grade 69) <= grade_rank (_get_grade 70).
Proof.
  split; [lia |]. apply (X8_grade_is_monotone 69 70). lia.
Defined.

Lemma count_if_split {A : Type} (p : A -> bool) (l : list A) :
  len l = count_if p l + count_if (fun x => negb (p x)) l.
Proof.
  unfold count_if. induction l as [| x t IH]; [reflexivity |].
  cbn [filter]. destruct (p x); cbn [negb]; rewrite !len_cons, IH; lia.
Qed.

(** A blank line is not a comment. *)
Lemma blank_not_comment (line : string) :
  nonempty (strip line) = false -> _is_comment line = false.
Proof.
  unfold _is_comment. destruct (strip line); [reflexivity | discriminate].
Qed.

(** X9: [_calculate_metrics] sorts every line into exactly one of code,
    blank and comment: the three counts add up to [total_lines], which is
    at least 1 for the lines of any text. *)
Theorem X9_line_counts_partition
        (findall_count : string -> string -> Z) (round1 : Q -> Q) (code language : string) :
  let m := _calculate_metrics findall_count round1 (init code language) in
  total_lines m = code_lines m + blank_lines m + comment_lines m /\
  0 <= code_lines m /\ 0 <= blank_lines m /\ 0 <= comment_lines m /\
  1 <= total_lines m.
Proof.
  cbv zeta. unfold _calculate_metrics.
  cbn [total_lines code_lines blank_lines comment_lines].
  remember (lines (init code language)) as L eqn:HL. split.
  - pose proof (count_if_split (fun line => nonempty (strip line)) L) as E0.
    cbv beta in E0.
    assert (E1 : count_if (fun line => nonempty (strip line)) L
                 = count_if _is_comment L
                   + count_if (fun line => nonempty (strip line) && negb (_is_comment line)) L).
    { unfold count_if. clear. induction L as [| x t IH]; [reflexivity |].
      cbn [filter]. destruct (nonempty (strip x)) eqn:E.
      - destruct (_is_comment x); cbn [negb andb]; rewrite !len_cons; lia.
      - rewrite (blank_not_comment x E). cbn [andb]. exact IH. }
    lia.
  - repeat split; try apply len_nonneg.
    rewrite HL. unfold init. cbn [lines]. unfold split_lines.
    destruct (split_first code) as [h l]. rewrite len_cons.
    pose proof (len_nonneg l). lia.
Qed.

End QualityMore.

Section QualityComments.
Import PyStr Quality.

Lemma count_if_none {A : Type} (p : A -> bool) (l : list A) :
  Forall (fun x => p x = false) l -> count_if p l = 0.
Proof.
  unfold count_if. induction 1 as [| x t Hx Ht IH]; [reflexivity |].
  cbn [filter]. now rewrite Hx.
Qed.

(** X10: a module none of whose lines is a comment has comment ratio 0 and
    loses the 10 points for it: its score is 90 at most. *)
Theorem X10_uncommented_code_scores_at_most_90
        (findall_count : string -> string -> Z) (round1 : Q -> Q)
        (code language : string) (r : findings)
        (Hm : the_metrics r = _calculate_metrics findall_count round1 (init code language))
        (Hc : Forall (fun line => _is_comment line = false) (split_lines code)) :
  comment_lines (the_metrics r) = 0 /\ _calculate_score r <= 90.
Proof.
  assert (E : comment_lines (the_metrics r) = 0).
  { rewrite Hm. unfold _calculate_metrics, init. cbn [comment_lines lines].
    now apply count_if_none. }
  split; [exact E |].
  assert (R : Qltb (comment_ratio (the_metrics r)) (1 # 10) = true).
  { rewrite Hm in E |- *. unfold _calculate_metrics in E |- *.
    cbn [comment_lines comment_ratio] in E |- *. rewrite E. reflexivity. }
  unfold _calculate_score. rewrite R.
  pose proof (len_nonneg (naming_issues r)).
  match goal with
  | |- context [fold_left smell_step ?l ?z] => pose proof (smells_bounds l z) as B
  end.
  pose proof (len_nonneg (code_smells r)).
  repeat match goal with
         | H : context [if ?c then _ else _] |- _ => destruct c
         end; lia.
Qed.

Lemma X10_uncommented_code_scores_at_most_90_witness :
  the_metrics uncommented_findings
  = _calculate_metrics (fun _ _ => 0) (fun q => q) (init uncommented "python") /\
  Forall (fun line => _is_comment line = false) (split_lines uncommented) /\
  comment_lines (the_metrics uncommented_findings) = 0 /\
  _calculate_score uncommented_findings <= 90.
Proof.
  split; [reflexivity |].
  assert (H : Forall (fun line => _is_comment line = false) (split_lines uncommented))
    by (repeat constructor).
  split; [exact H |].
  exact (X10_uncommented_code_scores_at_most_90 (fun _ _ => 0) (fun q => q)
           uncommented "python" uncommented_findings eq_refl H).
Defined.

End QualityComments.

(** ** [BasicAnalyzer]: statistics and line lengths *)

Section BasicStatistics.
Import PyStr.
Import Basic.

Lemma slen_cons (c : ascii) (s : string) : slen (String c s) = 1 + slen s.
Proof. unfold slen. cbn [String.length]. lia. Qed.

Lemma slen_nonneg (s : string) : 0 <= slen s.
Proof. unfold slen. lia. Qed.

Lemma slen_append (s t : string) : slen (s ++ t) = slen s + slen t.
Proof.
  induction s as [| c s IH]; [reflexivity |].
  cbn [String.append]. rewrite !slen_cons, IH. lia.
Qed.

(** The text has one line feed between any two consecutive lines and
    nothing else besides the lines. *)
Lemma split_first_length (s : string) :
  slen s = slen (fst (split_first s))
           + fold_right (fun line acc => 1 + slen line + acc) 0 (snd (split_first s)).
Proof.
  induction s as [| c t IH]; [reflexivity |].
  cbn [split_first]. destruct (split_first t) as [h r]. cbn [fst snd] in IH.
  rewrite slen_cons, IH.
  destruct (Ascii.eqb c newline); cbn [fst snd fold_right]; rewrite ?slen_cons;
    change (slen EmptyString) with 0; lia.
Qed.

Lemma sum_lengths_with_feeds (l : list string) :
  fold_right (fun line acc => 1 + slen line + acc) 0 l = sum_lengths l + len l.
Proof.
  induction l as [| x t IH]; [reflexivity |].
  cbn [fold_right sum_lengths]. fold (sum_lengths t). rewrite len_cons, IH. lia.
Qed.

Lemma filter_len_le {A : Type} (p : A -> bool) (l : list A) : len (filter p l) <= len l.
Proof.
  induction l as [| x t IH]; [reflexivity |].
  cbn [filter]. destruct (p x); rewrite ?len_cons; lia.
Qed.

(** X11: the characters of a text are those of its lines and one line feed
    between consecutive lines; a text has at least one line, and no more
    non-empty lines than lines. *)
Theorem X11_characters_and_lines (code language : string) :
  let st := get_basic_stats (init code language) in
  total_characters st = sum_lengths (split_lines code) + total_lines st - 1 /\
  1 <= total_lines st /\
  0 <= non_empty_lines st <= total_lines st.
Proof.
  cbv zeta. unfold get_basic_stats, init.
  cbn [total_characters total_lines non_empty_lines Basic.lines Basic.code].
  assert (H1 : slen code = sum_lengths (split_lines code) + len (split_lines code) - 1
               /\ 1 <= len (split_lines code)).
  { unfold split_lines. rewrite (split_first_length code) at 1.
    destruct (split_first code) as [h r]. cbn [fst snd].
    rewrite sum_lengths_with_feeds, len_cons. cbn [sum_lengths fold_right].
    fold (sum_lengths r). pose proof (len_nonneg r). lia. }
  pose proof (filter_len_le (fun line => nonempty (strip line)) (split_lines code)).
  pose proof (len_nonneg (filter (fun line => nonempty (strip line)) (split_lines code))).
  lia.
Qed.

Lemma fold_max_spec (t : list Z) :
  forall x,
    x <= fold_left Z.max t x /\
    Forall (fun y => y <= fold_left Z.max t x) t /\
    In (fold_left Z.max t x) (x :: t).
Proof.
  induction t as [| y t IH]; intros x; cbn [fold_left].
  - split; [lia |]. split; [constructor | now left].
  - destruct (IH (Z.max x y)) as (A & B & C). split; [lia |]. split.
    + constructor; [lia | exact B].
    + destruct C as [C | C]; [| right; now right].
      rewrite <- C. destruct (Z.max_spec x y) as [[_ ->] | [_ ->]];
        [right; now left | now left].
Qed.

Lemma fold_min_spec (t : list Z) :
  forall x,
    fold_left Z.min t x <= x /\
    Forall (fun y => fold_left Z.min t x <= y) t /\
    In (fold_left Z.min t x) (x :: t).
Proof.
  induction t as [| y t IH]; intros x; cbn [fold_left].
  - split; [lia |]. split; [constructor | now left].
  - destruct (IH (Z.min x y)) as (A & B & C). split; [lia |]. split.
    + constructor; [lia | exact B].
    + destruct C as [C | C]; [| right; now right].
      rewrite <- C. destruct (Z.min_spec x y) as [[_ ->] | [_ ->]];
        [now left | right; now left].
Qed.

Lemma max_default_spec (xs : list Z) :
  Forall (fun y => y <= max_default xs) xs /\ (xs <> [] -> In (max_default xs) xs).
Proof.
  destruct xs as [| x t]; [split; [constructor | congruence] |].
  cbn [max_default]. destruct (fold_max_spec t x) as (A & B & C).
  split; [constructor; assumption | intros _; exact C].
Qed.

Lemma min_default_spec (xs : list Z) :
  Forall (fun y => min_default xs <= y) xs /\ (xs <> [] -> In (min_default xs) xs).
Proof.
  destruct xs as [| x t]; [split; [constructor | congruence] |].
  cbn [min_default]. destruct (fold_min_spec t x) as (A & B & C).
  split; [constructor; assumption | intros _; exact C].
Qed.

Lemma nonblank_has_length (line : string) : nonempty (strip line) = true -> 1 <= slen line.
Proof.
  destruct line as [| c t]; [discriminate |]. intros _.
  rewrite slen_cons. pose proof (slen_nonneg t). lia.
Qed.

(** X12: [max_line_length] bounds the length of every line and is the
    length of some line; [min_line_length] is 0 exactly when no line is
    non-empty, and otherwise is the length of a non-empty line, at least 1
    and at most [max_line_length]. *)
Theorem X12_extreme_line_lengths (code language : string) :
  let self := init code language in
  let st := get_basic_stats self in
  Forall (fun line => slen line <= max_line_length st) (lines self) /\
  (exists line, In line (lines self) /\ slen line = max_line_length st) /\
  (min_line_length st = 0 <-> non_empty_lines st = 0) /\
  (non_empty_lines st = 0 \/
   (1 <= min_line_length st <= max_line_length st /\
    exists line, In line (lines self) /\ nonempty (strip line) = true /\
                 slen line = min_line_length st)).
Proof.
  cbv zeta. unfold get_basic_stats.
  cbn [max_line_length min_line_length non_empty_lines].
  set (L := lines (init code language)).
  assert (HL : L <> []).
  { unfold L, init. cbn [lines]. unfold split_lines.
    destruct (split_first code); discriminate. }
  destruct (max_default_spec (map slen L)) as [Mall Min].
  set (N := filter (fun line => nonempty (strip line)) L).
  destruct (min_default_spec (map slen N)) as [mall mIn].
  split; [now rewrite Forall_map in Mall |].
  split.
  { destruct (in_map_iff slen L (max_default (map slen L))) as [H _].
    destruct H as (line & E & Hin); [apply Min; destruct L; [congruence | discriminate] |].
    exists line. auto. }
  destruct N as [| n0 N'] eqn:EN.
  - split; [split; reflexivity | left; reflexivity].
  - assert (Hm : In (min_default (map slen (n0 :: N'))) (map slen (n0 :: N')))
      by (apply mIn; discriminate).
    apply in_map_iff in Hm as (line & E & Hin).
    assert (Hin' : In line N) by (rewrite EN; exact Hin).
    unfold N in Hin'. apply filter_In in Hin' as [HinL Hne].
    pose proof (nonblank_has_length line Hne) as H1.
    rewrite Forall_map, Forall_forall in Mall. pose proof (Mall line HinL) as H2.
    rewrite len_cons. pose proof (len_nonneg N').
    split; [split; lia |]. right. split; [lia |].
    exists line. auto.
Qed.

Lemma bucket_cases (n : Z) :
  In (bucket n) ["0-20"; "21-40"; "41-60"; "61-80"; "81-100"; "100+"].
Proof.
  unfold bucket.
  repeat match goal with
         | |- context [n <=? ?b] => destruct (n <=? b)
         end; simpl; tauto.
Qed.

(** The six counters after the lines [l]. *)
Lemma distribution_step (l : list string) (line : string) :
  PyDict.incr (bucket (slen line)) 1
    (map (fun k => (k, Quality.count_if (fun x => String.eqb (bucket (slen x)) k) l))
         ["0-20"; "21-40"; "41-60"; "61-80"; "81-100"; "100+"])
  = Some (map (fun k => (k, Quality.count_if (fun x => String.eqb (bucket (slen x)) k)
                              (l ++ [line])))
              ["0-20"; "21-40"; "41-60"; "61-80"; "81-100"; "100+"]).
Proof.
  unfold Quality.count_if. cbn [map]. rewrite !filter_app, !len_app. cbn [filter].
  pose proof (bucket_cases (slen line)) as H.
  destruct H as [H | [H | [H | [H | [H | [H | []]]]]]]; rewrite <- H;
    unfold PyDict.incr;
    cbn [PyDict.get PyDict.set String.eqb Ascii.eqb Bool.eqb];
    change (len [line]) with 1; change (len (@nil string)) with 0;
    rewrite ?Z.add_0_r; reflexivity.
Qed.

Lemma distribution_fold (rest : list string) :
  forall done,
    foldM (fun distribution line => PyDict.incr (bucket (slen line)) 1 distribution) rest
      (map (fun k => (k, Quality.count_if (fun x => String.eqb (bucket (slen x)) k) done))
           ["0-20"; "21-40"; "41-60"; "61-80"; "81-100"; "100+"])
    = Some (map (fun k => (k, Quality.count_if (fun x => String.eqb (bucket (slen x)) k)
                                (done ++ rest)))
                ["0-20"; "21-40"; "41-60"; "61-80"; "81-100"; "100+"]).
Proof.
  induction rest as [| line t IH]; intros done; cbn [foldM].
  - now rewrite app_nil_r.
  - rewrite distribution_step, IH, <- app_assoc. reflexivity.
Qed.

Lemma buckets_partition (l : list string) :
  len l = Quality.count_if (fun x => String.eqb (bucket (slen x)) "0-20") l
          + Quality.count_if (fun x => String.eqb (bucket (slen x)) "21-40") l
          + Quality.count_if (fun x => String.eqb (bucket (slen x)) "41-60") l
          + Quality.count_if (fun x => String.eqb (bucket (slen x)) "61-80") l
          + Quality.count_if (fun x => String.eqb (bucket (slen x)) "81-100") l
          + Quality.count_if (fun x => String.eqb (bucket (slen x)) "100+") l.
Proof.
  unfold Quality.count_if. induction l as [| x t IH]; [reflexivity |].
  cbn [filter]. rewrite len_cons, IH.
  pose proof (bucket_cases (slen x)) as H.
  destruct H as [H | [H | [H | [H | [H | [H | []]]]]]]; rewrite <- H;
    cbn [String.eqb Ascii.eqb Bool.eqb]; rewrite ?len_cons; lia.
Qed.

Lemma len_map {A B : Type} (f : A -> B) (l : list A) : len (map f l) = len l.
Proof. unfold len. now rewrite length_map. Qed.

Lemma find_long_lines_filter (self : analyzer) (threshold : Z) :
  find_long_lines self threshold
  = map (fun il => {| line_number := fst il; line_length := slen (snd il);
                      content := shown (snd il) |})
        (filter (fun il => slen (snd il) >? threshold) (enumerate 1 (lines self))).
Proof. unfold find_long_lines. now rewrite fold_append_if. Qed.

Lemma filter_enumerate_len {A : Type} (p : A -> bool) (l : list A) :
  forall s, len (filter (fun il => p (snd il)) (enumerate s l)) = len (filter p l).
Proof.
  induction l as [| x t IH]; intros s; [reflexivity |].
  cbn [enumerate filter snd]. destruct (p x); rewrite ?len_cons, IH; reflexivity.
Qed.

(** X13: the line-length distribution never fails, keeps its six keys, and
    its counts add up to the number of lines; the count of ["100+"] is
    the number of lines [find_long_lines] reports for the threshold 100. *)
Theorem X13_distribution_counts_every_line (code language : string) :
  exists d c,
    get_line_length_distribution (init code language) = Some d /\
    PyDict.keys d = ["0-20"; "21-40"; "41-60"; "61-80"; "81-100"; "100+"] /\
    sum_values d = total_lines (get_basic_stats (init code language)) /\
    PyDict.get "100+" d = Some c /\
    c = len (find_long_lines (init code language) 100).
Proof.
  unfold get_line_length_distribution.
  pose proof (distribution_fold (lines (init code language)) []) as H.
  cbn [app] in H. change (Quality.count_if _ []) with 0 in H. cbn [map] in H.
  cbn [map]. rewrite H. do 2 eexists. split; [reflexivity |].
  split; [reflexivity |]. split.
  - cbn [sum_values fold_right snd get_basic_stats total_lines].
    rewrite (buckets_partition (lines (init code language))). lia.
  - split; [reflexivity |].
    rewrite find_long_lines_filter, len_map.
    unfold Quality.count_if.
    rewrite (filter_enumerate_len (fun x => slen x >? 100)).
    f_equal. apply filter_ext. intros x. unfold bucket.
    destruct (Z.gtb_spec (slen x) 100);
      repeat match goal with
             | |- context [slen x <=? ?b] => destruct (Z.leb_spec (slen x) b)
             end; try reflexivity; lia.
Qed.

Lemma shown_length (line : string) : slen (shown line) <= 103.
Proof.
  unfold shown. destruct (Z.gtb_spec (slen line) 100); [| lia].
  rewrite slen_append. change (slen "...") with 3.
  pose proof (substring_length_le 100 line). unfold take, slen. lia.
Qed.

Lemma long_lines_in_order (threshold : Z) (l : list string) :
  forall s,
    StronglySorted (fun a b => line_number a < line_number b)
      (map (fun il => {| line_number := fst il; line_length := slen (snd il);
                         content := shown (snd il) |})
           (filter (fun il => slen (snd il) >? threshold) (enumerate s l))) /\
    Forall (fun r => s <= line_number r)
      (map (fun il => {| line_number := fst il; line_length := slen (snd il);
                         content := shown (snd il) |})
           (filter (fun il => slen (snd il) >? threshold) (enumerate s l))).
Proof.
  induction l as [| x t IH]; intros s; cbn [enumerate filter map].
  - split; constructor.
  - destruct (IH (s + 1)) as [Hs Hb]. cbn [snd].
    destruct (slen x >? threshold); cbn [map fst snd].
    + split.
      * constructor; [exact Hs |].
        eapply Forall_impl; [| exact Hb]. cbv beta. cbn [line_number]. intros r Hr. lia.
      * constructor; [cbn [line_number]; lia |].
        eapply Forall_impl; [| exact Hb]. cbv beta. intros r Hr. lia.
    + split; [exact Hs |].
      eapply Forall_impl; [| exact Hb]. cbv beta. intros r Hr. lia.
Qed.

(** X14: [find_long_lines] reports exactly the lines longer than the
    threshold, each once and in the order of the lines: each record gives
    the position and the length of such a line and its text cut to 100
    characters and an ellipsis, 103 characters at most; the positions of
    the records rise strictly; every line longer than the threshold has
    its record; and nothing is reported exactly when the threshold is at
    least [max_line_length]. *)
Theorem X14_long_lines (code language : string) (threshold : Z) :
  let self := init code language in
  Forall (fun r =>
            threshold < line_length r /\
            1 <= line_number r <= len (lines self) /\
            slen (content r) <= 103 /\
            exists text,
              nth_error (lines self) (Z.to_nat (line_number r - 1)) = Some text /\
              line_length r = slen text /\ content r = shown text)
         (find_long_lines self threshold) /\
  len (find_long_lines self threshold)
  = len (filter (fun line => slen line >? threshold) (lines self)) /\
  (find_long_lines self threshold = []
   <-> max_line_length (get_basic_stats self) <= threshold) /\
  StronglySorted (fun a b => line_number a < line_number b)
                 (find_long_lines self threshold) /\
  (forall n text,
      nth_error (lines self) n = Some text ->
      threshold < slen text ->
      In {| line_number := 1 + Z.of_nat n; line_length := slen text;
            content := shown text |}
         (find_long_lines self threshold)).
Proof.
  cbv zeta. set (self := init code language). rewrite find_long_lines_filter.
  split; [| split; [| split; [| split]]].
  - apply Forall_forall. intros r Hr. apply in_map_iff in Hr as ([i text] & <- & Hin).
    apply filter_In in Hin as [Hin Hlong]. cbn [fst snd] in *.
    apply enumerate_In in Hin as [Hr Hn].
    cbn [line_length line_number content].
    split; [now apply Z.gtb_lt in Hlong |]. split; [lia |].
    split; [apply shown_length |]. exists text. auto.
  - rewrite len_map.
    apply (filter_enumerate_len (fun x => slen x >? threshold)).
  - unfold get_basic_stats. cbn [max_line_length].
    destruct (max_default_spec (map slen (lines self))) as [Mall Min].
    assert (HL : lines self <> []).
    { unfold self, init. cbn [lines]. unfold split_lines.
      destruct (split_first code); discriminate. }
    split.
    + intros E. apply map_eq_nil in E.
      destruct (in_map_iff slen (lines self) (max_default (map slen (lines self)))) as [H _].
      destruct H as (line & El & Hin);
        [apply Min; destruct (lines self); [congruence | discriminate] |].
      destruct (Z.gtb_spec (slen line) threshold) as [Hgt | Hle]; [| lia].
      exfalso.
      assert (Hlen : 0 < len (filter (fun x => slen x >? threshold) (lines self))).
      { clear -Hin Hgt. induction (lines self) as [| y t IH]; [contradiction |].
        cbn [filter]. destruct Hin as [-> | Hin].
        - apply Z.gtb_lt in Hgt. rewrite Hgt, len_cons.
          pose proof (len_nonneg (filter (fun x => slen x >? threshold) t)). lia.
        - specialize (IH Hin). destruct (slen y >? threshold); rewrite ?len_cons; lia. }
      rewrite <- (filter_enumerate_len (fun x => slen x >? threshold) _ 1) in Hlen.
      rewrite E in Hlen. change (len (@nil (Z * string))) with 0 in Hlen. lia.
    + intros Hmax.
      replace (filter (fun il : Z * string => slen (snd il) >? threshold)
                 (enumerate 1 (lines self))) with (@nil (Z * string)); [reflexivity |].
      symmetry. apply len_zero_nil.
      rewrite (filter_enumerate_len (fun x => slen x >? threshold)).
      rewrite Forall_map in Mall. clear -Mall Hmax.
      induction Mall as [| y t Hy Ht IH]; [reflexivity |].
      cbn [filter]. destruct (Z.gtb_spec (slen y) threshold); [lia | exact IH].
  - apply long_lines_in_order.
  - intros n text Hn Hlong.
    apply (in_map (fun il => {| line_number := fst il; line_length := slen (snd il);
                                content := shown (snd il) |})
                  _ (1 + Z.of_nat n, text)).
    apply filter_In. split; [now apply enumerate_nth_error |].
    cbn [snd]. apply Z.gtb_lt. lia.
Qed.

End BasicStatistics.

(** ** More on the general performance checks *)

Section GeneralPerformance.
Import PyStr Performance.

Lemma loop_is_loop (line : string) :
  Re.match_ false "^(for|while)\s+" (strip line) = Some (is_loop line).
Proof.
  unfold is_loop, Re.match_.
  destruct (Re.compile false "^(for|while)\s+") eqn:E; [reflexivity |].
  vm_compute in E. discriminate.
Qed.

Lemma count_if_cons {A : Type} (p : A -> bool) (x : A) (l : list A) :
  Quality.count_if p (x :: l) = (if p x then 1 else 0) + Quality.count_if p l.
Proof.
  unfold Quality.count_if. cbn [filter]. destruct (p x); [apply len_cons | lia].
Qed.

Lemma count_if_app {A : Type} (p : A -> bool) (l l' : list A) :
  Quality.count_if p (l ++ l') = Quality.count_if p l + Quality.count_if p l'.
Proof. unfold Quality.count_if. now rewrite filter_app, len_app. Qed.

Lemma count_if_nonneg {A : Type} (p : A -> bool) (l : list A) : 0 <= Quality.count_if p l.
Proof. apply len_nonneg. Qed.

Lemma count_if_all {A : Type} (p : A -> bool) (l : list A) :
  Forall (fun x => p x = true) l -> Quality.count_if p l = len l.
Proof.
  induction 1 as [| x t Hx Ht IH]; [reflexivity |].
  now rewrite count_if_cons, Hx, IH, len_cons.
Qed.

Lemma count_if_enumerate {A : Type} (p : A -> bool) (l : list A) (s : Z) :
  Quality.count_if (fun il => p (snd il)) (enumerate s l) = Quality.count_if p l.
Proof.
  revert s. induction l as [| x t IH]; intros s; [reflexivity |].
  cbn [enumerate]. now rewrite !count_if_cons, IH.
Qed.

(** *** The scan for long functions *)

(** What the scan appends: issues of long functions, one at most for each
    opener that follows a function, placed where [Q] holds when [Q] holds
    at the openers. *)
Lemma function_scan_shape (Q : Z -> Prop) (l : list (Z * string)) :
  (forall i line, In (i, line) l -> is_opener line = true -> Q i) ->
  forall st,
    (in_function st = true -> Q (function_start st)) ->
    exists st' extra,
      foldM function_step l st = Some st' /\
      issues st' = issues st ++ extra /\
      Forall (fun i => exists n, 50 < n /\ i = long_function_issue (line i) n /\ Q (line i))
             extra /\
      len extra + (if in_function st' then 1 else 0)
      <= (if in_function st then 1 else 0)
         + Quality.count_if (fun il => is_opener (snd il)) l /\
      (in_function st = true -> in_function st' = true) /\
      (in_function st' = false -> extra = []) /\
      (in_function st' = true -> Q (function_start st')).
Proof.
  induction l as [| [i text] t IH]; intros HQ st Hst.
  - exists st, []. cbn [foldM]. rewrite app_nil_r.
    split; [reflexivity |]. split; [reflexivity |]. split; [constructor |].
    change (len (@nil issue)) with 0. change (Quality.count_if _ []) with 0.
    split; [lia |]. split; auto.
  - cbn [foldM]. rewrite count_if_cons. cbn [snd].
    assert (HQt : forall j line, In (j, line) t -> is_opener line = true -> Q j).
    { intros j line Hj. apply HQ. now right. }
    destruct (is_opener text) eqn:Hop.
    + rewrite function_step_opener by exact Hop.
      match goal with
      | |- context [foldM function_step t ?s1] =>
          destruct (IH HQt s1) as (st' & extra & -> & Hi & Hall & Hlen & Hmono & Hnil & Hlast)
      end.
      { intros _. cbn [function_start]. apply (HQ i text); [now left | exact Hop]. }
      cbn [issues in_function] in Hi, Hlen, Hmono.
      pose proof (Hmono eq_refl) as Hin'. rewrite Hin' in Hlen.
      destruct (in_function st) eqn:Hin; cbn [andb] in Hi.
      * destruct (Z.gtb_spec (function_lines st) 50) as [Hgt | Hle].
        -- exists st', (long_function_issue (function_start st) (function_lines st) :: extra).
           rewrite Hin'.
           split; [reflexivity |]. split; [now rewrite Hi, <- app_assoc |].
           split.
           ++ constructor; [| exact Hall].
              exists (function_lines st). split; [lia |]. split; [reflexivity |].
              cbn [long_function_issue line]. now apply Hst.
           ++ rewrite len_cons. split; [lia |]. split; [reflexivity |].
              split; [discriminate | intros _; exact (Hlast Hin')].
        -- exists st', extra. rewrite Hin'.
           split; [reflexivity |]. split; [exact Hi |]. split; [exact Hall |].
           split; [lia |]. split; [reflexivity |]. split; [discriminate | intros _; exact (Hlast Hin')].
      * exists st', extra. rewrite Hin'.
        split; [reflexivity |]. split; [exact Hi |]. split; [exact Hall |].
        split; [lia |]. split; [discriminate |]. split; [discriminate | intros _; exact (Hlast Hin')].
    + destruct (in_function st) eqn:Hin.
      * rewrite function_step_inside by assumption.
        match goal with
        | |- context [foldM function_step t ?s1] =>
            destruct (IH HQt s1) as (st' & extra & -> & Hi & Hall & Hlen & Hmono & Hnil & Hlast)
        end.
        { intros _. cbn [function_start]. now apply Hst. }
        cbn [issues in_function] in Hi, Hlen, Hmono.
        exists st', extra. repeat split; try assumption.
      * assert (Hstep : function_step st (i, text) = Some st).
        { unfold function_step. now rewrite opener_match, Hop, Hin. }
        rewrite Hstep.
        assert (Hst' : in_function st = true -> Q (function_start st)).
        { intros H. rewrite Hin in H. discriminate. }
        destruct (IH HQt st Hst') as (st' & extra & -> & Hi & Hall & Hlen & Hmono & Hnil & Hlast).
        rewrite Hin in Hlen. exists st', extra. repeat split; try assumption.
        discriminate.
Qed.

(** *** The scan for nested loops *)

(** One step of the scan: the counter stays between 0 and the maximum, the
    maximum grows by one at most and only at a loop line, which is then
    the line recorded. *)
Lemma nesting_step_spec (lines : list string) (st : nesting_state) (i : Z) (text : string) :
  0 <= nesting_level st <= max_nesting st ->
  exists st',
    nesting_step lines st (i, text) = Some st' /\
    0 <= nesting_level st' <= max_nesting st' /\
    max_nesting st <= max_nesting st' <= max_nesting st + (if is_loop text then 1 else 0) /\
    ((max_nesting st' = max_nesting st /\ nested_line st' = nested_line st) \/
     (is_loop text = true /\ nested_line st' = i)).
Proof.
  intros H. unfold nesting_step. rewrite loop_is_loop.
  destruct (is_loop text).
  - destruct (Z.gtb_spec (nesting_level st + 1) (max_nesting st));
      cbn [nesting_level max_nesting nested_line];
      (destruct (_ && _ && _); [destruct (_ <? _) |]);
      (eexists; split; [reflexivity |]);
      cbn [nesting_level max_nesting nested_line];
      (split; [lia |]); (split; [lia |]); auto.
  - destruct (startswith_any (strip text) ["def "; "function "; "class "]);
      cbn [nesting_level max_nesting nested_line];
      (destruct (_ && _ && _); [destruct (_ <? _) |]);
      (eexists; split; [reflexivity |]);
      cbn [nesting_level max_nesting nested_line];
      (split; [lia |]); (split; [lia |]); auto.
Qed.

Lemma nesting_scan_shape (Q : Z -> Prop) (lines : list string) (l : list (Z * string)) :
  (forall i line, In (i, line) l -> is_loop line = true -> Q i) ->
  forall st,
    0 <= nesting_level st <= max_nesting st ->
    (0 < max_nesting st -> Q (nested_line st)) ->
    exists st',
      foldM (nesting_step lines) l st = Some st' /\
      0 <= nesting_level st' <= max_nesting st' /\
      max_nesting st' <= max_nesting st + Quality.count_if (fun il => is_loop (snd il)) l /\
      (0 < max_nesting st' -> Q (nested_line st')).
Proof.
  induction l as [| [i text] t IH]; intros HQ st Hst HstQ.
  - exists st. cbn [foldM]. change (Quality.count_if _ []) with 0.
    repeat split; try lia. exact HstQ.
  - cbn [foldM]. rewrite count_if_cons. cbn [snd].
    destruct (nesting_step_spec lines st i text Hst) as (s1 & -> & H1 & H2 & H3).
    destruct (IH (fun j line Hj => HQ j line (or_intror Hj)) s1 H1) as (st' & -> & Ha & Hb & Hc).
    + intros Hpos. destruct H3 as [[Hm Hn] | [Hl Hn]].
      * rewrite Hn. apply HstQ. lia.
      * rewrite Hn. apply (HQ i text); [now left | exact Hl].
    + exists st'. repeat split; try lia. exact Hc.
Qed.

(** Without blank lines and without [def], [function] or [class] lines,
    every loop line adds a level. *)
Lemma nesting_scan_flat (lines : list string) (l : list (Z * string)) :
  Forall (fun il => nonempty (strip (snd il)) = true /\ is_reset (snd il) = false) l ->
  forall st,
    nesting_level st = max_nesting st ->
    exists st',
      foldM (nesting_step lines) l st = Some st' /\
      nesting_level st' = max_nesting st' /\
      max_nesting st' = max_nesting st + Quality.count_if (fun il => is_loop (snd il)) l.
Proof.
  induction 1 as [| [i text] t [Hne Hre] Ht IH]; intros st Hst.
  - exists st. cbn [foldM]. change (Quality.count_if _ []) with 0.
    repeat split; lia.
  - cbn [foldM]. rewrite count_if_cons. cbn [snd] in *.
    unfold nesting_step at 1. rewrite loop_is_loop. unfold is_reset in Hre.
    rewrite Hre, Hne. cbn [negb]. rewrite !andb_false_r. cbn [andb].
    destruct (is_loop text).
    + destruct (Z.gtb_spec (nesting_level st + 1) (max_nesting st)); [| lia].
      match goal with
      | |- context [foldM _ t ?s1] => destruct (IH s1) as (st' & -> & Ha & Hb)
      end; [reflexivity |].
      cbn [max_nesting] in Hb. exists st'. repeat split; try assumption; lia.
    + destruct (IH st Hst) as (st' & -> & Ha & Hb).
      exists st'. repeat split; try assumption; lia.
Qed.

Lemma nesting_issues_kind (st : nesting_state) :
  Forall (fun i => is_nesting_issue i = true /\ is_long_function_issue i = false)
         (nesting_issues st).
Proof.
  unfold nesting_issues. destruct (max_nesting st >=? 3); repeat constructor.
Qed.

Lemma long_function_issue_kind (s n : Z) :
  is_long_function_issue (long_function_issue s n) = true /\
  is_nesting_issue (long_function_issue s n) = false.
Proof. split; reflexivity. Qed.

(** The result of the general checks: the issue of the nested loops, if
    any, then the issues of the long functions. *)
Lemma general_closed_form (Q R : Z -> Prop) (code language : string) :
  (forall i line, In (i, line) (enumerate 1 (split_lines code)) -> is_loop line = true -> Q i) ->
  (forall i line, In (i, line) (enumerate 1 (split_lines code)) -> is_opener line = true -> R i) ->
  exists nest extra,
    _check_general_performance (init code language) = Some (nesting_issues nest ++ extra) /\
    max_nesting nest <= Quality.count_if is_loop (split_lines code) /\
    (0 < max_nesting nest -> Q (nested_line nest)) /\
    Forall (fun i => exists n, 50 < n /\ i = long_function_issue (line i) n /\ R (line i))
           extra /\
    len extra <= Z.max 0 (Quality.count_if is_opener (split_lines code) - 1).
Proof.
  intros HQ HR. unfold _check_general_performance, init. cbn [lines].
  destruct (nesting_scan_shape Q (split_lines code) _ HQ
              {| nesting_level := 0; max_nesting := 0; nested_line := 0 |})
    as (nest & -> & _ & Hmax & HnQ).
  { cbn [nesting_level max_nesting]. lia. }
  { cbn [max_nesting]. lia. }
  cbn [max_nesting] in Hmax. rewrite count_if_enumerate in Hmax.
  match goal with
  | |- context [foldM function_step _ ?s0] =>
      destruct (function_scan_shape R _ HR s0)
        as (st' & extra & -> & Hi & Hall & Hlen & _ & Hnil & _)
  end.
  { cbn [in_function]. discriminate. }
  cbn [issues in_function app] in Hi, Hlen. rewrite count_if_enumerate in Hlen.
  exists nest, extra. rewrite Hi. split; [reflexivity |]. split; [lia |].
  split; [exact HnQ |]. split; [exact Hall |].
  destruct (in_function st'); [lia |].
  rewrite (Hnil eq_refl). change (len (@nil issue)) with 0. lia.
Qed.

(** X15: the general checks never fail; a long function is reported only
    when another opener follows it, so there is at most one such issue
    fewer than there are opener lines (none without openers, and the last
    function of a file is never reported); each one sits at an opener line
    and reports more than 50 lines. *)
Theorem X15_long_functions_bound (code language : string) :
  exists found,
    _check_general_performance (init code language) = Some found /\
    Quality.count_if is_long_function_issue found
    <= Z.max 0 (Quality.count_if is_opener (split_lines code) - 1) /\
    Forall (fun i =>
              is_long_function_issue i = true ->
              exists n text,
                50 < n /\ i = long_function_issue (line i) n /\
                1 <= line i <= len (split_lines code) /\
                nth_error (split_lines code) (Z.to_nat (line i - 1)) = Some text /\
                is_opener text = true)
           found.
Proof.
  destruct (general_closed_form
              (fun _ => True)
              (fun i => exists text,
                   1 <= i <= len (split_lines code) /\
                   nth_error (split_lines code) (Z.to_nat (i - 1)) = Some text /\
                   is_opener text = true)
              code language) as (nest & extra & -> & _ & _ & Hall & Hlen).
  { auto. }
  { intros i text Hin Hop. apply enumerate_In in Hin as [Hr Hn].
    exists text. split; [lia |]. split; assumption. }
  eexists. split; [reflexivity |]. split.
  - rewrite count_if_app, (count_if_none _ (nesting_issues nest)).
    + pose proof (filter_len_le is_long_function_issue extra) as Hle.
      unfold Quality.count_if in *. lia.
    + eapply Forall_impl; [| apply nesting_issues_kind]. intros i [_ H]. exact H.
  - apply Forall_app. split.
    + eapply Forall_impl; [| apply nesting_issues_kind].
      intros i [_ H] H'. rewrite H in H'. discriminate.
    + eapply Forall_impl; [| exact Hall].
      intros i (n & Hn & Hi & text & Hr & Hnth & Hop) _.
      exists n, text. repeat split; try assumption; lia.
Qed.

(** X16: at most one issue of nested loops is reported; its depth is 3 at
    least and at most the number of loop lines of the file, its severity
    is high from depth 4 on and medium below, and its line is a loop
    line. *)
Theorem X16_nesting_bound (code language : string) :
  exists found,
    _check_general_performance (init code language) = Some found /\
    Quality.count_if is_nesting_issue found <= 1 /\
    Forall (fun i =>
              is_nesting_issue i = true ->
              exists depth text,
                3 <= depth <= Quality.count_if is_loop (split_lines code) /\
                message i = ("Deeply nested loops (" ++ str_of_int depth
                             ++ " levels) - O(n^" ++ str_of_int depth ++ ") complexity")%string /\
                severity i = (if depth >=? 4 then "high" else "medium") /\
                nth_error (split_lines code) (Z.to_nat (line i - 1)) = Some text /\
                is_loop text = true)
           found.
Proof.
  destruct (general_closed_form
              (fun i => exists text,
                   nth_error (split_lines code) (Z.to_nat (i - 1)) = Some text /\
                   is_loop text = true)
              (fun _ => True)
              code language) as (nest & extra & -> & Hmax & HQ & Hall & _).
  { intros i text Hin Hop. apply enumerate_In in Hin as [Hr Hn]. exists text. now split. }
  { auto. }
  assert (Hextra : Forall (fun i => is_nesting_issue i = false) extra).
  { eapply Forall_impl; [| exact Hall]. intros i (n & _ & -> & _). reflexivity. }
  eexists. split; [reflexivity |]. split.
  - rewrite count_if_app, (count_if_none _ extra Hextra).
    unfold nesting_issues. destruct (max_nesting nest >=? 3); cbv; discriminate.
  - apply Forall_app. split.
    + unfold nesting_issues. destruct (Z.geb_spec (max_nesting nest) 3) as [Hge | Hlt];
        [| constructor].
      constructor; [| constructor]. intros _.
      destruct HQ as (text & Hnth & Hl); [lia |].
      exists (max_nesting nest), text. cbn [message severity line].
      repeat split; try assumption; lia.
    + eapply Forall_impl; [| exact Hextra]. intros i H H'. rewrite H in H'. discriminate.
Qed.

(** X17: the depth counts loop lines, not indentation: in a text without
    blank lines and without [def], [function] or [class] lines, three or
    more loops are reported as nested as deep as there are loop lines,
    whether or not one lies inside another. *)
Theorem X17_loops_in_a_row_count_as_nested (code language : string)
        (Hflat : Forall (fun line => nonempty (strip line) = true /\ is_reset line = false)
                        (split_lines code))
        (Hloops : 3 <= Quality.count_if is_loop (split_lines code)) :
  exists found i,
    _check_general_performance (init code language) = Some found /\
    In i found /\
    message i = ("Deeply nested loops ("
                 ++ str_of_int (Quality.count_if is_loop (split_lines code))
                 ++ " levels) - O(n^"
                 ++ str_of_int (Quality.count_if is_loop (split_lines code))
                 ++ ") complexity")%string /\
    severity i = (if Quality.count_if is_loop (split_lines code) >=? 4
                  then "high" else "medium") /\
    excerpt i = "Nested loop structure".
Proof.
  unfold _check_general_performance, init. cbn [lines].
  destruct (nesting_scan_flat (split_lines code) (enumerate 1 (split_lines code)))
    with (st := {| nesting_level := 0; max_nesting := 0; nested_line := 0 |})
    as (nest & -> & _ & Hmax).
  { clear Hloops. generalize 1. induction Hflat as [| x t Hx Ht IH]; intros s;
      cbn [enumerate]; constructor; auto. }
  { reflexivity. }
  cbn [max_nesting] in Hmax. rewrite count_if_enumerate, Z.add_0_l in Hmax.
  match goal with
  | |- context [foldM function_step ?l ?s0] =>
      destruct (function_scan_total l s0) as (st' & -> & K)
  end.
  cbn [issues app] in K. unfold nesting_issues in K. rewrite Hmax in K.
  destruct (Z.geb_spec (Quality.count_if is_loop (split_lines code)) 3) as [_ | Hlt]; [| lia].
  eexists. eexists. split; [reflexivity |]. split; [apply K; left; reflexivity |].
  cbn [message severity excerpt]. repeat split.
Qed.

(** X17 on three loops one after the other. *)
Lemma X17_loops_in_a_row_count_as_nested_witness :
  Forall (fun line => nonempty (strip line) = true /\ is_reset line = false)
         (split_lines three_loops) /\
  3 <= Quality.count_if is_loop (split_lines three_loops) /\
  exists found i,
    _check_general_performance (init three_loops "python") = Some found /\
    In i found /\
    message i = "Deeply nested loops (3 levels) - O(n^3) complexity" /\
    severity i = "medium" /\
    excerpt i = "Nested loop structure".
Proof.
  assert (H1 : Forall (fun line => nonempty (strip line) = true /\ is_reset line = false)
                      (split_lines three_loops)).
  { repeat constructor. }
  assert (H2 : 3 <= Quality.count_if is_loop (split_lines three_loops)).
  { vm_compute. discriminate. }
  split; [exact H1 |]. split; [exact H2 |].
  exact (X17_loops_in_a_row_count_as_nested three_loops "python" H1 H2).
Defined.

End GeneralPerformance.

(** ** The long-function detector and the last function *)

Section LastFunction.
Import PyStr Performance.

(** The issues of long functions lie at openers before the last opener. *)
Lemma last_opener_not_reported (code language : string) (pre mid : list string)
      (first : string) :
  split_lines code = pre ++ first :: mid ->
  is_opener first = true ->
  Forall (fun line => is_opener line = false) mid ->
  exists found,
    _check_general_performance (init code language) = Some found /\
    Forall (fun i => is_long_function_issue i = true -> 1 <= line i <= len pre) found.
Proof.
  intros Hlines Hfirst Hmid.
  unfold _check_general_performance, init. cbn [lines].
  destruct (nesting_scan_total (split_lines code) (enumerate 1 (split_lines code))
              {| nesting_level := 0; max_nesting := 0; nested_line := 0 |}) as [nest ->].
  rewrite Hlines, enumerate_app, foldM_app.
  match goal with
  | |- context [foldM function_step (enumerate 1 pre) ?st0] =>
      destruct (function_scan_shape (fun i => 1 <= i <= len pre) (enumerate 1 pre))
        with (st := st0) as (st1 & extra & -> & Hi & Hall & _ & _ & _ & Hstart)
  end.
  { intros i text Hin _. apply enumerate_In in Hin as [Hr _]. lia. }
  { cbn [in_function]. discriminate. }
  cbn [issues app] in Hi.
  cbn [enumerate foldM]. rewrite function_step_opener by exact Hfirst.
  rewrite function_scan_body by (auto; reflexivity).
  cbn [issues]. eexists. split; [reflexivity |].
  assert (Hbase : Forall (fun i => is_long_function_issue i = true -> 1 <= line i <= len pre)
                         (issues st1)).
  { rewrite Hi. apply Forall_app. split.
    - eapply Forall_impl; [| apply nesting_issues_kind].
      intros i [_ H] H'. rewrite H in H'. discriminate.
    - eapply Forall_impl; [| exact Hall]. intros i (n & _ & _ & Hq) _. exact Hq. }
  destruct (in_function st1) eqn:Hin; cbn [andb]; [| exact Hbase].
  destruct (function_lines st1 >? 50); [| exact Hbase].
  apply Forall_app. split; [exact Hbase |].
  constructor; [| constructor]. intros _. cbn [long_function_issue line].
  now apply Hstart.
Qed.

(** C9: the last function of a document is never reported, where the
    claim has each function of more than 50 lines reported: for the one
    function [def only():] with 60 lines after it the detector reports
    nothing, since an issue is added only when the next opener is read and
    nothing is added after the loop; the function of 51 lines that a
    second function follows is reported, at line 1 with severity medium;
    in every document the issues of long functions lie before the last
    opener; and a coroutine ([async def]) of 60 lines is not reported even
    with a function after it, since [async def] is not among the openers. *)
Theorem C9_last_function_is_not_reported :
  len (split_lines lone_long_function) = 61 /\
  is_opener "def only():" = true /\
  _check_general_performance (init lone_long_function "python") = Some [] /\
  _check_general_performance (init long_sample "python")
  = Some [long_function_issue 1 51] /\
  severity (long_function_issue 1 51) = "medium" /\
  (forall code language pre first mid,
      split_lines code = pre ++ first :: mid ->
      is_opener first = true ->
      Forall (fun line => is_opener line = false) mid ->
      exists found,
        _check_general_performance (init code language) = Some found /\
        Forall (fun i => is_long_function_issue i = true -> 1 <= line i <= len pre) found) /\
  is_opener "async def fetch():" = false /\
  _check_general_performance (init long_coroutine "python") = Some [].
Proof.
  split; [reflexivity |]. split; [reflexivity |].
  split; [vm_compute; reflexivity |]. split; [vm_compute; reflexivity |].
  split; [reflexivity |].
  split; [intros code language pre first mid; apply last_opener_not_reported |].
  split; [reflexivity |]. vm_compute. reflexivity.
Qed.

End LastFunction.

(** ** The language checks of the performance analyzer and [analyze] *)

Section PerformanceAnalyze.
Import PyStr Performance.

Lemma js_rows_closed (il : Z * string) (rows : list (string * (string * string))) :
  forallb (fun row => match Re.compile false (fst row) with Some _ => true | None => false end)
          rows = true ->
  forall found,
    foldM (js_row il) rows found = Some (found ++ flat_map (js_hit il) rows).
Proof.
  induction rows as [| [pattern [message severity]] t IH]; intros Hc found; cbn [foldM flat_map].
  - now rewrite app_nil_r.
  - cbn [forallb fst] in Hc. apply andb_true_iff in Hc as [Hp Ht].
    unfold js_row at 1, js_hit at 1. cbn [fst snd]. unfold Re.search.
    destruct (Re.compile false pattern) as [c |]; [| discriminate].
    destruct (Re.search_from (Re.ignorecase c) (Re.tree c) None (snd il));
      rewrite (IH Ht); cbn [app]; [now rewrite <- app_assoc | reflexivity].
Qed.

Lemma js_compiles :
  forallb (fun row : string * (string * string) =>
             match Re.compile false (fst row) with Some _ => true | None => false end)
          js_patterns = true.
Proof. vm_compute. reflexivity. Qed.

Lemma js_scan_closed (rows : list (string * (string * string))) (l : list (Z * string)) :
  forallb (fun row => match Re.compile false (fst row) with Some _ => true | None => false end)
          rows = true ->
  forall found,
    foldM (fun found il => foldM (js_row il) rows found) l found
    = Some (found ++ flat_map (fun il => flat_map (js_hit il) rows) l).
Proof.
  intros Hc. induction l as [| il t IH]; intros found.
  - cbn [foldM flat_map]. now rewrite app_nil_r.
  - cbn [foldM flat_map]. rewrite (js_rows_closed il rows Hc found), IH, <- app_assoc.
    reflexivity.
Qed.

Lemma js_closed_form (self : analyzer) :
  _check_js_performance self
  = Some (flat_map (fun il => flat_map (js_hit il) js_patterns) (enumerate 1 (lines self))).
Proof.
  unfold _check_js_performance. rewrite (js_scan_closed js_patterns _ js_compiles).
  now rewrite app_nil_l.
Qed.

Lemma python_rows_closed (re_search : string -> string -> bool) (il : Z * string)
      (rows : list (string * option (string * string))) :
  forall found,
    fold_left (python_row re_search il) rows found
    = found ++ flat_map (python_hit re_search il) rows.
Proof.
  induction rows as [| row t IH]; intros found; cbn [fold_left flat_map].
  - now rewrite app_nil_r.
  - rewrite IH. unfold python_row, python_hit.
    destruct (snd row) as [[message severity] |]; [| reflexivity].
    destruct (nonempty message && re_search (fst row) (snd il));
      [now rewrite <- app_assoc | reflexivity].
Qed.

Lemma python_scan_closed (re_search : string -> string -> bool)
      (rows : list (string * option (string * string))) (l : list (Z * string)) :
  forall found,
    fold_left (fun found il => fold_left (python_row re_search il) rows found) l found
    = found ++ flat_map (fun il => flat_map (python_hit re_search il) rows) l.
Proof.
  induction l as [| il t IH]; intros found; cbn [fold_left flat_map].
  - now rewrite app_nil_r.
  - rewrite (python_rows_closed re_search il rows found), IH, <- app_assoc. reflexivity.
Qed.

Lemma python_closed_form (re_search : string -> string -> bool) (self : analyzer) :
  _check_python_performance re_search self
  = flat_map (fun il => flat_map (python_hit re_search il) python_patterns)
             (enumerate 1 (lines self)).
Proof.
  unfold _check_python_performance. rewrite python_scan_closed. now rewrite app_nil_l.
Qed.

(** *** Order and number of the issues *)

Lemma sorted_app {A : Type} (R : A -> A -> Prop) (l l' : list A) :
  StronglySorted R l -> StronglySorted R l' ->
  (forall a b, In a l -> In b l' -> R a b) ->
  StronglySorted R (l ++ l').
Proof.
  induction 1 as [| x t Ht IH Hx]; intros Hl' Hc; cbn [app]; [exact Hl' |].
  constructor.
  - apply IH; [exact Hl' |]. intros a b Ha. apply Hc. now right.
  - apply Forall_app. split; [exact Hx |].
    apply Forall_forall. intros b Hb. apply Hc; [now left | exact Hb].
Qed.

Lemma sorted_constant {A : Type} (key : A -> Z) (k : Z) (l : list A) :
  Forall (fun x => key x = k) l -> StronglySorted (fun a b => key a <= key b) l.
Proof.
  induction 1 as [| x t Hx Ht IH]; constructor; [exact IH |].
  eapply Forall_impl; [| exact Ht]. cbv beta. intros a Ha. lia.
Qed.

(** Issues collected line after line come in the order of the lines. *)
Lemma line_order {A B : Type} (key : B -> Z) (f : Z * A -> list B) (l : list A) :
  (forall il x, In x (f il) -> key x = fst il) ->
  forall s,
    StronglySorted (fun a b => key a <= key b) (flat_map f (enumerate s l)) /\
    Forall (fun x => s <= key x) (flat_map f (enumerate s l)).
Proof.
  intros Hkey. induction l as [| y t IH]; intros s; cbn [enumerate flat_map].
  - split; constructor.
  - destruct (IH (s + 1)) as [Hs Hb].
    assert (Hhere : Forall (fun x => key x = s) (f (s, y))).
    { apply Forall_forall. intros x Hx. exact (Hkey (s, y) x Hx). }
    split.
    + apply sorted_app; [exact (sorted_constant key s _ Hhere) | exact Hs |].
      intros a b Ha Hb'. rewrite Forall_forall in Hhere, Hb.
      rewrite (Hhere a Ha). specialize (Hb b Hb'). lia.
    + apply Forall_app. split.
      * eapply Forall_impl; [| exact Hhere]. cbv beta. intros a Ha. lia.
      * eapply Forall_impl; [| exact Hb]. cbv beta. intros a Ha. lia.
Qed.

(** Of the issues collected line after line, those of line [k] are those
    that line gave. *)
Lemma per_line_count {A B : Type} (key : B -> Z) (f : Z * A -> list B) (l : list A)
      (k : Z) :
  (forall il x, In x (f il) -> key x = fst il) ->
  forall s,
    Quality.count_if (fun x => key x =? k) (flat_map f (enumerate s l))
    = match nth_error l (Z.to_nat (k - s)) with
      | Some a => if s <=? k then len (f (k, a)) else 0
      | None => 0
      end.
Proof.
  intros Hkey. induction l as [| y t IH]; intros s.
  - cbn [enumerate flat_map]. destruct (Z.to_nat (k - s)); reflexivity.
  - cbn [enumerate flat_map]. rewrite count_if_app, IH.
    assert (Hhere : Forall (fun x => key x = s) (f (s, y))).
    { apply Forall_forall. intros x Hx. exact (Hkey (s, y) x Hx). }
    destruct (Z.lt_trichotomy k s) as [Hlt | [-> | Hgt]].
    + rewrite count_if_none.
      * replace (Z.to_nat (k - s)) with 0%nat by lia.
        replace (Z.to_nat (k - (s + 1))) with 0%nat by lia. cbn [nth_error].
        destruct (Z.leb_spec s k); [lia |].
        destruct t as [| z r]; cbn [nth_error]; [reflexivity |].
        destruct (Z.leb_spec (s + 1) k); [lia | reflexivity].
      * eapply Forall_impl; [| exact Hhere]. cbv beta. intros x ->. apply Z.eqb_neq. lia.
    + rewrite count_if_all.
      * replace (Z.to_nat (s - s)) with 0%nat by lia.
        replace (Z.to_nat (s - (s + 1))) with 0%nat by lia. cbn [nth_error].
        rewrite Z.leb_refl.
        destruct t as [| z r]; cbn [nth_error]; [lia |].
        destruct (Z.leb_spec (s + 1) s); lia.
      * eapply Forall_impl; [| exact Hhere]. cbv beta. intros x ->. apply Z.eqb_refl.
    + rewrite count_if_none.
      * replace (Z.to_nat (k - s)) with (S (Z.to_nat (k - (s + 1)))) by lia.
        cbn [nth_error].
        destruct (nth_error t (Z.to_nat (k - (s + 1)))); [| reflexivity].
        destruct (Z.leb_spec (s + 1) k), (Z.leb_spec s k); lia.
      * eapply Forall_impl; [| exact Hhere]. cbv beta. intros x ->. apply Z.eqb_neq. lia.
Qed.

Lemma len_flat_map_le {A B : Type} (f : A -> list B) (k : Z) (l : list A) :
  (forall x, len (f x) <= k) -> len (flat_map f l) <= k * len l.
Proof.
  intros Hk. induction l as [| x t IH]; cbn [flat_map].
  - change (len (@nil B)) with 0. change (len (@nil A)) with 0. lia.
  - rewrite len_app, len_cons. specialize (Hk x). lia.
Qed.

Lemma len_flat_map_eq {A B : Type} (f : A -> list B) (k : Z) (l : list A) :
  (forall x, len (f x) = k) -> len (flat_map f l) = k * len l.
Proof.
  intros Hk. induction l as [| x t IH]; cbn [flat_map].
  - change (len (@nil B)) with 0. change (len (@nil A)) with 0. lia.
  - rewrite len_app, len_cons, IH, (Hk x). lia.
Qed.

Lemma len_enumerate {A : Type} (l : list A) (s : Z) : len (enumerate s l) = len l.
Proof.
  revert s. induction l as [| x t IH]; intros s; [reflexivity |].
  cbn [enumerate]. now rewrite !len_cons, IH.
Qed.

Lemma pattern_issue_excerpt (i : Z) (text message severity : string) :
  (String.length (excerpt (pattern_issue i text message severity)) <= 60)%nat.
Proof. apply substring_length_le. Qed.

Lemma js_hit_spec (il : Z * string) (row : string * (string * string)) (x : issue) :
  In x (js_hit il row) ->
  x = pattern_issue (fst il) (snd il) (fst (snd row)) (snd (snd row)).
Proof.
  unfold js_hit. destruct (Re.search false (fst row) (snd il)) as [[|] |];
    [| contradiction | contradiction].
  intros [<- | []]. reflexivity.
Qed.

Lemma js_hits_le (il : Z * string) (rows : list (string * (string * string))) :
  len (flat_map (js_hit il) rows) <= len rows.
Proof.
  induction rows as [| row t IH]; cbn [flat_map]; [reflexivity |].
  rewrite len_app, len_cons. unfold js_hit at 1.
  destruct (Re.search false (fst row) (snd il)) as [[|] |];
    [change (len [_]) with 1 | change (len (@nil issue)) with 0 ..]; lia.
Qed.

(** A row without a message gives no issue. *)
Lemma python_hits_le (re_search : string -> string -> bool) (il : Z * string)
      (rows : list (string * option (string * string))) :
  len (flat_map (python_hit re_search il) rows)
  <= Quality.count_if (fun row => Python.is_some (snd row)) rows.
Proof.
  induction rows as [| row t IH]; cbn [flat_map]; [reflexivity |].
  rewrite len_app, count_if_cons. unfold python_hit at 1.
  destruct (snd row) as [[m s] |]; cbn [Python.is_some].
  - destruct (nonempty m && re_search (fst row) (snd il));
      [change (len [_]) with 1 | change (len (@nil issue)) with 0]; lia.
  - change (len (@nil issue)) with 0. lia.
Qed.

(** X18: the JavaScript check never fails; its issues come in the order
    of the lines, nine at most for each line and so for the document nine
    times its lines at most; each carries one of the severities high,
    medium, low and info, never critical, and an excerpt of 60 characters
    at most. *)
Theorem X18_js_issues_in_line_order (code language : string) :
  exists found,
    _check_js_performance (init code language) = Some found /\
    StronglySorted by_line found /\
    len found <= 9 * len (split_lines code) /\
    Forall (fun i =>
              1 <= line i <= len (split_lines code) /\
              In (severity i) ["high"; "medium"; "low"; "info"] /\
              (String.length (excerpt i) <= 60)%nat)
           found /\
    (forall k, Quality.count_if (fun i => line i =? k) found <= 9).
Proof.
  rewrite js_closed_form. eexists. split; [reflexivity |]. unfold init. cbn [lines].
  split; [| split; [| split]]; cycle 3.
  { intros k. rewrite (per_line_count line).
    - destruct (nth_error (split_lines code) (Z.to_nat (k - 1))) as [text |]; [| lia].
      destruct (1 <=? k); [| lia].
      change 9 with (len js_patterns). apply js_hits_le.
    - intros il x Hx. apply in_flat_map in Hx as (row & _ & Hx).
      apply js_hit_spec in Hx. now subst x. }
  - apply (line_order line). intros il x Hx.
    apply in_flat_map in Hx as (row & _ & Hx). apply js_hit_spec in Hx. now subst x.
  - rewrite <- (len_enumerate (split_lines code) 1). apply len_flat_map_le.
    intros il. change 9 with (len js_patterns). apply js_hits_le.
  - apply Forall_forall. intros x Hx.
    apply in_flat_map in Hx as ([i text] & Hil & Hx).
    apply in_flat_map in Hx as (row & Hrow & Hx). apply js_hit_spec in Hx. subst x.
    apply enumerate_In in Hil as [Hr _]. cbn [fst snd].
    split; [cbn [pattern_issue line]; lia |].
    split; [| apply pattern_issue_excerpt].
    unfold js_patterns in Hrow. cbn [pattern_issue severity].
    repeat (destruct Hrow as [<- | Hrow]; [cbn; tauto |]). contradiction.
Qed.

(** X19: the Python check reports sixteen issues at most for each line
    however the search answers: the row of the table without a message
    never reports; with a search that always finds, each line gets
    exactly sixteen issues; the issues come in the order of the lines. *)
Theorem X19_python_rows (re_search : string -> string -> bool) (code language : string) :
  len (_check_python_performance re_search (init code language))
  <= 16 * len (split_lines code) /\
  len (_check_python_performance always (init code language))
  = 16 * len (split_lines code) /\
  StronglySorted by_line (_check_python_performance re_search (init code language)) /\
  Forall (fun i => message i <> EmptyString /\ (String.length (excerpt i) <= 60)%nat)
         (_check_python_performance re_search (init code language)) /\
  (forall k,
      Quality.count_if (fun i => line i =? k)
        (_check_python_performance re_search (init code language)) <= 16) /\
  (forall n text,
      nth_error (split_lines code) n = Some text ->
      Quality.count_if (fun i => line i =? 1 + Z.of_nat n)
        (_check_python_performance always (init code language)) = 16).
Proof.
  rewrite !python_closed_form. unfold init. cbn [lines].
  assert (Hkey : forall search il x,
             In x (flat_map (python_hit search il) python_patterns) -> line x = fst il).
  { intros search il x Hx. apply in_flat_map in Hx as (row & _ & Hx). unfold python_hit in Hx.
    destruct (snd row) as [[m s] |]; [| contradiction].
    destruct (nonempty m && search (fst row) (snd il)); [| contradiction].
    destruct Hx as [<- | []]. reflexivity. }
  split; [| split; [| split; [| split; [| split]]]]; cycle 4.
  { intros k. rewrite (per_line_count line) by apply Hkey.
    destruct (nth_error (split_lines code) (Z.to_nat (k - 1))) as [text |]; [| lia].
    destruct (1 <=? k); [| lia].
    change 16 with (Quality.count_if (fun row => Python.is_some (snd row)) python_patterns).
    apply python_hits_le. }
  { intros n text Hn. rewrite (per_line_count line) by apply Hkey.
    replace (Z.to_nat (1 + Z.of_nat n - 1)) with n by lia. rewrite Hn.
    destruct (Z.leb_spec 1 (1 + Z.of_nat n)); [reflexivity | lia]. }
  - rewrite <- (len_enumerate (split_lines code) 1). apply len_flat_map_le.
    intros il.
    change 16 with (Quality.count_if (fun row => Python.is_some (snd row)) python_patterns).
    apply python_hits_le.
  - rewrite <- (len_enumerate (split_lines code) 1). apply len_flat_map_eq.
    intros il. reflexivity.
  - apply (line_order line). intros il x Hx.
    apply in_flat_map in Hx as (row & _ & Hx). unfold python_hit in Hx.
    destruct (snd row) as [[m s] |]; [| contradiction].
    destruct (nonempty m && re_search (fst row) (snd il)); [| contradiction].
    destruct Hx as [<- | []]. reflexivity.
  - apply Forall_forall. intros x Hx.
    apply in_flat_map in Hx as (il & _ & Hx).
    apply in_flat_map in Hx as (row & _ & Hx). unfold python_hit in Hx.
    destruct (snd row) as [[m s] |]; [| contradiction].
    destruct (nonempty m) eqn:Hm; cbn [andb] in Hx; [| contradiction].
    destruct (re_search (fst row) (snd il)); [| contradiction].
    destruct Hx as [<- | []]. split; [| apply pattern_issue_excerpt].
    cbn [pattern_issue message]. intros ->. discriminate.
Qed.

(** *** [analyze] *)

Lemma general_total (self : analyzer) : exists general, _check_general_performance self = Some general.
Proof.
  unfold _check_general_performance.
  destruct (nesting_scan_total (lines self) (enumerate 1 (lines self))
              {| nesting_level := 0; max_nesting := 0; nested_line := 0 |}) as [nest ->].
  match goal with
  | |- context [foldM function_step ?l ?s0] =>
      destruct (function_scan_total l s0) as (st' & -> & _)
  end.
  eexists. reflexivity.
Qed.

(** X20: [analyze] never fails, whatever the language; the issues of the
    general checks are the end of its list of issues; the complexity
    warnings are those of [_check_complexity], the same for every
    language; no memory warning is ever given; and suggestions are those
    for Python when the language is Python and none otherwise. *)
Theorem X20_analyze_layout (re_search : string -> string -> bool) (code language : string) :
  exists r special general,
    analyze re_search (init code language) = Some r /\
    _check_general_performance (init code language) = Some general /\
    res_issues r = special ++ general /\
    res_complexity_warnings r = _check_complexity (init code language) /\
    res_memory_warnings r = [] /\
    res_suggestions r
    = (if String.eqb (lower language) "python"
       then _get_python_suggestions (init code language) else []).
Proof.
  destruct (general_total (init code language)) as [general Hg].
  unfold analyze. rewrite Hg, js_closed_form.
  change (Performance.language (init code language)) with (lower language).
  destruct (String.eqb (lower language) "python").
  - eexists. eexists. exists general. cbn [res_issues res_suggestions
      res_complexity_warnings res_memory_warnings app].
    repeat split.
  - destruct (str_in (lower language) ["javascript"; "typescript"]);
      eexists; eexists; exists general;
      cbn [res_issues res_suggestions res_complexity_warnings res_memory_warnings app];
      repeat split.
    instantiate (1 := []). reflexivity.
Qed.

(** X21: for a language other than Python, JavaScript and TypeScript the
    issues are those of the general checks and nothing is suggested. *)
Theorem X21_other_languages_general_only
        (re_search : string -> string -> bool) (code language : string)
        (Hp : lower language <> "python")
        (Hj : lower language <> "javascript")
        (Ht : lower language <> "typescript") :
  exists r,
    analyze re_search (init code language) = Some r /\
    _check_general_performance (init code language) = Some (res_issues r) /\
    res_suggestions r = [].
Proof.
  destruct (general_total (init code language)) as [general Hg].
  unfold analyze. rewrite Hg.
  change (Performance.language (init code language)) with (lower language).
  destruct (String.eqb_spec (lower language) "python") as [E | _]; [contradiction |].
  unfold str_in. cbn [existsb].
  destruct (String.eqb_spec (lower language) "javascript") as [E | _]; [contradiction |].
  destruct (String.eqb_spec (lower language) "typescript") as [E | _]; [contradiction |].
  cbn [orb]. eexists. split; [reflexivity |]. cbn [res_issues res_suggestions app].
  split; reflexivity.
Qed.

(** X21 on a text in Go. *)
Lemma X21_other_languages_general_only_witness :
  lower "Go" <> "python" /\ lower "Go" <> "javascript" /\ lower "Go" <> "typescript" /\
  exists r,
    analyze always (init three_loops "Go") = Some r /\
    _check_general_performance (init three_loops "Go") = Some (res_issues r) /\
    res_suggestions r = [].
Proof.
  assert (H1 : lower "Go" <> "python") by (vm_compute; discriminate).
  assert (H2 : lower "Go" <> "javascript") by (vm_compute; discriminate).
  assert (H3 : lower "Go" <> "typescript") by (vm_compute; discriminate).
  split; [exact H1 |]. split; [exact H2 |]. split; [exact H3 |].
  exact (X21_other_languages_general_only always three_loops "Go" H1 H2 H3).
Defined.

(** X22: TypeScript is analysed as JavaScript, and the name of the
    language is read without regard to case. *)
Theorem X22_typescript_as_javascript
        (re_search : string -> string -> bool) (code language : string)
        (H : lower language = "typescript" \/ lower language = "javascript") :
  analyze re_search (init code language) = analyze re_search (init code "javascript").
Proof.
  unfold analyze, _check_js_performance, _check_general_performance, _check_complexity.
  change (Performance.language (init code language)) with (lower language).
  change (Performance.language (init code "javascript")) with "javascript".
  change (lines (init code language)) with (split_lines code).
  change (lines (init code "javascript")) with (split_lines code).
  destruct H as [-> | ->]; reflexivity.
Qed.

(** X22 on the name as users write it. *)
Lemma X22_typescript_as_javascript_witness :
  (lower "TypeScript" = "typescript" \/ lower "TypeScript" = "javascript") /\
  analyze always (init three_loops "TypeScript") = analyze always (init three_loops "javascript").
Proof.
  assert (H : lower "TypeScript" = "typescript" \/ lower "TypeScript" = "javascript").
  { left. reflexivity. }
  split; [exact H |].
  exact (X22_typescript_as_javascript always three_loops "TypeScript" H).
Defined.

(** *** Readability warnings *)

Lemma complexity_closed_form (self : analyzer) :
  _check_complexity self
  = map (fun il => long_line_warning (fst il) (snd il))
        (filter (fun il => slen (snd il) >? 120) (enumerate 1 (lines self)))
    ++ map (fun il => condition_warning (fst il) (snd il))
           (filter (fun il => operators (snd il) >=? 3) (enumerate 1 (lines self))).
Proof. unfold _check_complexity. now rewrite !fold_append_if. Qed.

(** X23: [_check_complexity] gives the warnings of long lines first, then
    those of complex conditions, each group in the order of the lines; the
    long lines are those [find_long_lines] of the basic analyzer reports
    for the threshold 120, with the same lengths; a condition is warned
    about at a line with three or more [and] and [or] between blanks,
    counted on the line in lower case. *)
Theorem X23_complexity_warnings (code language language' : string) :
  exists long conditions,
    _check_complexity (init code language) = long ++ conditions /\
    map warn_line long
    = map Basic.line_number (Basic.find_long_lines (Basic.init code language') 120) /\
    map warn_message long
    = map (fun r => ("Very long line (" ++ str_of_int (Basic.line_length r)
                     ++ " chars) - hard to read")%string)
          (Basic.find_long_lines (Basic.init code language') 120) /\
    Forall (fun w => warn_type w = "readability") long /\
    Forall (fun w =>
              warn_type w = "complexity" /\
              exists text,
                nth_error (split_lines code) (Z.to_nat (warn_line w - 1)) = Some text /\
                3 <= operators text /\
                operators (lower text) = operators text)
           conditions.
Proof.
  rewrite complexity_closed_form. eexists. eexists. split; [reflexivity |].
  rewrite find_long_lines_filter. unfold init, Basic.init. cbn [lines Basic.lines].
  rewrite !map_map. cbn [warn_line warn_message long_line_warning Basic.line_number
                          Basic.line_length].
  split; [reflexivity |]. split; [reflexivity |]. split.
  - apply Forall_forall. intros w Hw. apply in_map_iff in Hw as (il & <- & _). reflexivity.
  - apply Forall_forall. intros w Hw. apply in_map_iff in Hw as ([i text] & <- & Hil).
    apply filter_In in Hil as [Hil Hop]. cbn [fst snd] in *.
    split; [reflexivity |]. exists text. apply enumerate_In in Hil as [_ Hn].
    cbn [condition_warning warn_line]. split; [exact Hn |].
    split; [apply Z.geb_le in Hop; lia |].
    unfold operators. now rewrite lower_idem.
Qed.

End PerformanceAnalyze.

(** ** More on the Python analyzer: style issues, metrics, decorators *)

Section PythonStyle.
Import PyStr Ast Python.

(** [line.rstrip() != line] says that the line ends in white space. *)
Lemma rstrip_same (s : string) : String.eqb (rstrip s) s = negb (ends_with_space s).
Proof.
  induction s as [| c t IH]; [reflexivity |].
  cbn [rstrip]. destruct t as [| c' t'].
  - cbn [rstrip ends_with_space]. destruct (isspace c); cbn [negb String.eqb].
    + reflexivity.
    + now rewrite Ascii.eqb_refl.
  - change (ends_with_space (String c (String c' t'))) with (ends_with_space (String c' t')).
    rewrite <- IH. destruct (rstrip (String c' t')) as [| d r] eqn:E.
    + destruct (isspace c); cbn [String.eqb]; [reflexivity |].
      rewrite Ascii.eqb_refl. reflexivity.
    + cbn [String.eqb]. now rewrite Ascii.eqb_refl.
Qed.

Lemma tight_assignment_search (text : string) :
  Re.search false "[a-zA-Z0-9]=[a-zA-Z0-9]" text = Some (tight_assignment text).
Proof.
  unfold tight_assignment, Re.search.
  destruct (Re.compile false "[a-zA-Z0-9]=[a-zA-Z0-9]") eqn:E; [reflexivity |].
  vm_compute in E. discriminate.
Qed.

Lemma pep8_step_hits (issues : list pep8_issue) (il : Z * string) :
  pep8_step issues il = Some (issues ++ pep8_hits il).
Proof.
  destruct il as [i text]. unfold pep8_step, pep8_hits. cbn [fst snd].
  rewrite tight_assignment_search, rstrip_same, negb_involutive.
  destruct (slen text >? 79), (ends_with_space text),
    (tight_assignment text && negb (contains "==" text) && negb (contains "!=" text));
    cbn [app]; rewrite <- ?app_assoc, ?app_nil_r; reflexivity.
Qed.

Lemma pep8_scan_closed (l : list (Z * string)) :
  forall issues, foldM pep8_step l issues = Some (issues ++ flat_map pep8_hits l).
Proof.
  induction l as [| il t IH]; intros issues; cbn [foldM flat_map].
  - now rewrite app_nil_r.
  - rewrite pep8_step_hits, IH, <- app_assoc. reflexivity.
Qed.

Lemma pep8_hits_spec (il : Z * string) (x : pep8_issue) :
  In x (pep8_hits il) ->
  pep_line x = fst il /\
  ((x = line_too_long (fst il) (snd il) /\ 79 < slen (snd il)) \/
   (x = trailing_whitespace (fst il) /\ ends_with_space (snd il) = true) \/
   (x = missing_whitespace (fst il) /\ tight_assignment (snd il) = true /\
    contains "==" (snd il) = false /\ contains "!=" (snd il) = false)).
Proof.
  unfold pep8_hits. intros H. apply in_app_or in H as [H | H];
    [| apply in_app_or in H as [H | H]].
  - destruct (Z.gtb_spec (slen (snd il)) 79) as [Hl | _]; [| contradiction].
    destruct H as [<- | []]. split; [reflexivity |]. left. split; [reflexivity | lia].
  - destruct (ends_with_space (snd il)) eqn:E; [| contradiction].
    destruct H as [<- | []]. split; [reflexivity |]. right. left. split; reflexivity.
  - destruct (tight_assignment (snd il)) eqn:E1; [| contradiction].
    destruct (contains "==" (snd il)) eqn:E2; [contradiction |].
    destruct (contains "!=" (snd il)) eqn:E3; [contradiction |].
    destruct H as [<- | []]. split; [reflexivity |]. right. right. repeat split.
Qed.

Lemma pep8_hits_le (il : Z * string) : len (pep8_hits il) <= 3.
Proof.
  unfold pep8_hits.
  destruct (slen (snd il) >? 79), (ends_with_space (snd il)),
    (tight_assignment (snd il) && negb (contains "==" (snd il))
     && negb (contains "!=" (snd il))); cbv; discriminate.
Qed.

Lemma pep8_long_lines (l : list (Z * string)) :
  map pep_line (filter (fun x => String.eqb (pep_code x) "E501") (flat_map pep8_hits l))
  = map fst (filter (fun il => slen (snd il) >? 79) l).
Proof.
  induction l as [| il t IH]; [reflexivity |].
  cbn [flat_map]. rewrite filter_app, map_app, IH. cbn [filter].
  unfold pep8_hits.
  destruct (slen (snd il) >? 79), (ends_with_space (snd il)),
    (tight_assignment (snd il) && negb (contains "==" (snd il))
     && negb (contains "!=" (snd il))); reflexivity.
Qed.

(** X24: [check_pep8_issues] never fails; its issues come in the order of
    the lines, three at most for each line; the lines of its E501 issues are
    those [find_long_lines] reports for the threshold 79; W291 is given
    for every line that [rstrip] shortens and for no other, and E225
    never for a line that holds [==] or [!=]. *)
Theorem X24_pep8_issues (self : analyzer) :
  exists found,
    check_pep8_issues self = Some found /\
    StronglySorted (fun a b => pep_line a <= pep_line b) found /\
    len found <= 3 * len (Basic.lines (base self)) /\
    map pep_line (filter (fun x => String.eqb (pep_code x) "E501") found)
    = map Basic.line_number (Basic.find_long_lines (base self) 79) /\
    Forall (fun x =>
              exists text,
                nth_error (Basic.lines (base self)) (Z.to_nat (pep_line x - 1)) = Some text /\
                ((pep_code x = "E501" /\ 79 < slen text) \/
                 (pep_code x = "W291" /\ rstrip text <> text) \/
                 (pep_code x = "E225" /\ contains "==" text = false /\
                  contains "!=" text = false)))
           found /\
    (forall k, Quality.count_if (fun x => pep_line x =? k) found <= 3) /\
    (forall n text,
        nth_error (Basic.lines (base self)) n = Some text ->
        rstrip text <> text ->
        In (trailing_whitespace (1 + Z.of_nat n)) found).
Proof.
  unfold check_pep8_issues. rewrite pep8_scan_closed, app_nil_l.
  eexists. split; [reflexivity |]. split; [| split; [| split; [| split; [| split]]]]; cycle 4.
  { intros k. rewrite (per_line_count pep_line).
    - destruct (nth_error (Basic.lines (base self)) (Z.to_nat (k - 1))) as [text |]; [| lia].
      destruct (1 <=? k); [apply pep8_hits_le | lia].
    - intros il x Hx. now apply pep8_hits_spec in Hx. }
  { intros n text Hn Hr. apply in_flat_map. exists (1 + Z.of_nat n, text).
    split; [now apply enumerate_nth_error |].
    unfold pep8_hits. cbn [fst snd]. apply in_or_app. right. apply in_or_app. left.
    pose proof (rstrip_same text) as R.
    destruct (ends_with_space text); [now left |].
    cbn [negb] in R. apply String.eqb_eq in R. contradiction. }
  - apply (line_order pep_line). intros il x Hx. now apply pep8_hits_spec in Hx.
  - rewrite <- (len_enumerate (Basic.lines (base self)) 1). apply len_flat_map_le.
    apply pep8_hits_le.
  - rewrite pep8_long_lines, find_long_lines_filter, map_map. reflexivity.
  - apply Forall_forall. intros x Hx.
    apply in_flat_map in Hx as ([i text] & Hil & Hx).
    apply pep8_hits_spec in Hx as [Hline Hx]. cbn [fst snd] in *.
    apply enumerate_In in Hil as [_ Hn]. exists text. rewrite Hline.
    split; [exact Hn |].
    destruct Hx as [[-> Hl] | [[-> He] | [-> (_ & H1 & H2)]]].
    + left. split; [reflexivity | exact Hl].
    + right. left. split; [reflexivity |]. intros E.
      pose proof (rstrip_same text) as R. rewrite E, String.eqb_refl, He in R. discriminate.
    + right. right. repeat split; assumption.
Qed.

End PythonStyle.

Section PythonMetrics.
Import PyStr Ast Python.

Variable ast_unparse : pyval -> string.
Variable ast_get_docstring : pyval -> option string.
Variable node_str : pyval -> string.
Variable float : Type.
Variable truediv : Z -> Z -> float.

Lemma sum_list_fold (xs : list Z) : forall a, fold_left Z.add xs a = a + sum_list xs.
Proof.
  unfold sum_list. induction xs as [| x t IH]; intros a; cbn [fold_left]; [lia |].
  rewrite (IH (a + x)), (IH (0 + x)). lia.
Qed.

Lemma sum_list_cons (x : Z) (xs : list Z) : sum_list (x :: xs) = x + sum_list xs.
Proof. unfold sum_list at 1. cbn [fold_left]. rewrite sum_list_fold. lia. Qed.

Lemma sum_list_ones {A : Type} (l : list A) : sum_list (map (fun _ => 1) l) = len l.
Proof.
  induction l as [| x t IH]; [reflexivity |].
  cbn [map]. rewrite sum_list_cons, IH, len_cons. reflexivity.
Qed.

Lemma sum_list_bound (m : Z) (xs : list Z) :
  Forall (fun x => x <= m) xs -> sum_list xs <= m * len xs.
Proof.
  induction 1 as [| x t Hx Ht IH].
  - change (sum_list []) with 0. change (len (@nil Z)) with 0. lia.
  - rewrite sum_list_cons, len_cons. lia.
Qed.

Lemma filter_none {A : Type} (p : A -> bool) (l : list A) :
  (forall x, In x l -> p x = false) -> filter p l = [].
Proof.
  induction l as [| x t IH]; intros H; [reflexivity |].
  cbn [filter]. rewrite (H x (or_introl eq_refl)). apply IH.
  intros y Hy. apply H. now right.
Qed.

(** X25: in [get_complexity_metrics], [max_complexity] bounds the
    complexity of every function; the list of functions of high
    complexity is empty exactly when [max_complexity] is 10 at most; the
    counts without docstring do not exceed the counts of functions and
    classes; and [average_complexity] is the quotient of the sum of the
    complexities by the number of functions, or by 1 when there is none:
    the divisor is never 0, and the sum is at most [max_complexity] times
    the divisor. *)
Theorem X25_complexity_metrics (self : analyzer) :
  let m := get_complexity_metrics ast_unparse ast_get_docstring node_str float truediv self in
  let functions := get_functions ast_unparse ast_get_docstring node_str self in
  cm_total_functions m = len functions /\
  Forall (fun f => fn_complexity f <= cm_max_complexity m) functions /\
  (cm_high_complexity_functions m = [] <-> cm_max_complexity m <= 10) /\
  cm_average_complexity m
  = truediv (sum_list (map fn_complexity functions)) (Z.max (cm_total_functions m) 1) /\
  1 <= Z.max (cm_total_functions m) 1 /\
  sum_list (map fn_complexity functions)
  <= cm_max_complexity m * Z.max (cm_total_functions m) 1 /\
  0 <= cm_functions_without_docstring m <= cm_total_functions m /\
  0 <= cm_classes_without_docstring m <= cm_total_classes m.
Proof.
  intros m functions. subst m. unfold get_complexity_metrics. fold functions.
  cbn [cm_total_functions cm_max_complexity cm_high_complexity_functions
       cm_average_complexity cm_functions_without_docstring
       cm_classes_without_docstring cm_total_classes].
  generalize (get_classes ast_unparse ast_get_docstring node_str self) as classes.
  generalize functions as fs. clear functions. intros fs classes.
  assert (Hmax : match map fn_complexity fs with
                 | [] => 0
                 | _ :: _ => Basic.max_default (map fn_complexity fs)
                 end = Basic.max_default (map fn_complexity fs)).
  { destruct (map fn_complexity fs); reflexivity. }
  rewrite Hmax. clear Hmax.
  destruct (max_default_spec (map fn_complexity fs)) as [Hall Hin].
  assert (Hbound : Forall (fun f => fn_complexity f <= Basic.max_default (map fn_complexity fs)) fs).
  { apply Forall_forall. intros f Hf. rewrite Forall_forall in Hall.
    apply Hall. now apply in_map. }
  split; [reflexivity |]. split; [exact Hbound |].
  split; [| split; [| split; [| split; [| split]]]].
  - split.
    + intros Hnil. destruct fs as [| f t]; [cbn; lia |].
      destruct Hin as [Hin | Hin]; [discriminate | |].
      * assert (Hf : ~ 10 < fn_complexity f).
        { intros Hgt. cbn [filter map] in Hnil.
          destruct (Z.gtb_spec (fn_complexity f) 10); [discriminate | lia]. }
        cbn [map] in *. lia.
      * cbn [map] in Hin. apply in_map_iff in Hin as (g & Hg & Hgin).
        assert (Hgf : In g (filter (fun f => fn_complexity f >? 10) (f :: t)) -> False).
        { intros K. apply (in_map fn_name) in K. rewrite Hnil in K. exact K. }
        destruct (Z.gtb_spec (fn_complexity g) 10) as [Hgt | Hle].
        -- exfalso. apply Hgf. apply filter_In. split; [now right |].
           now apply Z.gtb_lt.
        -- cbn [map] in *. lia.
    + intros Hle. rewrite filter_none; [reflexivity |].
      intros f Hf. rewrite Forall_forall in Hbound. specialize (Hbound f Hf).
      destruct (Z.gtb_spec (fn_complexity f) 10); [lia | reflexivity].
  - now rewrite len_map.
  - lia.
  - pose proof (sum_list_bound _ _ Hall) as Hs. rewrite len_map in Hs.
    destruct fs as [| f t].
    + cbn. lia.
    + rewrite len_cons in *. pose proof (len_nonneg t).
      replace (Z.max (1 + len t) 1) with (1 + len t) by lia. exact Hs.
  - rewrite sum_list_ones. pose proof (filter_len_le (fun f => negb (fn_has_docstring f)) fs).
    pose proof (len_nonneg (filter (fun f => negb (fn_has_docstring f)) fs)). lia.
  - rewrite sum_list_ones. pose proof (filter_len_le (fun c => negb (cl_has_docstring c)) classes).
    pose proof (len_nonneg (filter (fun c => negb (cl_has_docstring c)) classes)). lia.
Qed.

End PythonMetrics.

Section PythonCounts.
Import PyStr Ast Python.

Variable ast_unparse : pyval -> string.
Variable ast_get_docstring : pyval -> option string.
Variable node_str : pyval -> string.
Variable float : Type.
Variable truediv : Z -> Z -> float.

Lemma count_of_cons (p : pyval -> bool) (n : pyval) (l : list pyval) :
  count_of p (n :: l) = (if p n then 1 else 0) + count_of p l.
Proof. unfold count_of. cbn [filter]. destruct (p n); [apply len_cons | lia]. Qed.

Lemma count_of_app (p : pyval -> bool) (l l' : list pyval) :
  count_of p (l ++ l') = count_of p l + count_of p l'.
Proof. unfold count_of. now rewrite filter_app, len_app. Qed.

Lemma count_of_nonneg (p : pyval -> bool) (l : list pyval) : 0 <= count_of p l.
Proof. apply len_nonneg. Qed.

Lemma count_of_perm (p : pyval -> bool) (l l' : list pyval) :
  Permutation l l' -> count_of p l = count_of p l'.
Proof. induction 1; rewrite ?count_of_cons; lia. Qed.

Lemma methods_in_app (l l' : list pyval) : methods_in (l ++ l') = methods_in l + methods_in l'.
Proof.
  induction l as [| n t IH]; [reflexivity |].
  change (methods_in ((n :: t) ++ l')) with (methods_of n + methods_in (t ++ l')).
  change (methods_in (n :: t)) with (methods_of n + methods_in t). lia.
Qed.

Lemma methods_in_perm (l l' : list pyval) : Permutation l l' -> methods_in l = methods_in l'.
Proof.
  induction 1 as [| x l l' Hp IH | x y l | l l' l'' H1 IH1 H2 IH2].
  - reflexivity.
  - change (methods_of x + methods_in l = methods_of x + methods_in l'). lia.
  - change (methods_of y + (methods_of x + methods_in l)
            = methods_of x + (methods_of y + methods_in l)). lia.
  - lia.
Qed.

Lemma methods_of_nonneg (n : pyval) : 0 <= methods_of n.
Proof. unfold methods_of. destruct (isinstance n "ClassDef"); [apply count_of_nonneg | lia]. Qed.

Lemma methods_in_nonneg (l : list pyval) : 0 <= methods_in l.
Proof.
  induction l as [| n t IH]; [reflexivity |].
  change (methods_in (n :: t)) with (methods_of n + methods_in t).
  pose proof (methods_of_nonneg n). lia.
Qed.

(** The walk and the subtree hold the same nodes, so they count alike. *)
Lemma count_walk (p : pyval -> bool) (tree : pyval) :
  (forall v, is_node v = false -> p v = false) ->
  count_of p (walk tree) = count_of p (subtree tree).
Proof.
  intros Hp. destruct tree as [c fs | its | s | n |];
    try (unfold walk; cbn [node_count walk_queue subtree]; rewrite count_of_cons, Hp by reflexivity;
         reflexivity).
  apply count_of_perm, walk_subtree.
Qed.

Lemma methods_walk (tree : pyval) : methods_in (walk tree) = methods_in (subtree tree).
Proof.
  destruct tree as [c fs | its | s | n |]; try reflexivity.
  apply methods_in_perm, walk_subtree.
Qed.

Lemma is_function_node (v : pyval) : is_node v = false -> is_function v = false.
Proof. destruct v; [discriminate | reflexivity ..]. Qed.

Lemma is_class_node (v : pyval) : is_node v = false -> isinstance v "ClassDef" = false.
Proof. destruct v; [discriminate | reflexivity ..]. Qed.

(** The functions among the items of a field are children of the node. *)
Lemma functions_of_field (k : string) (fs : list (string * pyval)) :
  count_of is_function (elems (lookup k fs))
  <= count_of is_function (flat_map (fun kv => field_children (snd kv)) fs).
Proof.
  induction fs as [| [k' v] t IH]; cbn [lookup flat_map snd].
  - reflexivity.
  - rewrite count_of_app. pose proof (count_of_nonneg is_function (field_children v)).
    destruct (String.eqb k k'); [| lia].
    pose proof (count_of_nonneg is_function
                  (flat_map (fun kv => field_children (snd kv)) t)).
    destruct v as [c' fs' | its | s | n |]; cbn [elems];
      try (change (count_of is_function []) with 0; lia).
    cbn [field_children].
    assert (E : count_of is_function (filter is_node its) = count_of is_function its).
    { clear. induction its as [| y r IH]; [reflexivity |].
      cbn [filter]. destruct (is_node y) eqn:Hy.
      - rewrite !count_of_cons, IH. reflexivity.
      - rewrite count_of_cons, (is_function_node y Hy), IH. reflexivity. }
    lia.
Qed.

Lemma methods_of_children (c : string) (fs : list (string * pyval)) :
  methods_of (Obj c fs) <= count_of is_function (iter_child_nodes (Obj c fs)).
Proof.
  unfold methods_of. destruct (isinstance (Obj c fs) "ClassDef").
  - apply functions_of_field.
  - apply count_of_nonneg.
Qed.

(** Every method is a function of the tree that is not its root. *)
Lemma methods_bounded (k : nat) :
  forall t, (node_count t <= k)%nat ->
            methods_in (subtree t) + (if is_function t then 1 else 0)
            <= count_of is_function (subtree t).
Proof.
  induction k as [| k IH]; intros t Hk.
  - destruct t as [c fs | | | |]; try (cbn; lia).
    rewrite node_count_children in Hk. lia.
  - destruct t as [c fs | | | |]; try (cbn; lia).
    rewrite subtree_children, count_of_cons.
    change (methods_in (Obj c fs :: flat_map subtree (iter_child_nodes (Obj c fs))))
      with (methods_of (Obj c fs) + methods_in (flat_map subtree (iter_child_nodes (Obj c fs)))).
    pose proof (methods_of_children c fs) as Hm.
    assert (Hch : forall chs,
               (forall ch, In ch chs -> (node_count ch <= k)%nat) ->
               methods_in (flat_map subtree chs) + count_of is_function chs
               <= count_of is_function (flat_map subtree chs)).
    { induction chs as [| ch r IHr]; intros Hr; [reflexivity |].
      cbn [flat_map]. rewrite methods_in_app, count_of_app, count_of_cons.
      pose proof (IH ch (Hr ch (or_introl eq_refl))).
      pose proof (IHr (fun x Hx => Hr x (or_intror Hx))). lia. }
    specialize (Hch (iter_child_nodes (Obj c fs))).
    assert (Hsmall : forall ch, In ch (iter_child_nodes (Obj c fs)) -> (node_count ch <= k)%nat).
    { intros ch Hin. pose proof (child_smaller c fs ch Hin). lia. }
    specialize (Hch Hsmall). lia.
Qed.

Lemma methods_listed (classes : list pyval) :
  sum_list (map cl_method_count
                (map (class_of ast_unparse ast_get_docstring node_str)
                     (filter (fun n => isinstance n "ClassDef") classes)))
  = methods_in classes.
Proof.
  induction classes as [| n t IH]; [reflexivity |].
  change (methods_in (n :: t)) with (methods_of n + methods_in t).
  cbn [filter]. unfold methods_of.
  destruct (isinstance n "ClassDef"); [| rewrite IH; lia].
  cbn [map]. rewrite sum_list_cons, IH. f_equal.
  unfold class_of. cbn [cl_method_count]. rewrite fold_append_if. cbn [app].
  rewrite len_map. unfold count_of. f_equal. apply filter_ext. intros x.
  unfold isinstance_any, is_function. cbn [existsb]. now rewrite orb_false_r.
Qed.

(** X26: [get_complexity_metrics] counts every function definition of the
    parsed tree once, methods and nested functions included, and every
    class definition once; the methods it counts, the functions that
    stand in the body of a class, are never more than the functions. *)
Theorem X26_definitions_counted (self : analyzer) (tree : pyval)
        (H : ast_tree self = Some tree) :
  let m := get_complexity_metrics ast_unparse ast_get_docstring node_str float truediv self in
  cm_total_functions m = count_of is_function (subtree tree) /\
  cm_total_classes m = count_of (fun n => isinstance n "ClassDef") (subtree tree) /\
  cm_total_methods m = methods_in (subtree tree) /\
  0 <= cm_total_methods m <= cm_total_functions m.
Proof.
  intros m. subst m. unfold get_complexity_metrics, get_functions, get_classes.
  rewrite H, !fold_append_if.
  cbn [app cm_total_functions cm_total_classes cm_total_methods].
  rewrite !len_map, methods_listed, methods_walk.
  fold (count_of is_function (walk tree)).
  fold (count_of (fun n => isinstance n "ClassDef") (walk tree)).
  rewrite (count_walk is_function tree is_function_node).
  rewrite (count_walk _ tree is_class_node).
  split; [reflexivity |]. split; [reflexivity |]. split; [reflexivity |].
  pose proof (methods_in_nonneg (subtree tree)).
  pose proof (methods_bounded (node_count tree) tree (Nat.le_refl _)).
  destruct (is_function tree); lia.
Qed.

End PythonCounts.

(** X26 on a module with a class of two methods and one function. *)
Lemma X26_definitions_counted_witness :
  Python.ast_tree Python.sample_analyzer = Some Python.sample_module /\
  let m := Python.get_complexity_metrics (fun _ => EmptyString) (fun _ => None)
             (fun _ => EmptyString) Q (fun a b => (inject_Z a / inject_Z b)%Q)
             Python.sample_analyzer in
  Python.cm_total_functions m
  = Python.count_of Python.is_function (Ast.subtree Python.sample_module) /\
  Python.cm_total_classes m
  = Python.count_of (fun n => Ast.isinstance n "ClassDef") (Ast.subtree Python.sample_module) /\
  Python.cm_total_methods m = Python.methods_in (Ast.subtree Python.sample_module) /\
  0 <= Python.cm_total_methods m <= Python.cm_total_functions m.
Proof.
  split; [reflexivity |].
  exact (X26_definitions_counted (fun _ => EmptyString) (fun _ => None)
           (fun _ => EmptyString) Q (fun a b => (inject_Z a / inject_Z b)%Q)
           Python.sample_analyzer Python.sample_module eq_refl).
Defined.

Section DecoratorNames.
Import PyStr Ast Python.

Variable node_str : pyval -> string.








End DecoratorNames.

(** ** Duplicate lines and indentation *)

Section Duplicates.
Import PyStr Basic.

Lemma get_in {V : Type} (k : string) (v : V) (d : PyDict.dict V) :
  PyDict.get k d = Some v -> In (k, v) d.
Proof.
  induction d as [| [k' v'] t IH]; cbn [PyDict.get]; [discriminate |].
  destruct (String.eqb_spec k k') as [-> | N].
  - intros E. injection E as ->. now left.
  - intros E. right. now apply IH.
Qed.

Lemma in_get {V : Type} (k : string) (v : V) (d : PyDict.dict V) :
  NoDup (PyDict.keys d) -> In (k, v) d -> PyDict.get k d = Some v.
Proof.
  induction d as [| [k' v'] t IH]; cbn [PyDict.keys map fst PyDict.get]; [contradiction |].
  intros Hnd [E | Hin].
  - injection E as -> ->. now rewrite String.eqb_refl.
  - inversion Hnd as [| x l Hx Hl]; subst.
    destruct (String.eqb_spec k k') as [-> | N].
    + exfalso. apply Hx. change (In k' (map fst t)). now apply (in_map fst t (k', v)).
    + now apply IH.
Qed.

Lemma get_key {V : Type} (k : string) (d : PyDict.dict V) :
  PyDict.get k d = None -> ~ In k (PyDict.keys d).
Proof.
  induction d as [| [k' v'] t IH]; cbn [PyDict.keys map fst PyDict.get]; [auto |].
  destruct (String.eqb_spec k k') as [-> | N]; [discriminate |].
  intros E [H | H]; [congruence | now apply IH].
Qed.

Lemma keys_set {V : Type} (k : string) (v : V) (d : PyDict.dict V) :
  PyDict.keys (PyDict.set k v d)
  = if PyDict.mem k d then PyDict.keys d else PyDict.keys d ++ [k].
Proof.
  unfold PyDict.mem.
  induction d as [| [k' v'] t IH]; cbn [PyDict.set PyDict.get PyDict.keys map fst app];
    [reflexivity |].
  destruct (String.eqb k k'); cbn [map fst]; [reflexivity |].
  fold (PyDict.keys (PyDict.set k v t)). rewrite IH. fold (PyDict.keys t).
  destruct (PyDict.get k t); reflexivity.
Qed.

Lemma locate_scan (min_length : Z) (l : list (Z * string)) :
  forall d,
    NoDup (PyDict.keys d) ->
    exists d',
      foldM (locate min_length) l d = Some d' /\
      NoDup (PyDict.keys d') /\
      forall k, PyDict.get k d' = merged (PyDict.get k d) (located min_length k l).
Proof.
  induction l as [| [i line] t IH]; intros d Hd.
  - exists d. split; [reflexivity |]. split; [exact Hd |].
    intros k. unfold located. cbn [filter map].
    destruct (PyDict.get k d); cbn [merged]; [now rewrite app_nil_r | reflexivity].
  - cbn [foldM]. unfold locate at 1. unfold located. cbn [filter snd].
    destruct (slen (strip line) >=? min_length) eqn:Hq.
    + unfold PyDict.mem, append_at.
      destruct (PyDict.get (strip line) d) as [l0 |] eqn:Hg; cbn [negb].
      * rewrite Hg.
        destruct (IH (PyDict.set (strip line) (l0 ++ [i]) d)) as (d' & -> & Hnd & Hget).
        { rewrite keys_set. unfold PyDict.mem. now rewrite Hg. }
        exists d'. split; [reflexivity |]. split; [exact Hnd |].
        intros k. rewrite Hget. unfold located.
        destruct (String.eqb_spec (strip line) k) as [<- | N]; cbn [andb].
        -- rewrite get_set_same, Hg. cbn [map fst merged]. now rewrite <- app_assoc.
        -- rewrite get_set_other by congruence. reflexivity.
      * rewrite get_set_same.
        destruct (IH (PyDict.set (strip line) ([] ++ [i]) (PyDict.set (strip line) [] d)))
          as (d' & -> & Hnd & Hget).
        { rewrite !keys_set. unfold PyDict.mem. rewrite get_set_same, Hg.
          apply NoDup_app_remove_l with (l := []). cbn [app].
          apply Permutation_NoDup with (l := strip line :: PyDict.keys d).
          - apply Permutation_cons_append.
          - constructor; [now apply get_key | exact Hd]. }
        exists d'. split; [reflexivity |]. split; [exact Hnd |].
        intros k. rewrite Hget. unfold located.
        destruct (String.eqb_spec (strip line) k) as [<- | N]; cbn [andb].
        -- rewrite get_set_same, Hg. cbn [map fst merged app]. reflexivity.
        -- rewrite !get_set_other by congruence. reflexivity.
    + destruct (IH d Hd) as (d' & -> & Hnd & Hget).
      exists d'. split; [reflexivity |]. split; [exact Hnd |].
      intros k. rewrite Hget. unfold located. rewrite andb_false_r. reflexivity.
Qed.

Lemma located_long (min_length : Z) (k : string) (l : list (Z * string)) :
  min_length <= slen k -> located min_length k l = positions_of k l.
Proof.
  intros Hk. unfold located, positions_of. f_equal. apply filter_ext. intros il.
  destruct (String.eqb_spec (strip (snd il)) k) as [-> | N]; [| reflexivity].
  cbn [andb]. apply Z.geb_le. exact Hk.
Qed.

Lemma located_some (min_length : Z) (k : string) (l : list (Z * string)) :
  located min_length k l <> [] -> min_length <= slen k.
Proof.
  unfold located. intros H.
  destruct (filter _ l) as [| il r] eqn:E; [contradiction |].
  assert (Hin : In il (filter (fun il => String.eqb (strip (snd il)) k
                                         && (slen (strip (snd il)) >=? min_length)) l)).
  { rewrite E. now left. }
  apply filter_In in Hin as [_ Hc]. apply andb_true_iff in Hc as [H1 H2].
  apply String.eqb_eq in H1. subst k. apply Z.geb_le in H2. exact H2.
Qed.

(** *** The sort *)

Lemma insert_desc_perm (x : duplicate) (l : list duplicate) :
  Permutation (insert_desc x l) (x :: l).
Proof.
  induction l as [| y t IH]; cbn [insert_desc]; [reflexivity |].
  destruct (occurrences y <? occurrences x); [reflexivity |].
  rewrite IH. apply perm_swap.
Qed.

Lemma insert_desc_sorted (x : duplicate) (l : list duplicate) :
  StronglySorted by_occurrences l -> StronglySorted by_occurrences (insert_desc x l).
Proof.
  induction 1 as [| y t Ht IH Hy]; cbn [insert_desc].
  - repeat constructor.
  - destruct (Z.ltb_spec (occurrences y) (occurrences x)) as [Hlt | Hge].
    + constructor; [constructor; assumption |].
      constructor; [unfold by_occurrences; lia |].
      eapply Forall_impl; [| exact Hy]. unfold by_occurrences. intros a Ha. lia.
    + constructor; [exact IH |].
      apply (Permutation_Forall (Permutation_sym (insert_desc_perm x t))).
      constructor; [unfold by_occurrences; lia | exact Hy].
Qed.

Lemma sorted_by_occurrences_spec (l : list duplicate) :
  forall acc,
    StronglySorted by_occurrences acc ->
    StronglySorted by_occurrences (fold_left (fun acc x => insert_desc x acc) l acc) /\
    Permutation (fold_left (fun acc x => insert_desc x acc) l acc) (l ++ acc).
Proof.
  induction l as [| x t IH]; intros acc Hacc; cbn [fold_left app].
  - split; [exact Hacc | reflexivity].
  - destruct (IH (insert_desc x acc) (insert_desc_sorted x acc Hacc)) as [Hs Hp].
    split; [exact Hs |]. rewrite Hp, insert_desc_perm. symmetry. apply Permutation_middle.
Qed.

(** X28: [find_duplicates] never fails (no key is missing when a position
    is appended); its records come by falling number of occurrences; each
    record is for a stripped text of [min_length] characters or more, lists
    all the positions of the lines with that text, in rising order, two at
    least, and counts them; and every such text found on two lines or more
    has its record. *)
Theorem X28_duplicates (code language : string) (min_length : Z) :
  exists found,
    find_duplicates (init code language) min_length = Some found /\
    StronglySorted by_occurrences found /\
    Forall (fun r =>
              exists text,
                dup_content r = shown80 text /\
                min_length <= slen text /\
                dup_lines r = positions_of text (enumerate 1 (split_lines code)) /\
                occurrences r = len (dup_lines r) /\
                2 <= occurrences r)
           found /\
    (forall text,
        min_length <= slen text ->
        2 <= len (positions_of text (enumerate 1 (split_lines code))) ->
        exists r,
          In r found /\ dup_content r = shown80 text /\
          dup_lines r = positions_of text (enumerate 1 (split_lines code))).
Proof.
  unfold find_duplicates, init. cbn [lines].
  destruct (locate_scan min_length (enumerate 1 (split_lines code)) [])
    as (d & -> & Hnd & Hget); [constructor |].
  rewrite fold_append_if. cbn [app].
  destruct (sorted_by_occurrences_spec
              (map duplicate_of (filter (fun kv => len (snd kv) >? 1) d)) [])
    as [Hs Hp]; [constructor |].
  rewrite app_nil_r in Hp.
  eexists. split; [reflexivity |]. split; [exact Hs |]. split.
  - unfold sorted_by_occurrences. apply (Permutation_Forall (Permutation_sym Hp)).
    apply Forall_forall. intros r Hr. apply in_map_iff in Hr as ([k locs] & <- & Hin).
    apply filter_In in Hin as [Hin Hlen]. cbn [snd] in Hlen.
    apply (in_get k locs d Hnd) in Hin. rewrite Hget in Hin. cbn [PyDict.get merged] in Hin.
    assert (Hloc : located min_length k (enumerate 1 (split_lines code)) = locs).
    { destruct (located min_length k (enumerate 1 (split_lines code)));
        [discriminate | now injection Hin]. }
    assert (Hk : min_length <= slen k).
    { apply (located_some min_length k (enumerate 1 (split_lines code))).
      rewrite Hloc. intros ->. discriminate. }
    exists k. cbn [duplicate_of dup_content occurrences dup_lines fst snd].
    split; [reflexivity |]. split; [exact Hk |].
    split; [now rewrite <- Hloc, located_long |].
    split; [reflexivity |]. apply Z.gtb_lt in Hlen. lia.
  - intros text Hk Htwo.
    exists (duplicate_of (text, positions_of text (enumerate 1 (split_lines code)))).
    split; [| split; reflexivity].
    unfold sorted_by_occurrences. apply (Permutation_in _ (Permutation_sym Hp)).
    apply in_map. apply filter_In. cbn [snd]. split; [| apply Z.gtb_lt; lia].
    apply get_in. rewrite Hget, (located_long _ _ _ Hk). cbn [PyDict.get merged].
    destruct (positions_of text (enumerate 1 (split_lines code))); [| reflexivity].
    change (len (@nil Z)) with 0 in Htwo. lia.
Qed.

End Duplicates.

Section Indentation.
Import PyStr Basic.

Lemma count_up_keys (x : Z) (c : list (Z * Z)) (y : Z) :
  In y (map fst (count_up x c)) -> y = x \/ In y (map fst c).
Proof.
  induction c as [| [z n] t IH]; cbn [count_up map fst].
  - intros [<- | []]. now left.
  - destruct (Z.eqb_spec x z) as [-> | N]; cbn [map fst].
    + intros [<- | H]; [now left | right; now right].
    + intros [<- | H]; [right; now left |].
      destruct (IH H) as [-> | K]; [now left | right; now right].
Qed.

Lemma Counter_keys (xs : list Z) (y : Z) : In y (map fst (Counter xs)) -> In y xs.
Proof.
  unfold Counter.
  assert (H : forall c, In y (map fst (fold_left (fun c x => count_up x c) xs c)) ->
                        In y xs \/ In y (map fst c)).
  { induction xs as [| x t IH]; intros c; cbn [fold_left]; [now right |].
    intros K. destruct (IH _ K) as [K' | K']; [left; now right |].
    apply count_up_keys in K' as [-> | K']; [left; now left | now right]. }
  intros K. destruct (H [] K) as [K' | []]. exact K'.
Qed.

Lemma insert_count_perm (x : Z * Z) (l : list (Z * Z)) :
  Permutation (insert_count x l) (x :: l).
Proof.
  induction l as [| y t IH]; cbn [insert_count]; [reflexivity |].
  destruct (snd y <? snd x); [reflexivity |].
  rewrite IH. apply perm_swap.
Qed.

Lemma firstn_subset {A : Type} (n : nat) (l : list A) (x : A) : In x (firstn n l) -> In x l.
Proof.
  revert l. induction n as [| n IH]; intros [| y t]; cbn [firstn]; try contradiction.
  intros [<- | H]; [now left | right; now apply IH].
Qed.

Lemma insert_counts_perm (c : list (Z * Z)) :
  forall acc,
    Permutation (fold_left (fun acc x => insert_count x acc) c acc) (c ++ acc).
Proof.
  induction c as [| x t IH]; intros acc; cbn [fold_left app]; [reflexivity |].
  rewrite IH, insert_count_perm. symmetry. apply Permutation_middle.
Qed.

Lemma most_common_keys (n : nat) (c : list (Z * Z)) (y : Z) :
  In y (map fst (most_common n c)) -> In y (map fst c).
Proof.
  unfold most_common. intros H. apply in_map_iff in H as (p & <- & Hp).
  apply firstn_subset in Hp. apply in_map.
  apply (Permutation_in _ (insert_counts_perm c [])) in Hp. now rewrite app_nil_r in Hp.
Qed.

Lemma first_size_spec (l : list (Z * Z)) (size : Z) :
  first_size l = Some size -> In size [2; 4; 8] /\ In size (map fst l).
Proof.
  induction l as [| [s n] t IH]; cbn [first_size map fst]; [discriminate |].
  destruct (existsb (Z.eqb s) [2; 4; 8]) eqn:E.
  - intros K. injection K as <-. split; [| now left].
    apply existsb_exists in E as (z & Hz & Hs). apply Z.eqb_eq in Hs. now subst z.
  - intros K. destruct (IH K) as [A B]. split; [exact A | now right].
Qed.

(** One step of the loop: the line is counted once if it is indented, and
    its leading white space is recorded when it holds no tabulation. *)
Lemma indent_step_spec (st : indent_state) (line : string) :
  tabs_count st <= tabs_count (indent_step st line) /\
  mixed_count st <= mixed_count (indent_step st line) /\
  tabs_count (indent_step st line) + spaces_count (indent_step st line)
  + mixed_count (indent_step st line)
  = tabs_count st + spaces_count st + mixed_count st + (if indented line then 1 else 0) /\
  ((indent_sizes (indent_step st line) = indent_sizes st /\
    spaces_count (indent_step st line) = spaces_count st) \/
   (indent_sizes (indent_step st line) = indent_sizes st ++ [leading_whitespace line] /\
    spaces_count (indent_step st line) = spaces_count st + 1 /\
    indented line = true /\
    contains tab (take (Z.to_nat (leading_whitespace line)) line) = false)).
Proof.
  unfold indent_step, indented.
  destruct (nonempty (strip line)); cbn [negb andb]; [| repeat split; try lia; now left].
  destruct (leading_whitespace line =? 0); cbn [negb]; [repeat split; try lia; now left |].
  destruct (contains tab (take (Z.to_nat (leading_whitespace line)) line)) eqn:Ht;
    cbn [andb].
  - destruct (contains " " (take (Z.to_nat (leading_whitespace line)) line));
      cbn [tabs_count spaces_count mixed_count indent_sizes];
      repeat split; try lia; now left.
  - cbn [tabs_count spaces_count mixed_count indent_sizes].
    repeat split; try lia. right. repeat split.
Qed.

Lemma indent_scan (l : list string) :
  forall st,
    exists extra,
      indent_sizes (fold_left indent_step l st) = indent_sizes st ++ extra /\
      Forall (fun size =>
                exists line,
                  In line l /\ indented line = true /\ leading_whitespace line = size /\
                  contains tab (take (Z.to_nat size) line) = false)
             extra /\
      spaces_count (fold_left indent_step l st) = spaces_count st + len extra /\
      tabs_count st <= tabs_count (fold_left indent_step l st) /\
      mixed_count st <= mixed_count (fold_left indent_step l st) /\
      tabs_count (fold_left indent_step l st) + spaces_count (fold_left indent_step l st)
      + mixed_count (fold_left indent_step l st)
      = tabs_count st + spaces_count st + mixed_count st + Quality.count_if indented l.
Proof.
  induction l as [| line t IH]; intros st; cbn [fold_left].
  - exists []. rewrite app_nil_r. change (len (@nil Z)) with 0.
    change (Quality.count_if indented []) with 0.
    repeat split; try lia. constructor.
  - destruct (IH (indent_step st line)) as (extra & Hs & Hall & Hsp & Htab & Hmix & Hsum).
    assert (Hlift : Forall (fun size =>
                exists line0,
                  In line0 (line :: t) /\ indented line0 = true /\
                  leading_whitespace line0 = size /\
                  contains tab (take (Z.to_nat size) line0) = false) extra).
    { eapply Forall_impl; [| exact Hall]. cbv beta.
      intros size (line0 & Hin & H1 & H2 & H3). exists line0. repeat split; auto. now right. }
    rewrite count_if_cons, Hsum, Hs, Hsp.
    destruct (indent_step_spec st line) as (A & B & C & [[D E] | (D & E & F & G)]).
    + exists extra. rewrite D, E. repeat split; try lia; assumption.
    + exists (leading_whitespace line :: extra). rewrite D, E, <- app_assoc, len_cons.
      cbn [app]. repeat split; try lia.
      constructor; [| exact Hlift].
      exists line. split; [now left |]. repeat split; assumption.
Qed.

(** X29: [get_indentation_analysis] counts every line that is not blank
    and starts with white space once, as tabs, spaces or mixed; the
    indent size it detects is 2, 4 or 8, and when it is not the default 4
    it is the leading white space of a line counted as spaces; the style
    is tabs exactly when more lines are counted as tabs than as spaces. *)
Theorem X29_indentation (code language : string) :
  let r := get_indentation_analysis (init code language) in
  tabs_usage r + spaces_usage r + mixed_usage r
  = Quality.count_if indented (split_lines code) /\
  0 <= tabs_usage r /\ 0 <= spaces_usage r /\ 0 <= mixed_usage r /\
  In (detected_indent_size r) [2; 4; 8] /\
  (detected_indent_size r = 4 \/
   exists line,
     In line (split_lines code) /\ indented line = true /\
     leading_whitespace line = detected_indent_size r /\
     contains tab (take (Z.to_nat (detected_indent_size r)) line) = false) /\
  (style r = "tabs" <-> spaces_usage r < tabs_usage r).
Proof.
  intros r. subst r. unfold get_indentation_analysis, init. cbn [lines].
  destruct (indent_scan (split_lines code)
              {| tabs_count := 0; spaces_count := 0; mixed_count := 0; indent_sizes := [] |})
    as (extra & Hs & Hall & Hsp & Htab & Hmix & Hsum).
  cbn [tabs_count spaces_count mixed_count indent_sizes app] in *.
  cbn [tabs_usage spaces_usage mixed_usage detected_indent_size style].
  rewrite Hs. pose proof (len_nonneg extra).
  split; [lia |]. split; [lia |]. split; [lia |]. split; [lia |].
  assert (Hsize : match extra with
                  | [] => 4
                  | _ :: _ =>
                      match most_common 3 (Counter extra) with
                      | [] => 4
                      | _ :: _ =>
                          match first_size (most_common 3 (Counter extra)) with
                          | Some size => size
                          | None => 4
                          end
                      end
                  end = 4 \/
                  exists size,
                    match extra with
                    | [] => 4
                    | _ :: _ =>
                        match most_common 3 (Counter extra) with
                        | [] => 4
                        | _ :: _ =>
                            match first_size (most_common 3 (Counter extra)) with
                            | Some size => size
                            | None => 4
                            end
                        end
                    end = size /\ In size [2; 4; 8] /\ In size extra).
  { destruct extra as [| e0 et]; [now left |].
    destruct (most_common 3 (Counter (e0 :: et))) as [| m0 mt] eqn:Em; [now left |].
    destruct (first_size (m0 :: mt)) as [size |] eqn:Ef; [| now left].
    right. exists size. apply first_size_spec in Ef as [A B].
    split; [reflexivity |]. split; [exact A |].
    apply Counter_keys. apply (most_common_keys 3). rewrite Em. exact B. }
  split; [| split].
  - destruct Hsize as [-> | (size & -> & A & _)]; [right; now left | exact A].
  - destruct Hsize as [E | (size & E & _ & B)]; [now left |].
    right. rewrite E. rewrite Forall_forall in Hall. exact (Hall size B).
  - destruct (Z.gtb_spec (tabs_count (fold_left indent_step (split_lines code)
                {| tabs_count := 0; spaces_count := 0; mixed_count := 0;
                   indent_sizes := [] |}))
              (spaces_count (fold_left indent_step (split_lines code)
                {| tabs_count := 0; spaces_count := 0; mixed_count := 0;
                   indent_sizes := [] |}))) as [Hgt | Hle].
    + split; [intros _; exact Hgt | reflexivity].
    + split; [discriminate | lia].
Qed.

End Indentation.

Section Imports.
Import PyStr Ast Python.

Lemma add_import_fits (category : import_category) (r : import_record) (i : imports) :
  well_classified i -> fits category r -> well_classified (add_import category r i).
Proof.
  intros (A & B & C) Hr. unfold well_classified.
  destruct category; cbn [add_import in_standard in_third_party in_local];
    repeat split; try assumption; apply Forall_app; split; try assumption;
    constructor; [exact Hr | constructor | exact Hr | constructor | exact Hr | constructor].
Qed.

Lemma add_imports_fit {A : Type} (category : import_category) (mk : A -> import_record)
      (l : list A) :
  (forall a, fits category (mk a)) ->
  forall i, well_classified i ->
            well_classified (fold_left (fun acc a => add_import category (mk a) acc) l i).
Proof.
  intros Hmk. induction l as [| a t IH]; intros i Hi; cbn [fold_left]; [exact Hi |].
  apply IH. now apply add_import_fits.
Qed.

Lemma import_step_fits (i : imports) (node : pyval) :
  well_classified i -> well_classified (import_step i node).
Proof.
  intros Hi. unfold import_step.
  destruct (isinstance node "Import").
  - revert i Hi. induction (elems (attr node "names")) as [| alias t IH]; intros i Hi;
      cbn [fold_left]; [exact Hi |].
    apply IH. apply add_import_fits; [exact Hi |].
    destruct (str_in (before_dot (str_of (attr alias "name"))) standard_libs) eqn:E;
      exact E.
  - destruct (isinstance node "ImportFrom"); [| exact Hi].
    destruct (truthy (attr node "module")); [| exact Hi].
    apply add_imports_fit; [| exact Hi]. intros alias.
    destruct (match attr node "level" with Int n => n >? 0 | _ => false end).
    + cbn [fits imp_name]. discriminate.
    + destruct (str_in (before_dot (str_of (attr node "module"))) standard_libs) eqn:E;
        exact E.
Qed.

(** X30: [get_imports] files every record under the key its module calls
    for: under [standard] the first component of the module name is one of
    the standard libraries, under [third_party] it is not, and under
    [local] stand records of [from] imports only, never a plain
    [import]. *)
Theorem X30_imports_classified (self : analyzer) :
  Forall (fun r => str_in (first_component r) standard_libs = true)
         (in_standard (get_imports self)) /\
  Forall (fun r => str_in (first_component r) standard_libs = false)
         (in_third_party (get_imports self)) /\
  Forall (fun r => imp_name r <> None) (in_local (get_imports self)).
Proof.
  change (well_classified (get_imports self)). unfold get_imports.
  assert (H0 : well_classified no_imports) by (repeat split; constructor).
  destruct (ast_tree self) as [tree |]; [| exact H0].
  generalize (walk tree) as nodes. intros nodes. revert H0. generalize no_imports as i.
  induction nodes as [| n t IH]; intros i Hi; cbn [fold_left]; [exact Hi |].
  apply IH. now apply import_step_fits.
Qed.

End Imports.
